(** * Taekwondo technique analysis and training-load risk engine

    A shallow embedding of the decision logic of

    - [src/injury_prevention_system/config.py] (module [Config]),
    - [src/injury_prevention_system/acwr_calculator.py] (module [Acwr]),
    - the [TaekwondoAnalyzer] class of [src/app.py] (module [App]),

    followed by the properties proved about it.

    Numbers.  Python [int]s are [Z].  Python [float]s are modelled as exact
    rationals [Q]: a decimal literal such as [0.8] denotes [8 # 10], and
    arithmetic is exact.  Equality on floats is [Qeq] ([==]).

    Where exact rationals and binary floats part ways.  An exact sum does
    not depend on the order of its summands, and exact rounding decides a
    decimal tie by the decimal digits; a sum of binary floats can depend
    on the order when the summands are not whole numbers, and [round]
    sees the binary value, which lies on one side of a decimal tie.  The
    properties below are of a kind both satisfy (comparisons with the
    thresholds, bounds, monotonicity, counts), or are stated for inputs
    on which the two agree: whole-number loads, and scores that are
    multiples of 0.5. *)

From Stdlib Require Import ZArith QArith Qround Qabs Qminmax Lqa Lia List Ascii.
From stdpp Require Import gmap strings list pretty sorting.
Import ListNotations.
Open Scope Z_scope.

(** ** Python numerics *)

Module Py.

(** Comparison of floats, as booleans. *)
Definition Qleb (a b : Q) : bool := Qle_bool a b.
Definition Qltb (a b : Q) : bool := negb (Qle_bool b a).
Definition Qeqb (a b : Q) : bool := Qeq_bool a b.

(** Nearest integer, ties to the even neighbour (what [round] does). *)
Definition round_half_even (q : Q) : Z :=
  let f := Qfloor q in
  match Qcompare (q - inject_Z f) (1 # 2) with
  | Lt => f
  | Gt => f + 1
  | Eq => if Z.even f then f else f + 1
  end.

Definition pow10 (n : nat) : Q := inject_Z (10 ^ Z.of_nat n).

(** [round(q, ndigits)]. *)
Definition round (q : Q) (ndigits : nat) : Q :=
  Qred (inject_Z (round_half_even (q * pow10 ndigits)) / pow10 ndigits).

(** [a / b]; a zero divisor is the failure ([ZeroDivisionError]). *)
Definition div (a b : Q) : option Q :=
  if Qeqb b 0 then None else Some (a / b)%Q.

(** An insertion-ordered dict with string keys that the code iterates
    over with [.items()]: an association list. [d[k]] is [odict_get]. *)
Fixpoint odict_get {V : Type} (d : list (string * V)) (k : string) : option V :=
  match d with
  | [] => None
  | (k', v) :: rest => if String.eqb k' k then Some v else odict_get rest k
  end.

(** [str.capitalize] on ASCII text. *)
Definition upper (c : ascii) : ascii :=
  let n := nat_of_ascii c in
  if (97 <=? n)%nat && (n <=? 122)%nat then ascii_of_nat (n - 32) else c.
Definition lower (c : ascii) : ascii :=
  let n := nat_of_ascii c in
  if (65 <=? n)%nat && (n <=? 90)%nat then ascii_of_nat (n + 32) else c.
Fixpoint lower_all (s : string) : string :=
  match s with
  | EmptyString => EmptyString
  | String c rest => String (lower c) (lower_all rest)
  end.
Definition capitalize (s : string) : string :=
  match s with
  | EmptyString => EmptyString
  | String c rest => String (upper c) (lower_all rest)
  end.

(** A datetime is a count of microseconds; [timedelta(days=n)]. *)
Definition timedelta_days (n : Z) : Z := n * 86400000000.

End Py.

(** ** config.py *)

Module Config.

Record RiskColors := {
  low : string; moderate : string; high : string; very_high : string }.

Definition RISK_COLORS : RiskColors :=
  {| low := "#28A745"; moderate := "#FFC107";
     high := "#DC3545"; very_high := "#721C24" |}.

Record ZoneInfo := {
  zmin : Q; zmax : Q; color : string; label : string }.

(** In declaration order, which is the order [.items()] yields. *)
Definition RISK_ZONES : list (string * ZoneInfo) :=
  [ ("undertrained",
      {| zmin := 0; zmax := 8 # 10;
         color := moderate RISK_COLORS; label := "Undertrained" |}%Q);
    ("optimal",
      {| zmin := 8 # 10; zmax := 13 # 10;
         color := low RISK_COLORS; label := "Optimal Zone" |});
    ("high_risk",
      {| zmin := 13 # 10; zmax := 15 # 10;
         color := moderate RISK_COLORS; label := "Elevated Risk" |});
    ("danger",
      {| zmin := 15 # 10; zmax := 2;
         color := high RISK_COLORS; label := "High Risk" |}%Q);
    ("critical",
      {| zmin := 2; zmax := 999;
         color := very_high RISK_COLORS; label := "Critical Risk" |}%Q) ].

Definition WELLNESS_WEIGHTS : list (string * Q) :=
  [ ("sleep_quality", 25 # 100);
    ("fatigue", 20 # 100);
    ("muscle_soreness", 20 # 100);
    ("stress", 15 # 100);
    ("mood", 10 # 100);
    ("motivation", 10 # 100) ].

Record AlertThresholds := {
  acwr_warning : Q;
  acwr_danger : Q;
  wellness_warning : Q;
  consecutive_high_load_days : Z }.

Definition ALERT_THRESHOLDS : AlertThresholds :=
  {| acwr_warning := 13 # 10;
     acwr_danger := 15 # 10;
     wellness_warning := 5%Q;
     consecutive_high_load_days := 3 |}.

Definition ACUTE_PERIOD_DAYS : Z := 7.
Definition CHRONIC_PERIOD_DAYS : Z := 28.

End Config.

(** ** acwr_calculator.py *)

Module Acwr.
Import Py Config.

(** One row of the training-data frame: the ['date'] and
    ['training_load'] columns. *)
Record TrainingRow := { date : Z; training_load : Q }.

(** [df[(df['date'] > start) & (df['date'] <= stop)]]. *)
Definition rows_between (df : list TrainingRow) (start stop : Z)
  : list TrainingRow :=
  filter (fun r => start < date r ∧ date r <= stop) df.

(** [data['training_load'].sum()].  The sum is exact here; the code
    adds floats in row order, which gives the same value whenever the
    loads are whole numbers (duration x RPE) with partial sums below
    2^53. *)
Definition load_sum (rows : list TrainingRow) : Q :=
  fold_left (fun acc r => (acc + training_load r)%Q) rows 0%Q.

(** [calculate_acwr].  [now] is the clock reading used when no date is
    passed; a date given as text is parsed by the caller. *)
Definition calculate_acwr (now : Z) (training_data : list TrainingRow)
    (calculation_date : option Z) : option Q :=
  let calculation_date := default now calculation_date in
  let df := training_data in
  let acute_start := calculation_date - timedelta_days ACUTE_PERIOD_DAYS in
  let chronic_start := calculation_date - timedelta_days CHRONIC_PERIOD_DAYS in
  let acute_data := rows_between df acute_start calculation_date in
  let acute_load := load_sum acute_data in
  let chronic_data := rows_between df chronic_start calculation_date in
  let chronic_load := load_sum chronic_data in
  acute_avg ← div acute_load (inject_Z ACUTE_PERIOD_DAYS);
  chronic_avg ← div chronic_load (inject_Z CHRONIC_PERIOD_DAYS);
  if Qeqb chronic_avg 0 then
    if Qeqb acute_avg 0 then Some 1%Q else Some 2%Q
  else
    acwr ← div acute_avg chronic_avg;
    Some (round acwr 2).

Record RiskLevel := {
  zone : string; rl_label : string; rl_color : string; rl_acwr : Q }.

(** [zone_info['min'] <= acwr < zone_info['max']]. *)
Definition in_zone (zone_info : ZoneInfo) (acwr : Q) : bool :=
  Qleb (zmin zone_info) acwr && Qltb acwr (zmax zone_info).

(** [RISK_ZONES[name]['color']]; every name the code uses is a key. *)
Definition zone_color (name : string) : string :=
  match odict_get RISK_ZONES name with
  | Some zone_info => color zone_info
  | None => ""
  end.

Fixpoint first_zone (zones : list (string * ZoneInfo)) (acwr : Q)
  : option (string * ZoneInfo) :=
  match zones with
  | [] => None
  | (zone_name, zone_info) :: rest =>
      if in_zone zone_info acwr then Some (zone_name, zone_info)
      else first_zone rest acwr
  end.

Definition get_risk_level (acwr : Q) : RiskLevel :=
  match first_zone RISK_ZONES acwr with
  | Some (zone_name, zone_info) =>
      {| zone := zone_name; rl_label := label zone_info;
         rl_color := color zone_info; rl_acwr := acwr |}
  | None =>
      {| zone := "critical"; rl_label := "Critical Risk";
         rl_color := zone_color "critical"; rl_acwr := acwr |}
  end.

(** The [normalized] dict of [calculate_wellness_score]. *)
Definition normalized (sleep_quality fatigue muscle_soreness stress
    mood motivation : Z) : gmap string Z :=
  <["sleep_quality" := sleep_quality]>
  (<["fatigue" := 11 - fatigue]>
  (<["muscle_soreness" := 11 - muscle_soreness]>
  (<["stress" := 11 - stress]>
  (<["mood" := mood]>
  (<["motivation" := motivation]> ∅))))).

(** The loop [for metric, weight in ...: score += normalized[metric] * weight];
    a missing key is the failure. *)
Fixpoint weighted_sum (norm : gmap string Z) (weights : list (string * Q))
    (score : Q) : option Q :=
  match weights with
  | [] => Some score
  | (metric, weight) :: rest =>
      v ← norm !! metric;
      weighted_sum norm rest (score + inject_Z v * weight)%Q
  end.

Definition calculate_wellness_score (sleep_quality fatigue muscle_soreness
    stress mood motivation : Z) : option Q :=
  score ← weighted_sum
    (normalized sleep_quality fatigue muscle_soreness stress mood motivation)
    WELLNESS_WEIGHTS 0%Q;
  Some (round (score * 10) 1).

Record CombinedRisk := {
  combined_risk : Q;
  acwr_risk : Q;
  wellness_risk : Q;
  status : string;
  cr_color : string;
  recommendation : string }.

(** The [if] chain under [# Determine overall status]: status, colour
    and recommendation. *)
Definition overall_status (combined_risk : Q) : string * string * string :=
  if Qltb combined_risk 25%Q then
    ("Low Risk", "#28A745",
     "Athlete is in good condition. Continue current program.")
  else if Qltb combined_risk 45%Q then
    ("Moderate Risk", "#FFC107",
     "Monitor closely. Consider reducing intensity slightly.")
  else if Qltb combined_risk 65%Q then
    ("Elevated Risk", "#FD7E14",
     "Reduce training load by 20-30%. Focus on recovery.")
  else if Qltb combined_risk 80%Q then
    ("High Risk", "#DC3545",
     "Significantly reduce training. Prioritize rest and recovery.")
  else
    ("Critical Risk", "#721C24",
     "URGENT: Rest required. Consult medical staff before training.").

(** [calculate_combined_risk].  The weighted sum is exact here before
    it is rounded; on a decimal tie of that sum the code's float may
    round to the other neighbour, so the rounded fields are only
    compared with bounds, never with a tie value. *)
Definition calculate_combined_risk (acwr wellness_score : Q) : CombinedRisk :=
  let acwr_risk : Q :=
    (if Qltb acwr (8 # 10) then 30
     else if Qleb acwr (13 # 10) then 10
     else if Qleb acwr (15 # 10) then 50
     else if Qleb acwr 2 then 75
     else 95)%Q in
  let wellness_risk := (100 - wellness_score)%Q in
  let combined_risk := (acwr_risk * (6 # 10) + wellness_risk * (4 # 10))%Q in
  let '(status, color, recommendation) := overall_status combined_risk in
  {| combined_risk := round combined_risk 1;
     acwr_risk := acwr_risk;
     wellness_risk := round wellness_risk 1;
     status := status;
     cr_color := color;
     recommendation := recommendation |}.

Record Alert := {
  type : string;
  athlete_id : string;
  athlete_name : string;
  message : string;
  action : string;
  timestamp : string }.

Section Alerts.
(** How an f-string renders a float, and the clock: [now_iso k] is
    what [datetime.now().isoformat()] reads when [k] alerts have been
    appended so far. *)
Variable fmt : Q -> string.
Variable now_iso : nat -> string.

(** The block under [# ACWR alerts], appending to [alerts]. *)
Definition acwr_alerts (athlete_id athlete_name : string) (acwr : Q)
    (alerts : list Alert) : list Alert :=
  if Qleb 2%Q acwr then
    alerts ++ [ {| type := "critical";
                   athlete_id := athlete_id;
                   athlete_name := athlete_name;
                   message := "CRITICAL: ACWR at " +:+ fmt acwr
                              +:+ " - Very high injury risk!";
                   action := "Immediate rest required. Contact medical staff.";
                   timestamp := now_iso (length alerts) |} ]
  else if Qleb (acwr_danger ALERT_THRESHOLDS) acwr then
    alerts ++ [ {| type := "warning";
                   athlete_id := athlete_id;
                   athlete_name := athlete_name;
                   message := "WARNING: ACWR at " +:+ fmt acwr
                              +:+ " - High injury risk";
                   action := "Reduce training load significantly";
                   timestamp := now_iso (length alerts) |} ]
  else if Qleb (acwr_warning ALERT_THRESHOLDS) acwr then
    alerts ++ [ {| type := "caution";
                   athlete_id := athlete_id;
                   athlete_name := athlete_name;
                   message := "CAUTION: ACWR at " +:+ fmt acwr
                              +:+ " - Elevated risk";
                   action := "Monitor closely and consider reducing intensity";
                   timestamp := now_iso (length alerts) |} ]
  else alerts.

(** The block under [# Wellness alerts], appending to [alerts]. *)
Definition wellness_alerts (athlete_id athlete_name : string)
    (wellness_score : Q) (alerts : list Alert) : list Alert :=
  if Qltb wellness_score (wellness_warning ALERT_THRESHOLDS) then
    alerts ++ [ {| type := "warning";
                   athlete_id := athlete_id;
                   athlete_name := athlete_name;
                   message := "LOW WELLNESS: Score at " +:+ fmt wellness_score
                              +:+ "/100";
                   action := "Check in with athlete. Consider recovery day.";
                   timestamp := now_iso (length alerts) |} ]
  else alerts.

(** [check_alerts]; the [combined_risk] argument is not read. *)
Definition check_alerts (athlete_id athlete_name : string)
    (acwr wellness_score : Q) (combined_risk : gmap string Q)
    : list Alert :=
  let alerts := [] in
  let alerts := acwr_alerts athlete_id athlete_name acwr alerts in
  let alerts := wellness_alerts athlete_id athlete_name wellness_score alerts in
  alerts.

End Alerts.

End Acwr.

(** ** app.py: class TaekwondoAnalyzer *)

Module App.
Import Py.

(** The values a metrics dict holds. *)
Inductive PyVal :=
| PyInt (i : Z)
| PyFloat (q : Q)
| PyStr (s : string).

(** A number read back from a dict; comparing text with a number is the
    failure ([TypeError]). *)
Definition as_num (v : PyVal) : option Q :=
  match v with
  | PyInt i => Some (inject_Z i)
  | PyFloat q => Some q
  | PyStr _ => None
  end.

(** One pose landmark as the pose model supplies it. *)
Record Landmark := { x : Q; y : Q; z : Q; visibility : Q }.

(** [np.array([lm.x, lm.y, lm.z])] and its components [p[1]], [p[2]]. *)
Definition Vec3 : Type := Q * Q * Q.
Definition vx (p : Vec3) : Q := fst (fst p).
Definition vy (p : Vec3) : Q := snd (fst p).
Definition vz (p : Vec3) : Q := snd p.
Definition vsub (p q : Vec3) : Vec3 :=
  (vx p - vx q, vy p - vy q, vz p - vz q)%Q.
Definition norm_sq (v : Vec3) : Q := (vx v * vx v + vy v * vy v + vz v * vz v)%Q.

Definition LANDMARKS : gmap string nat :=
  list_to_map
    [ ("nose", 0); ("left_shoulder", 11); ("right_shoulder", 12);
      ("left_elbow", 13); ("right_elbow", 14);
      ("left_wrist", 15); ("right_wrist", 16);
      ("left_hip", 23); ("right_hip", 24);
      ("left_knee", 25); ("right_knee", 26);
      ("left_ankle", 27); ("right_ankle", 28);
      ("left_foot", 31); ("right_foot", 32) ]%nat.

(** [get_landmark]: an unknown name, an index past the end (the
    exception the code catches) and a visibility under 0.5 all give
    [None]. *)
Definition get_landmark (landmarks : list Landmark) (name : string)
  : option Vec3 :=
  match LANDMARKS !! name with
  | None => None
  | Some idx =>
      match landmarks !! idx with
      | None => None
      | Some lm =>
          if Qltb (visibility lm) (1 # 2) then None
          else Some (x lm, y lm, z lm)
      end
  end.

(** [get_visibility]; [if idx] is false for a missing name and for
    index 0. *)
Definition get_visibility (landmarks : list Landmark) (name : string) : Q :=
  match LANDMARKS !! name with
  | None => 0
  | Some O => 0
  | Some idx =>
      match landmarks !! idx with
      | None => 0
      | Some lm => visibility lm
      end
  end.

(** [np.mean].  (Of an empty list it is nan; where it is used below the
    list holds at least the two hips, which passed the visibility
    gate.) *)
Definition mean (l : list Q) : Q :=
  (fold_left Qplus l 0 / inject_Z (Z.of_nat (length l)))%Q.

Section Analyzer.
(** [np.degrees(np.arccos(np.clip(np.dot(v1/n1, v2/n2), -1.0, 1.0)))]
    for two vectors that passed the length test: not a rational
    function, so it is a parameter of the development. *)
Variable degrees_between : Vec3 -> Vec3 -> Q.

(** [calculate_angle]; [n < 1e-6] is tested on the squared norm. *)
Definition calculate_angle (p1 p2 p3 : option Vec3) : Q :=
  match p1, p2, p3 with
  | Some p1, Some p2, Some p3 =>
      let v1 := vsub p1 p2 in
      let v2 := vsub p3 p2 in
      if Qltb (norm_sq v1) (1 # 1000000000000)
         || Qltb (norm_sq v2) (1 # 1000000000000)
      then 0
      else degrees_between v1 v2
  | _, _, _ => 0
  end.

(** The local variables of [analyze_frame] that the metrics dict and
    the kick detector read. *)
Record Measured := {
  kick_leg : string;
  kick_height : Q;
  knee_angle : Q;
  hip_flexion : Q;
  support_knee_angle : Q;
  hip_rotation : Q;
  level : string;
  vis : Q }.

(** [analyze_frame] from its first line to the visibility score:
    [None] is one of the early [return None]s. *)
Definition measure (landmarks : option (list Landmark)) : option Measured :=
  match landmarks with
  | None => None
  | Some landmarks =>
    let nose := get_landmark landmarks "nose" in
    let l_shoulder := get_landmark landmarks "left_shoulder" in
    let r_shoulder := get_landmark landmarks "right_shoulder" in
    let l_hip := get_landmark landmarks "left_hip" in
    let r_hip := get_landmark landmarks "right_hip" in
    let l_knee := get_landmark landmarks "left_knee" in
    let r_knee := get_landmark landmarks "right_knee" in
    let l_ankle := get_landmark landmarks "left_ankle" in
    let r_ankle := get_landmark landmarks "right_ankle" in
    let l_foot := get_landmark landmarks "left_foot" in
    let r_foot := get_landmark landmarks "right_foot" in
    if bool_decide (l_hip = None) || bool_decide (r_hip = None) then None
    else if bool_decide (l_ankle = None) && bool_decide (r_ankle = None)
    then None
    else
      let l_y := match l_foot with
                 | Some p => vy p
                 | None => match l_ankle with Some p => vy p | None => 1 end
                 end in
      let r_y := match r_foot with
                 | Some p => vy p
                 | None => match r_ankle with Some p => vy p | None => 1 end
                 end in
      let '(kick_leg, kick_foot, kick_ankle, kick_knee, kick_hip,
            support_ankle, support_knee, support_hip, kick_shoulder) :=
        if Qltb l_y r_y then
          ("left", match l_foot with Some p => Some p | None => l_ankle end,
           l_ankle, l_knee, l_hip, r_ankle, r_knee, r_hip, l_shoulder)
        else
          ("right", match r_foot with Some p => Some p | None => r_ankle end,
           r_ankle, r_knee, r_hip, l_ankle, l_knee, l_hip, r_shoulder) in
      let kick_height :=
        match support_ankle, nose, kick_foot with
        | Some support_ankle, Some nose, Some kick_foot =>
            let body_h := Qabs (vy support_ankle - vy nose) in
            if Qltb (1 # 100) body_h then
              Qmax 0 (Qmin 100
                ((vy support_ankle - vy kick_foot) / body_h * 100))
            else 0
        | _, _, _ => 0
        end in
      let knee_angle := calculate_angle kick_hip kick_knee kick_ankle in
      let hip_flexion := calculate_angle kick_shoulder kick_hip kick_knee in
      let support_knee_angle :=
        calculate_angle support_hip support_knee support_ankle in
      let hip_rotation :=
        match l_shoulder, r_shoulder with
        | Some l, Some r => Qmin 45 (Qabs (vz l - vz r) * 200)
        | _, _ => 0
        end in
      let level :=
        if Qleb 70 kick_height then "HEAD"
        else if Qleb 50 kick_height then "CHEST"
        else if Qleb 30 kick_height then "BODY"
        else "LOW" in
      let vis_scores :=
        map (get_visibility landmarks)
          ["left_hip"; "right_hip"; "left_knee"; "right_knee";
           "left_ankle"; "right_ankle"] in
      let visibility :=
        mean (List.filter (fun v => Qltb 0 v) vis_scores) * 100 in
      Some {| kick_leg := kick_leg; kick_height := kick_height;
              knee_angle := knee_angle; hip_flexion := hip_flexion;
              support_knee_angle := support_knee_angle;
              hip_rotation := hip_rotation; level := level;
              vis := visibility |}
  end%Q.

Record TaekwondoAnalyzer := {
  detected_kicks : list (gmap string PyVal);
  metrics_history : list (gmap string PyVal);
  frame_analysis : list (gmap string PyVal);
  cooldown : Z }.

(** [__init__]. *)
Definition new : TaekwondoAnalyzer :=
  {| detected_kicks := []; metrics_history := [];
     frame_analysis := []; cooldown := 0 |}.

(** The [metrics] dict literal. *)
Definition metrics_of (m : Measured) (frame_time : Q) (frame_idx : Z)
  : gmap string PyVal :=
  <["frame_idx" := PyInt frame_idx]>
  (<["frame_time" := PyFloat frame_time]>
  (<["kick_height" := PyFloat (round (kick_height m) 1)]>
  (<["knee_angle" := PyFloat (round (knee_angle m) 1)]>
  (<["hip_flexion" := PyFloat (round (hip_flexion m) 1)]>
  (<["support_knee" := PyFloat (round (support_knee_angle m) 1)]>
  (<["hip_rotation" := PyFloat (round (hip_rotation m) 1)]>
  (<["kicking_leg" := PyStr (capitalize (kick_leg m))]>
  (<["level" := PyStr (level m)]>
  (<["visibility" := PyFloat (round (vis m) 1)]> ∅))))))))).

(** The block under [# Detect kicks]. *)
Definition detect_kick (self : TaekwondoAnalyzer) (m : Measured)
    (metrics : gmap string PyVal) : TaekwondoAnalyzer :=
  if Qleb 25 (kick_height m) && (cooldown self =? 0) then
    let kick_data :=
      <["kick_number" :=
          PyInt (Z.of_nat (length (detected_kicks self)) + 1)]> metrics in
    {| detected_kicks := detected_kicks self ++ [kick_data];
       metrics_history := metrics_history self;
       frame_analysis := frame_analysis self;
       cooldown := 10 |}
  else self.

(** [if self.cooldown > 0: self.cooldown -= 1]. *)
Definition tick (self : TaekwondoAnalyzer) : TaekwondoAnalyzer :=
  if 0 <? cooldown self then
    {| detected_kicks := detected_kicks self;
       metrics_history := metrics_history self;
       frame_analysis := frame_analysis self;
       cooldown := cooldown self - 1 |}
  else self.

(** [analyze_frame]: the analyzer after the call and what it returns. *)
Definition analyze_frame (self : TaekwondoAnalyzer)
    (landmarks : option (list Landmark)) (frame_time : Q) (frame_idx : Z)
  : TaekwondoAnalyzer * option (gmap string PyVal) :=
  match measure landmarks with
  | None => (self, None)
  | Some m =>
      let metrics := metrics_of m frame_time frame_idx in
      let self := detect_kick self m metrics in
      let self := tick self in
      ({| detected_kicks := detected_kicks self;
          metrics_history := metrics_history self ++ [metrics];
          frame_analysis := frame_analysis self ++ [metrics];
          cooldown := cooldown self |},
       Some metrics)
  end.

(** One call of the processing loop, and a whole stream fed in order
    to a fresh analyzer. *)
Record Frame := {
  landmarks : option (list Landmark);
  frame_time : Q;
  frame_idx : Z }.

Definition feed (self : TaekwondoAnalyzer) (f : Frame) : TaekwondoAnalyzer :=
  fst (analyze_frame self (landmarks f) (frame_time f) (frame_idx f)).

Definition run_from (self : TaekwondoAnalyzer) (frames : list Frame)
  : TaekwondoAnalyzer :=
  fold_left feed frames self.

Definition run (frames : list Frame) : TaekwondoAnalyzer :=
  run_from new frames.

End Analyzer.

(** [metrics.get(key, 0)] read as a number. *)
Definition get_num (metrics : gmap string PyVal) (key : string) : option Q :=
  as_num (default (PyInt 0) (metrics !! key)).

Definition Feedback : Type := string * string.

(** [calculate_score]: the score and the feedback list. *)
Definition calculate_score (metrics : gmap string PyVal)
  : option (Z * list Feedback) :=
  if bool_decide (metrics = ∅) then Some (0, [])
  else
    let score := 0 in
    let feedback : list Feedback := [] in
    knee ← get_num metrics "knee_angle";
    let '(score, feedback) :=
      if Qleb 160 knee then
        (score + 25, feedback ++ [("Full leg extension - maximum power", "success")])
      else if Qleb 140 knee then
        (score + 20, feedback ++ [("Good extension - aim for full lock", "info")])
      else if Qleb 120 knee then
        (score + 15, feedback ++ [("Moderate extension - extend further", "warning")])
      else
        (score + 10, feedback ++ [("Bent knee - focus on extension", "warning")]) in
    height ← get_num metrics "kick_height";
    let '(score, feedback) :=
      if Qleb 70 height then
        (score + 30, feedback ++ [("Head level - competition standard", "success")])
      else if Qleb 50 height then
        (score + 22, feedback ++ [("Chest level - good target area", "info")])
      else if Qleb 30 height then
        (score + 15, feedback ++ [("Body level - increase flexibility", "warning")])
      else
        (score + 8, feedback ++ [("Low kick - work on hip mobility", "warning")]) in
    hip ← get_num metrics "hip_flexion";
    let '(score, feedback) :=
      if Qleb 110 hip then
        (score + 20, feedback ++ [("Excellent hip chamber", "success")])
      else if Qleb 90 hip then
        (score + 15, feedback ++ [("Good chamber position", "info")])
      else
        (score + 10, feedback ++ [("Improve knee chamber", "warning")]) in
    support ← get_num metrics "support_knee";
    let '(score, feedback) :=
      if Qleb 160 support && Qleb support 180 then
        (score + 15, feedback ++ [("Stable base - excellent balance", "success")])
      else if Qleb 140 support then
        (score + 10, feedback ++ [("Good stability", "info")])
      else
        (score + 5, feedback ++ [("Straighten support leg", "warning")]) in
    vis ← get_num metrics "visibility";
    let score :=
      if Qleb 80 vis then score + 10
      else if Qleb 60 vis then score + 7
      else score + 4 in
    Some (Z.min 100 score, feedback).

Definition grades : list (Z * string * string * string) :=
  [ (90, "A+", "Elite", "#4ade80");
    (85, "A", "Excellent", "#4ade80");
    (80, "A-", "Very Good", "#4ade80");
    (75, "B+", "Good", "#60a5fa");
    (70, "B", "Above Average", "#60a5fa");
    (65, "B-", "Fair", "#fbbf24");
    (60, "C+", "Average", "#fbbf24");
    (55, "C", "Below Average", "#f97316");
    (0, "D", "Needs Work", "#ef4444") ].

Fixpoint first_grade (table : list (Z * string * string * string))
    (score : Z) : string * string * string :=
  match table with
  | [] => ("D", "Needs Work", "#ef4444")
  | (threshold, grade, text, color) :: rest =>
      if threshold <=? score then (grade, text, color)
      else first_grade rest score
  end.

Definition get_grade (score : Z) : string * string * string :=
  first_grade grades score.

End App.


(** ** acwr_calculator.py: status, recommendations, rolling ratio, spikes *)

Module AcwrTools.
Import Py Config Acwr.

Record WellnessStatus := {
  ws_status : string; ws_color : string; ws_emoji : string }.

Definition get_wellness_status (wellness_score : Q) : WellnessStatus :=
  if Qleb 75 wellness_score then
    {| ws_status := "Excellent"; ws_color := "#28A745"; ws_emoji := "ðŸŸ¢" |}
  else if Qleb 60 wellness_score then
    {| ws_status := "Good"; ws_color := "#17A2B8"; ws_emoji := "ðŸ”µ" |}
  else if Qleb 45 wellness_score then
    {| ws_status := "Fair"; ws_color := "#FFC107"; ws_emoji := "ðŸŸ¡" |}
  else if Qleb 30 wellness_score then
    {| ws_status := "Poor"; ws_color := "#FD7E14"; ws_emoji := "ðŸŸ " |}
  else
    {| ws_status := "Critical"; ws_color := "#DC3545"; ws_emoji := "ðŸ”´" |}.

(** The columns of [recent_data] that [generate_recommendations] reads. *)
Record RecentRow := {
  c_fatigue : Q; c_muscle_soreness : Q; c_sleep_quality : Q }.

(** [series.tail(n)]: the last [n] rows, all of them when there are
    fewer. *)
Definition tail {A : Type} (n : nat) (l : list A) : list A :=
  drop (length l - n) l.

(** [recent_data[column].tail(3).mean()]. *)
Definition tail3_mean (column : RecentRow -> Q) (recent_data : list RecentRow) : Q :=
  App.mean (tail 3 (map column recent_data)).

Definition generate_recommendations (acwr wellness_score : Q)
    (recent_data : list RecentRow) : list string :=
  let recommendations : list string := [] in
  let recommendations :=
    if Qltb (15 # 10) acwr then
      recommendations ++ [ "ðŸ”´ REDUCE training load by 30-40% this week" ] ++ [ "ðŸ“‰ Avoid high-intensity sessions for 3-5 days" ]
    else if Qltb (13 # 10) acwr then
      recommendations ++ [ "ðŸŸ¡ Consider reducing training intensity by 15-20%" ] ++ [ "ðŸ“Š Monitor closely for signs of fatigue" ]
    else if Qltb acwr (8 # 10) then
      recommendations ++ [ "ðŸ“ˆ Training load is below optimal - gradual increase recommended" ] ++ [ "âš ï¸ Avoid sudden load spikes when returning to full training" ]
    else recommendations in
  let recommendations :=
    if Qltb wellness_score 50 then
      recommendations ++ [ "ðŸ˜´ Prioritize sleep (aim for 8+ hours)" ] ++ [ "ðŸ§˜ Include active recovery sessions" ]
    else recommendations in
  let recommendations :=
    if negb (bool_decide (recent_data = [])) then
      let recent_fatigue := tail3_mean c_fatigue recent_data in
      let recent_soreness := tail3_mean c_muscle_soreness recent_data in
      let recent_sleep := tail3_mean c_sleep_quality recent_data in
      let recommendations :=
        if Qltb 7 recent_fatigue then recommendations ++ [ "âš¡ High fatigue detected - schedule a rest day" ]
        else recommendations in
      let recommendations :=
        if Qltb 7 recent_soreness then recommendations ++ [ "ðŸ’ª Elevated soreness - include foam rolling/massage" ]
        else recommendations in
      let recommendations :=
        if Qltb recent_sleep 5 then recommendations ++ [ "ðŸŒ™ Sleep quality declining - review sleep hygiene" ]
        else recommendations in
      recommendations
    else recommendations in
  let recommendations :=
    if bool_decide (recommendations = []) then
      recommendations ++ [ "âœ… Current training load is appropriate" ] ++ [ "ðŸ“Š Continue monitoring daily wellness" ]
    else recommendations in
  recommendations.

(** [df.sort_values('date')]. *)
Definition date_le (a b : TrainingRow) : Prop := date a <= date b.

#[export] Instance date_le_dec (a b : TrainingRow) : Decision (date_le a b) :=
  Z_le_dec (date a) (date b).

Definition sort_values (df : list TrainingRow) : list TrainingRow :=
  merge_sort date_le df.





Record Spike := { sp_date : string; sp_ratio : Q; sp_load : Q }.

(** [rolling(window=7, min_periods=1).mean()] at row [i]: the mean of
    the rows [max(0, i - 6) .. i]. *)
Definition rolling_avg (loads : list Q) (i : nat) : Q :=
  App.mean (drop (i - 6) (take (S i) loads)).

(** [df['rolling_avg'].shift(7)] with zeros replaced by NaN ([None]). *)
Definition prev_rolling_avg (loads : list Q) (i : nat) : option Q :=
  if (7 <=? i)%nat then
    let p := rolling_avg loads (i - 7) in
    if Qeqb p 0 then None else Some p
  else None.

(** [df['load_ratio']]: NaN wherever the divisor is NaN. *)
Definition load_ratio (loads : list Q) (i : nat) : option Q :=
  p ← prev_rolling_avg loads i;
  Some (rolling_avg loads i / p)%Q.

Section Spikes.
(** [row['date'].strftime('%Y-%m-%d')]. *)
Variable strftime : Z -> string.

Definition detect_load_spikes (training_data : list TrainingRow)
    (threshold : Q) : list Spike :=
  let df := sort_values training_data in
  let loads := map training_load df in
  omap id
    (imap (fun i row =>
             match load_ratio loads i with
             | Some ratio =>
                 if Qltb threshold ratio then
                   Some {| sp_date := strftime (date row);
                           sp_ratio := round ratio 2;
                           sp_load := training_load row |}
                 else None
             | None => None
             end) df).
End Spikes.

End AcwrTools.

(** ** app.py: TaekwondoAnalyzer.get_statistics *)

Module Stats.
Import Py App.

Record Statistics := {
  total_kicks : Z;
  avg_height : Q;
  max_height : Q;
  avg_knee : Q;
  frames : Z }.

(** [m[key]] used as a number: a missing key ([KeyError]) and a text
    value ([TypeError]) are the failures. *)
Definition item_num (m : gmap string PyVal) (key : string) : option Q :=
  v ← m !! key; as_num v.

(** [[m[key] for m in history if m[key] > 0]]. *)
Fixpoint positive_items (key : string) (history : list (gmap string PyVal))
  : option (list Q) :=
  match history with
  | [] => Some []
  | m :: rest =>
      v ← item_num m key;
      items ← positive_items key rest;
      Some (if Qltb 0 v then v :: items else items)
  end.

(** [max] of a list that is not empty: the first of its largest
    elements. *)
Definition py_max (l : list Q) : Q :=
  match l with
  | [] => 0
  | v :: rest => fold_left Qmax rest v
  end.

Definition get_statistics (self : TaekwondoAnalyzer) : option Statistics :=
  if bool_decide (metrics_history self = []) then
    Some {| total_kicks := 0; avg_height := 0; max_height := 0;
            avg_knee := 0; frames := 0 |}
  else
    heights ← positive_items "kick_height" (metrics_history self);
    knees ← positive_items "knee_angle" (metrics_history self);
    Some {| total_kicks := Z.of_nat (length (detected_kicks self));
            avg_height :=
              if bool_decide (heights = []) then 0 else round (mean heights) 1;
            max_height :=
              if bool_decide (heights = []) then 0 else round (py_max heights) 1;
            avg_knee :=
              if bool_decide (knees = []) then 0 else round (mean knees) 1;
            frames := Z.of_nat (length (metrics_history self)) |}.

End Stats.

(** ** app.py: class TrajectoryTracker *)

Module Trajectory.
Import Py.

(** One entry of [foot_positions]: the dict [{'x', 'y', 'frame'}]. *)
Record Position := { x : Z; y : Z; frame : Z }.

Record TrajectoryTracker := {
  foot_positions : list Position;
  max_points : Z }.

(** [__init__]. *)
Definition new : TrajectoryTracker :=
  {| foot_positions := []; max_points := 30 |}.

(** [add_position]; [pop(0)] drops the oldest entry. *)
Definition add_position (self : TrajectoryTracker) (x y frame_idx : Z)
  : TrajectoryTracker :=
  let foot_positions :=
    foot_positions self ++ [ {| x := x; y := y; frame := frame_idx |} ] in
  let foot_positions :=
    if max_points self <? Z.of_nat (length foot_positions)
    then drop 1 foot_positions
    else foot_positions in
  {| foot_positions := foot_positions; max_points := max_points self |}.

Definition clear (self : TrajectoryTracker) : TrajectoryTracker :=
  {| foot_positions := []; max_points := max_points self |}.

Record TrajectoryStats := {
  total_distance : Q;
  vertical_range : Z;
  points_tracked : Z }.

Section Stats.
(** [np.sqrt] on the squared pixel distance: not a rational function,
    so it is a parameter. *)
Variable sqrt : Z -> Q.

(** The loop of [get_trajectory_stats] from index 1 on: [prev] is the
    entry before [rest]; [max_height] starts at [float('inf')], which
    is [None]. *)
Fixpoint stats_loop (prev : Position) (rest : list Position)
    (total_dist : Q) (max_height : option Z) (min_height : Z)
  : Q * option Z * Z :=
  match rest with
  | [] => (total_dist, max_height, min_height)
  | p :: rest =>
      let dx := x p - x prev in
      let dy := y p - y prev in
      let total_dist := (total_dist + sqrt (dx * dx + dy * dy))%Q in
      let max_height :=
        match max_height with
        | None => Some (y p)
        | Some m => if y p <? m then Some (y p) else Some m
        end in
      let min_height := if min_height <? y p then y p else min_height in
      stats_loop p rest total_dist max_height min_height
  end.

(** [get_trajectory_stats]; [None] is the empty dict returned when
    fewer than two points are tracked. *)
Definition get_trajectory_stats (self : TrajectoryTracker)
  : option TrajectoryStats :=
  match foot_positions self with
  | first :: (_ :: _) as rest =>
      match stats_loop first rest 0 None 0 with
      | (total_dist, Some max_height, min_height) =>
          Some {| total_distance := round total_dist 1;
                  vertical_range := Z.abs (min_height - max_height);
                  points_tracked := Z.of_nat (length (foot_positions self)) |}
      | (_, None, _) => None
      end
  | _ => None
  end.
End Stats.

End Trajectory.

(** ** app.py: class WTScoringSimulator *)

Module WTScoring.
Import Py App.

Record ZoneRule := { base_points : Z; spinning_bonus : Z }.
Record TechnicalRule := { turning_kick : Z; spinning_kick : Z }.

Record ScoringZones := {
  sz_head : ZoneRule; sz_trunk : ZoneRule; sz_technical : TechnicalRule }.

Definition SCORING_ZONES : ScoringZones :=
  {| sz_head := {| base_points := 3; spinning_bonus := 1 |};
     sz_trunk := {| base_points := 2; spinning_bonus := 1 |};
     sz_technical := {| turning_kick := 1; spinning_kick := 2 |} |}.

Record HeightThresholds := { ht_head : Q; ht_trunk : Q; ht_low : Q }.

Definition HEIGHT_THRESHOLDS : HeightThresholds :=
  {| ht_head := 75; ht_trunk := 40; ht_low := 0 |}.

(** The [result] dict of [evaluate_kick]. *)
Record KickResult := {
  scored : bool;
  points : Z;
  zone : option string;
  technique_bonus : Z;
  reason : string }.

(** One entry of [scoring_events]. *)
Record ScoringEvent := {
  ev_kick : gmap string PyVal;
  ev_result : KickResult;
  ev_time : PyVal }.

Record WTScoringSimulator := {
  sim_points : gmap string Z;
  scoring_events : list ScoringEvent;
  round_scores : list Z }.

(** [__init__]. *)
Definition new : WTScoringSimulator :=
  {| sim_points := <["blue" := 0]> (<["red" := 0]> ∅);
     scoring_events := [];
     round_scores := [] |}.

(** [d.get(key, default)]. *)
Definition get (d : gmap string PyVal) (key : string) (dflt : PyVal) : PyVal :=
  default dflt (d !! key).

(** [evaluate_kick] from [# Add spinning bonus] on, for a kick in a
    scoring zone. *)
Definition score_in_zone (self : WTScoringSimulator)
    (kick_data : gmap string PyVal) (is_spinning : bool)
    (knee_chamber : PyVal) (zone : string) (points : Z) (reason : string)
  : option (WTScoringSimulator * KickResult) :=
  let '(technique_bonus, points, reason) :=
    if is_spinning then (1, points + 1, reason +:+ " + Spinning technique")
    else (0, points, reason) in
  knee_chamber ← as_num knee_chamber;
  let '(points, reason) :=
    if Qltb 150 knee_chamber then
      (Z.max 0 (points - 1), reason +:+ " (weak technique: -1)")
    else (points, reason) in
  let result :=
    {| scored := 0 <? points; points := points; zone := Some zone;
       technique_bonus := technique_bonus; reason := reason |} in
  let self :=
    if scored result then
      {| sim_points := sim_points self;
         scoring_events :=
           scoring_events self ++
             [ {| ev_kick := kick_data; ev_result := result;
                  ev_time := get kick_data "frame_time" (PyInt 0) |} ];
         round_scores := round_scores self |}
    else self in
  Some (self, result).

(** [evaluate_kick]: the simulator after the call and the result;
    [None] is a comparison of text with a number. *)
Definition evaluate_kick (self : WTScoringSimulator)
    (kick_data : gmap string PyVal) (is_spinning : bool)
  : option (WTScoringSimulator * KickResult) :=
  let height := get kick_data "kick_height" (PyInt 0) in
  let knee_chamber := get kick_data "knee_angle" (PyInt 180) in
  height ← as_num height;
  if Qleb (ht_head HEIGHT_THRESHOLDS) height then
    score_in_zone self kick_data is_spinning knee_chamber
      "head" (base_points (sz_head SCORING_ZONES)) "Head-level kick"
  else if Qleb (ht_trunk HEIGHT_THRESHOLDS) height then
    score_in_zone self kick_data is_spinning knee_chamber
      "trunk" (base_points (sz_trunk SCORING_ZONES)) "Trunk-level kick"
  else
    Some (self, {| scored := false; points := 0; zone := Some "low";
                   technique_bonus := 0; reason := "Below scoring zone" |}).

(** The dict [get_match_simulation] returns. *)
Record MatchSimulation := {
  total_points : Z;
  head_kicks : Z;
  trunk_kicks : Z;
  scoring_rate : string;
  average_points_per_kick : Q;
  ms_scoring_events : list ScoringEvent }.

(** The [for kick in all_kicks] loop. *)
Fixpoint simulate (self : WTScoringSimulator)
    (kicks : list (gmap string PyVal)) (total_points head_kicks trunk_kicks : Z)
  : option (WTScoringSimulator * Z * Z * Z) :=
  match kicks with
  | [] => Some (self, total_points, head_kicks, trunk_kicks)
  | kick :: rest =>
      hip_rotation ← as_num (get kick "hip_rotation" (PyInt 0));
      let is_spinning := Qltb 45 hip_rotation in
      '(self, result) ← evaluate_kick self kick is_spinning;
      let '(total_points, head_kicks, trunk_kicks) :=
        if scored result then
          let total_points := total_points + points result in
          if bool_decide (zone result = Some "head") then
            (total_points, head_kicks + 1, trunk_kicks)
          else if bool_decide (zone result = Some "trunk") then
            (total_points, head_kicks, trunk_kicks + 1)
          else (total_points, head_kicks, trunk_kicks)
        else (total_points, head_kicks, trunk_kicks) in
      simulate self rest total_points head_kicks trunk_kicks
  end.

Section Simulation.
(** How [f"{v:.1f}"] renders a float. *)
Variable fmt1 : Q -> string.

Definition get_match_simulation (self : WTScoringSimulator)
    (all_kicks : list (gmap string PyVal))
  : option (WTScoringSimulator * MatchSimulation) :=
  '(self, total_points, head_kicks, trunk_kicks) ←
    simulate self all_kicks 0 0 0;
  let n := inject_Z (Z.of_nat (length all_kicks)) in
  Some (self,
        {| total_points := total_points;
           head_kicks := head_kicks;
           trunk_kicks := trunk_kicks;
           scoring_rate :=
             if bool_decide (all_kicks = []) then "0%"
             else fmt1 (inject_Z (head_kicks + trunk_kicks) / n * 100)
                  +:+ "%";
           average_points_per_kick :=
             if bool_decide (all_kicks = []) then 0
             else round (inject_Z total_points / n) 2;
           ms_scoring_events := scoring_events self |}).
End Simulation.

End WTScoring.

(** ** app.py: class RealTimeFeedbackEngine *)

Module Feedback.
Import Py App.

(** The two shapes of entry in [FEEDBACK_RULES]. *)
Record ThresholdRule := {
  threshold : Q; t_message : string; t_severity : string }.
Record RangeRule := {
  rmin : Q; rmax : Q; r_message : string; r_severity : string }.

Record AngleRules := {
  a_low : ThresholdRule; a_optimal : RangeRule; a_high : ThresholdRule }.
Record SupportRules := {
  s_low : ThresholdRule; s_optimal : RangeRule; s_locked : ThresholdRule }.
Record HeightRules := {
  h_low : ThresholdRule; h_medium : RangeRule; h_optimal : RangeRule }.
Record BalanceRules := {
  b_unstable : ThresholdRule; b_stable : ThresholdRule }.

Record FeedbackRules := {
  knee_angle : AngleRules;
  hip_flexion : AngleRules;
  support_knee : SupportRules;
  kick_height : HeightRules;
  balance : BalanceRules }.

Definition FEEDBACK_RULES : FeedbackRules :=
  {| knee_angle :=
       {| a_low := {| threshold := 140;
                      t_message := "Extend your knee more for better reach";
                      t_severity := "warning" |};
          a_optimal := {| rmin := 160; rmax := 175;
                          r_message := "Excellent knee extension!";
                          r_severity := "good" |};
          a_high := {| threshold := 180;
                       t_message := "Avoid hyperextension - slight bend is safer";
                       t_severity := "warning" |} |};
     hip_flexion :=
       {| a_low := {| threshold := 80;
                      t_message := "Raise your hip higher for more power";
                      t_severity := "warning" |};
          a_optimal := {| rmin := 100; rmax := 140;
                          r_message := "Great hip flexibility!";
                          r_severity := "good" |};
          a_high := {| threshold := 160;
                       t_message := "Hip may be overextended";
                       t_severity := "info" |} |};
     support_knee :=
       {| s_low := {| threshold := 140;
                      t_message := "Straighten support leg for stability";
                      t_severity := "warning" |};
          s_optimal := {| rmin := 160; rmax := 175;
                          r_message := "Good support leg position!";
                          r_severity := "good" |};
          s_locked := {| threshold := 180;
                         t_message := "Avoid locking support knee";
                         t_severity := "warning" |} |};
     kick_height :=
       {| h_low := {| threshold := 40;
                      t_message := "Work on flexibility - kick height is low";
                      t_severity := "warning" |};
          h_medium := {| rmin := 40; rmax := 70;
                         r_message := "Good height - keep practicing!";
                         r_severity := "info" |};
          h_optimal := {| rmin := 70; rmax := 100;
                          r_message := "Excellent kick height!";
                          r_severity := "good" |} |};
     balance :=
       {| b_unstable := {| threshold := 15 # 100;
                           t_message := "Focus on balance - body swaying";
                           t_severity := "warning" |};
          b_stable := {| threshold := 5 # 100;
                         t_message := "Excellent stability!";
                         t_severity := "good" |} |} |}.

(** One feedback dict. *)
Record Item := {
  metric : string; value : string; message : string; severity : string }.

Record RealTimeFeedbackEngine := {
  feedback_history : list Item;
  current_feedback : list Item }.

(** [__init__]. *)
Definition new : RealTimeFeedbackEngine :=
  {| feedback_history := []; current_feedback := [] |}.

Section Engine.
(** How [f"{v:.0f}"] renders a number. *)
Variable fmt0 : Q -> string.

(** [analyze_metrics]: the engine after the call and the feedback
    list; [None] is a comparison of text with a number. *)
Definition analyze_metrics (self : RealTimeFeedbackEngine)
    (metrics : gmap string PyVal)
  : option (RealTimeFeedbackEngine * list Item) :=
  let feedback : list Item := [] in
  feedback ←
    match metrics !! "knee_angle" with
    | Some knee =>
        knee ← as_num knee;
        if Qltb knee (threshold (a_low (knee_angle FEEDBACK_RULES))) then
          Some (feedback ++
            [ {| metric := "Knee Angle";
                 value := fmt0 knee +:+ "°";
                 message := t_message (a_low (knee_angle FEEDBACK_RULES));
                 severity := "warning" |} ])
        else if Qleb (rmin (a_optimal (knee_angle FEEDBACK_RULES))) knee
                && Qleb knee (rmax (a_optimal (knee_angle FEEDBACK_RULES)))
        then
          Some (feedback ++
            [ {| metric := "Knee Angle";
                 value := fmt0 knee +:+ "°";
                 message := r_message (a_optimal (knee_angle FEEDBACK_RULES));
                 severity := "good" |} ])
        else Some feedback
    | None => Some feedback
    end;
  feedback ←
    match metrics !! "hip_flexion" with
    | Some hip =>
        hip ← as_num hip;
        if Qltb hip (threshold (a_low (hip_flexion FEEDBACK_RULES))) then
          Some (feedback ++
            [ {| metric := "Hip Flexion";
                 value := fmt0 hip +:+ "°";
                 message := t_message (a_low (hip_flexion FEEDBACK_RULES));
                 severity := "warning" |} ])
        else if Qleb (rmin (a_optimal (hip_flexion FEEDBACK_RULES))) hip
                && Qleb hip (rmax (a_optimal (hip_flexion FEEDBACK_RULES)))
        then
          Some (feedback ++
            [ {| metric := "Hip Flexion";
                 value := fmt0 hip +:+ "°";
                 message := r_message (a_optimal (hip_flexion FEEDBACK_RULES));
                 severity := "good" |} ])
        else Some feedback
    | None => Some feedback
    end;
  feedback ←
    match metrics !! "kick_height" with
    | Some height =>
        height ← as_num height;
        if Qltb height (threshold (h_low (kick_height FEEDBACK_RULES))) then
          Some (feedback ++
            [ {| metric := "Kick Height";
                 value := fmt0 height +:+ "%";
                 message := t_message (h_low (kick_height FEEDBACK_RULES));
                 severity := "warning" |} ])
        else if Qleb (rmin (h_optimal (kick_height FEEDBACK_RULES))) height
        then
          Some (feedback ++
            [ {| metric := "Kick Height";
                 value := fmt0 height +:+ "%";
                 message := r_message (h_optimal (kick_height FEEDBACK_RULES));
                 severity := "good" |} ])
        else Some feedback
    | None => Some feedback
    end;
  feedback ←
    match metrics !! "support_knee" with
    | Some support =>
        support ← as_num support;
        if Qltb support (threshold (s_low (support_knee FEEDBACK_RULES))) then
          Some (feedback ++
            [ {| metric := "Support Leg";
                 value := fmt0 support +:+ "°";
                 message := t_message (s_low (support_knee FEEDBACK_RULES));
                 severity := "warning" |} ])
        else if Qleb (rmin (s_optimal (support_knee FEEDBACK_RULES))) support
                && Qleb support (rmax (s_optimal (support_knee FEEDBACK_RULES)))
        then
          Some (feedback ++
            [ {| metric := "Support Leg";
                 value := fmt0 support +:+ "°";
                 message := r_message (s_optimal (support_knee FEEDBACK_RULES));
                 severity := "good" |} ])
        else Some feedback
    | None => Some feedback
    end;
  Some ({| feedback_history := feedback_history self ++ feedback;
           current_feedback := feedback |},
        feedback).
End Engine.

(** [list({k: v for ...}.items())]: a later value replaces an earlier
    one for the same key, which keeps its place. *)
Fixpoint dict_set (d : list (string * string)) (k v : string)
  : list (string * string) :=
  match d with
  | [] => [(k, v)]
  | (k', v') :: rest =>
      if String.eqb k' k then (k', v) :: rest
      else (k', v') :: dict_set rest k v
  end.

Definition metric_messages (items : list Item) : list (string * string) :=
  fold_left (fun d f => dict_set d (metric f) (message f)) items [].

(** The dict [get_summary_feedback] returns; the two totals are absent
    when there is no feedback at all. *)
Record Summary := {
  overall : string;
  strengths : list (string * string);
  improvements : list (string * string);
  total_good : option Z;
  total_warnings : option Z }.

Definition get_summary_feedback (self : RealTimeFeedbackEngine) : Summary :=
  if bool_decide (feedback_history self = []) then
    {| overall := "No feedback generated"; strengths := [];
       improvements := []; total_good := None; total_warnings := None |}
  else
    let strengths :=
      List.filter (fun f => String.eqb (severity f) "good")
        (feedback_history self) in
    let improvements :=
      List.filter (fun f => String.eqb (severity f) "warning")
        (feedback_history self) in
    {| overall := "Analysis complete";
       strengths := metric_messages strengths;
       improvements := metric_messages improvements;
       total_good := Some (Z.of_nat (length strengths));
       total_warnings := Some (Z.of_nat (length improvements)) |}.

End Feedback.

(** ** app.py: class InjuryPreventionSystem, fatigue detection *)

Module Injury.
Import Py App.

Record FatigueThresholds := {
  score_drop_percent : Q;
  height_drop_percent : Q;
  form_degradation : Q;
  reaction_slowdown : Q }.

Definition FATIGUE_THRESHOLDS : FatigueThresholds :=
  {| score_drop_percent := 15;
     height_drop_percent := 20;
     form_degradation := 10;
     reaction_slowdown := 25 |}.

(** One entry of [fatigue['indicators']]. *)
Record Indicator := {
  i_type : string; i_value : string; i_message : string }.

(** The [fatigue] dict. *)
Record Fatigue := {
  f_frame : Z;
  is_fatigued : bool;
  fatigue_level : Z;
  indicators : list Indicator;
  recommendation : option string }.

(** The attributes fatigue detection reads and writes. *)
Record InjuryPreventionSystem := {
  fatigue_indicators : list Fatigue;
  baseline_metrics : option (gmap string PyVal);
  current_metrics_window : list (gmap string PyVal) }.

(** [__init__]. *)
Definition new : InjuryPreventionSystem :=
  {| fatigue_indicators := [];
     baseline_metrics := None;
     current_metrics_window := [] |}.

(** [set_baseline]. *)
Definition set_baseline (self : InjuryPreventionSystem)
    (metrics : gmap string PyVal) : InjuryPreventionSystem :=
  {| fatigue_indicators := fatigue_indicators self;
     baseline_metrics := Some metrics;
     current_metrics_window := current_metrics_window self |}.

(** [deque(maxlen=30).append]: a full window drops its oldest entry. *)
Definition window_append {A : Type} (window : list A) (v : A) : list A :=
  let window := window ++ [v] in
  if (30 <? length window)%nat then drop 1 window else window.

(** [list(window)[-n:]]. *)
Definition last_n {A : Type} (n : nat) (l : list A) : list A :=
  drop (length l - n) l.

(** [[m.get(key, dflt) for m in ms if key in m]]: the default is never
    used, the key being present. *)
Definition present_values (key : string) (ms : list (gmap string PyVal))
  : list PyVal :=
  omap (fun m => m !! key) ms.

(** The values as numbers, where the code computes with them. *)
Definition nums (vs : list PyVal) : option (list Q) := mapM as_num vs.

(** [not self.baseline_metrics]: no baseline yet, or an empty one. *)
Definition no_baseline (baseline : option (gmap string PyVal)) : bool :=
  match baseline with
  | None => true
  | Some b => bool_decide (b = ∅)
  end.

Section Fatigue.
(** How [f"{v:.1f}"] renders a number. *)
Variable fmt1 : Q -> string.

(** [analyze_fatigue] after the window update and the two early
    returns, for a baseline [baseline] and the last ten window
    entries [recent]; [fatigue] is the dict built so far. *)
Definition assess (baseline : gmap string PyVal)
    (recent : list (gmap string PyVal)) (frame_idx : Z)
  : option Fatigue :=
  let recent_scores := present_values "score" recent in
  let recent_heights := present_values "kick_height" recent in
  if bool_decide (recent_scores = []) || bool_decide (recent_heights = [])
  then Some {| f_frame := frame_idx; is_fatigued := false;
               fatigue_level := 0; indicators := [];
               recommendation := None |}
  else
    avg_recent_score ← mean <$> nums recent_scores;
    avg_recent_height ← mean <$> nums recent_heights;
    baseline_score ← as_num (default (PyInt 0) (baseline !! "score"));
    baseline_height ← as_num (default (PyInt 0) (baseline !! "kick_height"));
    let fatigue_score := 0 in
    let indicators : list Indicator := [] in
    let '(indicators, fatigue_score) :=
      if Qltb 0 baseline_score then
        let score_drop :=
          ((baseline_score - avg_recent_score) / baseline_score * 100)%Q in
        if Qltb (score_drop_percent FATIGUE_THRESHOLDS) score_drop then
          (indicators ++
             [ {| i_type := "SCORE_DROP";
                  i_value := "-" +:+ fmt1 score_drop +:+ "%";
                  i_message := "Performance score declining" |} ],
           fatigue_score + 30)
        else (indicators, fatigue_score)
      else (indicators, fatigue_score) in
    let '(indicators, fatigue_score) :=
      if Qltb 0 baseline_height then
        let height_drop :=
          ((baseline_height - avg_recent_height) / baseline_height * 100)%Q in
        if Qltb (height_drop_percent FATIGUE_THRESHOLDS) height_drop then
          (indicators ++
             [ {| i_type := "HEIGHT_DROP";
                  i_value := "-" +:+ fmt1 height_drop +:+ "%";
                  i_message := "Kick height declining - leg fatigue" |} ],
           fatigue_score + 35)
        else (indicators, fatigue_score)
      else (indicators, fatigue_score) in
    let recent_support := present_values "support_knee" recent in
    '(indicators, fatigue_score) ←
      match recent_support with
      | [] => Some (indicators, fatigue_score)
      | first :: _ =>
          support_trend ←
            (if (1 <? length recent_support)%nat then
               newest ← as_num (List.last recent_support first);
               oldest ← as_num first;
               Some (newest - oldest)%Q
             else Some 0%Q);
          if Qltb support_trend (- form_degradation FATIGUE_THRESHOLDS) then
            Some (indicators ++
                    [ {| i_type := "FORM_DEGRADATION";
                         i_value := fmt1 support_trend +:+ "°";
                         i_message := "Support leg stability declining" |} ],
                  fatigue_score + 25)
          else Some (indicators, fatigue_score)
      end;
    let is_fatigued := 50 <=? fatigue_score in
    Some {| f_frame := frame_idx;
            is_fatigued := is_fatigued;
            fatigue_level := Z.min 100 fatigue_score;
            indicators := indicators;
            recommendation :=
              if is_fatigued then Some "Consider rest period - fatigue detected. Risk of injury increases with fatigue." else None |}.

(** [analyze_fatigue]: the system after the call and the dict it
    returns; [None] is a value that is not a number. *)
Definition analyze_fatigue (self : InjuryPreventionSystem)
    (current_metrics : gmap string PyVal) (frame_idx : Z)
  : option (InjuryPreventionSystem * Fatigue) :=
  let window := window_append (current_metrics_window self) current_metrics in
  let self :=
    {| fatigue_indicators := fatigue_indicators self;
       baseline_metrics := baseline_metrics self;
       current_metrics_window := window |} in
  if no_baseline (baseline_metrics self) || (length window <? 10)%nat then
    Some (self, {| f_frame := frame_idx; is_fatigued := false;
                   fatigue_level := 0; indicators := [];
                   recommendation := None |})
  else
    baseline ← baseline_metrics self;
    fatigue ← assess baseline (last_n 10 window) frame_idx;
    let self :=
      if is_fatigued fatigue then
        {| fatigue_indicators := fatigue_indicators self ++ [fatigue];
           baseline_metrics := baseline_metrics self;
           current_metrics_window := window |}
      else self in
    Some (self, fatigue).
End Fatigue.

End Injury.

(** ** app.py: class AutoKickDetector *)

Module KickType.
Import Py App.

Record Signature := {
  hip_rotation_min : Q; hip_rotation_max : Q;
  knee_chamber_min : Q; knee_chamber_max : Q;
  sig_foot_path : string;
  target_zone : string }.

(** In declaration order, which is the order the scoring loop and
    [max] go through. *)
Definition KICK_SIGNATURES : list (string * Signature) :=
  [ ("dollyo_chagi",
      {| hip_rotation_min := 45; hip_rotation_max := 90;
         knee_chamber_min := 90; knee_chamber_max := 140;
         sig_foot_path := "circular"; target_zone := "side" |});
    ("ap_chagi",
      {| hip_rotation_min := 0; hip_rotation_max := 30;
         knee_chamber_min := 90; knee_chamber_max := 130;
         sig_foot_path := "linear"; target_zone := "front" |});
    ("yeop_chagi",
      {| hip_rotation_min := 80; hip_rotation_max := 100;
         knee_chamber_min := 70; knee_chamber_max := 120;
         sig_foot_path := "linear"; target_zone := "side" |});
    ("dwi_chagi",
      {| hip_rotation_min := 150; hip_rotation_max := 180;
         knee_chamber_min := 60; knee_chamber_max := 100;
         sig_foot_path := "linear"; target_zone := "back" |});
    ("naeryeo_chagi",
      {| hip_rotation_min := 0; hip_rotation_max := 45;
         knee_chamber_min := 150; knee_chamber_max := 180;
         sig_foot_path := "vertical"; target_zone := "front" |});
    ("huryo_chagi",
      {| hip_rotation_min := 60; hip_rotation_max := 120;
         knee_chamber_min := 100; knee_chamber_max := 160;
         sig_foot_path := "hook"; target_zone := "side" |});
    ("bandal_chagi",
      {| hip_rotation_min := 30; hip_rotation_max := 60;
         knee_chamber_min := 140; knee_chamber_max := 180;
         sig_foot_path := "arc"; target_zone := "front" |});
    ("mom_dollyo_chagi",
      {| hip_rotation_min := 180; hip_rotation_max := 360;
         knee_chamber_min := 90; knee_chamber_max := 150;
         sig_foot_path := "circular"; target_zone := "spinning" |}) ].

Definition KICK_NAMES : list (string * string) :=
  [ ("dollyo_chagi", "Roundhouse Kick (Dollyo Chagi)");
    ("ap_chagi", "Front Kick (Ap Chagi)");
    ("yeop_chagi", "Side Kick (Yeop Chagi)");
    ("dwi_chagi", "Back Kick (Dwi Chagi)");
    ("naeryeo_chagi", "Axe Kick (Naeryeo Chagi)");
    ("huryo_chagi", "Hook Kick (Huryo Chagi)");
    ("bandal_chagi", "Crescent Kick (Bandal Chagi)");
    ("mom_dollyo_chagi", "Spinning Kick (Mom Dollyo Chagi)") ].

Record AutoKickDetector := {
  frame_history : list (Q * Q);
  detection_history : list string;
  confidence_threshold : Q }.

(** [__init__]. *)
Definition new : AutoKickDetector :=
  {| frame_history := []; detection_history := [];
     confidence_threshold := 65 # 100 |}.

(** [detect_kicking_leg]; a landmark list too short for index 31 or 32
    is the exception the code turns into ['none']. *)
Definition detect_kicking_leg (landmarks : list Landmark) : string :=
  match landmarks !! 31%nat, landmarks !! 32%nat with
  | Some l_foot, Some r_foot =>
      let l_foot_y := y l_foot in
      let r_foot_y := y r_foot in
      if Qltb l_foot_y (r_foot_y - (5 # 100)) then "left"
      else if Qltb r_foot_y (l_foot_y - (5 # 100)) then "right"
      else "none"
  | _, _ => "none"
  end.

(** [deque(maxlen=30).append]. *)
Definition history_append (history : list (Q * Q)) (foot : Q * Q)
  : list (Q * Q) :=
  let history := history ++ [foot] in
  if (30 <? length history)%nat then drop 1 history else history.

(** [max] and [min] of a list that is not empty. *)
Definition list_max (l : list Q) : Q :=
  match l with [] => 0 | v :: rest => fold_left Qmax rest v end.
Definition list_min (l : list Q) : Q :=
  match l with [] => 0 | v :: rest => fold_left Qmin rest v end.

(** [analyze_foot_path]: the detector after the call and the path
    name. *)
Definition analyze_foot_path (self : AutoKickDetector)
    (landmarks : list Landmark) : AutoKickDetector * string :=
  let kicking_side := detect_kicking_leg landmarks in
  if String.eqb kicking_side "none" then (self, "stationary")
  else
    match (if String.eqb kicking_side "left"
           then landmarks !! 31%nat else landmarks !! 32%nat) with
    | None => (self, "unknown")
    | Some lm =>
        let foot := (x lm, y lm) in
        let history := history_append (frame_history self) foot in
        let self :=
          {| frame_history := history;
             detection_history := detection_history self;
             confidence_threshold := confidence_threshold self |} in
        if (length history <? 10)%nat then (self, "analyzing")
        else
          let x_coords := map fst history in
          let y_coords := map snd history in
          let x_range := (list_max x_coords - list_min x_coords)%Q in
          let y_range := (list_max y_coords - list_min y_coords)%Q in
          if Qltb (x_range * 2) y_range then (self, "vertical")
          else if Qltb (y_range * 2) x_range then (self, "linear")
          else (self, "circular")
    end.

(** The three sub-scores of one signature. *)
Definition signature_score (signature : Signature)
    (hip_rotation knee_chamber : Q) (foot_path : string) : Q :=
  let score := 0%Q in
  let score :=
    if Qleb (hip_rotation_min signature) hip_rotation
       && Qleb hip_rotation (hip_rotation_max signature)
    then (score + 1)%Q
    else if Qltb (Qabs (hip_rotation - hip_rotation_min signature)) 20
            || Qltb (Qabs (hip_rotation - hip_rotation_max signature)) 20
    then (score + (1 # 2))%Q
    else score in
  let score :=
    if Qleb (knee_chamber_min signature) knee_chamber
       && Qleb knee_chamber (knee_chamber_max signature)
    then (score + 1)%Q
    else if Qltb (Qabs (knee_chamber - knee_chamber_min signature)) 15
            || Qltb (Qabs (knee_chamber - knee_chamber_max signature)) 15
    then (score + (1 # 2))%Q
    else score in
  let score :=
    if String.eqb foot_path (sig_foot_path signature) then (score + 1)%Q
    else if String.eqb foot_path "circular"
            && (String.eqb (sig_foot_path signature) "hook"
                || String.eqb (sig_foot_path signature) "arc")
    then (score + (1 # 2))%Q
    else score in
  score.

(** [max(kick_scores, key=kick_scores.get)]: the first key with the
    largest score. *)
Fixpoint best_of (scores : list (string * Q)) (best : string * Q)
  : string * Q :=
  match scores with
  | [] => best
  | (name, score) :: rest =>
      if Qltb (snd best) score then best_of rest (name, score)
      else best_of rest best
  end.

(** The [details] dict in its four shapes. *)
Inductive Details :=
| NoDetails
| Status (status : string)
| Accepted (hip_rotation knee_chamber : Q) (foot_path kicking_leg : string)
           (all_scores : list (string * Q))
| Rejected (hip_rotation knee_chamber : Q) (foot_path kicking_leg : string)
           (best_guess : string).

Record Detection := {
  kick_type : option string;
  kick_name : option string;
  confidence : Q;
  details : Details }.

Section Detector.
(** [np.degrees(np.arctan2(y, x))], and
    [np.degrees(np.arccos(np.clip(np.dot(v1/n1, v2/n2), -1.0, 1.0)))]
    for two vectors that passed the length test: parameters, as they
    are not rational functions. *)
Variable arctan2_degrees : Q -> Q -> Q.
Variable degrees_between : Vec3 -> Vec3 -> Q.

(** [calculate_hip_rotation]; a landmark list that is too short is the
    exception the code turns into 0.0. *)
Definition calculate_hip_rotation (landmarks : list Landmark) : Q :=
  match landmarks !! 23%nat, landmarks !! 24%nat,
        landmarks !! 11%nat, landmarks !! 12%nat with
  | Some l_hip, Some r_hip, Some l_shoulder, Some r_shoulder =>
      let hip_vector := (x r_hip - x l_hip, y r_hip - y l_hip)%Q in
      let shoulder_vector :=
        (x r_shoulder - x l_shoulder, y r_shoulder - y l_shoulder)%Q in
      let angle :=
        (arctan2_degrees (snd hip_vector) (fst hip_vector)
         - arctan2_degrees (snd shoulder_vector) (fst shoulder_vector))%Q in
      Qabs angle
  | _, _, _, _ => 0
  end.

(** [calculate_knee_chamber]. *)
Definition calculate_knee_chamber (landmarks : list Landmark)
    (kicking_side : string) : Q :=
  let point (lm : Landmark) : Vec3 := (x lm, y lm, z lm) in
  let joints :=
    if String.eqb kicking_side "left" then
      (landmarks !! 23%nat, landmarks !! 25%nat, landmarks !! 27%nat)
    else
      (landmarks !! 24%nat, landmarks !! 26%nat, landmarks !! 28%nat) in
  match joints with
  | (Some hip, Some knee, Some ankle) =>
      let v1 := vsub (point hip) (point knee) in
      let v2 := vsub (point ankle) (point knee) in
      if Qltb (norm_sq v1) (1 # 1000000000000)
         || Qltb (norm_sq v2) (1 # 1000000000000)
      then 0
      else degrees_between v1 v2
  | _ => 0
  end.

(** [detect_kick_type]: the detector after the call and the dict it
    returns. *)
Definition detect_kick_type (self : AutoKickDetector)
    (landmarks : option (list Landmark)) : AutoKickDetector * Detection :=
  match landmarks with
  | None =>
      (self, {| kick_type := None; kick_name := None; confidence := 0;
                details := NoDetails |})
  | Some landmarks =>
      let kicking_side := detect_kicking_leg landmarks in
      if String.eqb kicking_side "none" then
        (self, {| kick_type := None; kick_name := None; confidence := 0;
                  details := Status "No kick detected" |})
      else
        let hip_rotation := calculate_hip_rotation landmarks in
        let knee_chamber := calculate_knee_chamber landmarks kicking_side in
        let '(self, foot_path) := analyze_foot_path self landmarks in
        let max_score := 3%Q in
        let kick_scores :=
          map (fun '(kick_name, signature) =>
                 (kick_name,
                  (signature_score signature hip_rotation knee_chamber
                     foot_path / max_score)%Q))
              KICK_SIGNATURES in
        let '(best_kick, confidence) :=
          match kick_scores with
          | [] => ("", 0%Q)
          | first :: rest => best_of rest first
          end in
        if Qleb (confidence_threshold self) confidence then
          (self, {| kick_type := Some best_kick;
                    kick_name := odict_get KICK_NAMES best_kick;
                    confidence := confidence;
                    details := Accepted hip_rotation knee_chamber foot_path
                                 kicking_side kick_scores |})
        else
          (self, {| kick_type := Some "unknown";
                    kick_name := Some "Unknown Technique";
                    confidence := confidence;
                    details := Rejected hip_rotation knee_chamber foot_path
                                 kicking_side
                                 (default "Unknown"
                                    (odict_get KICK_NAMES best_kick)) |})
  end.
End Detector.

End KickType.
(** ** Example inputs *)

Module Examples.
Import Py App.

(** A fully visible 33-landmark pose: nose at height 0.1, the left foot
    and ankle on the floor at 0.9, the right foot raised to [foot_y]. *)
Definition pose (foot_y : Q) : list Landmark :=
  let at_y (v : Q) := {| x := 1 # 2; y := v; z := 0; visibility := 1 |} in
  map (fun i : nat =>
         if (i =? 0)%nat then at_y (1 # 10)
         else if (i =? 28)%nat || (i =? 32)%nat then at_y foot_y
         else if (i =? 27)%nat || (i =? 31)%nat then at_y (9 # 10)
         else at_y (1 # 2))
      (seq 0 33).

Definition frame (foot_y : Q) (idx : Z) : Frame :=
  {| landmarks := Some (pose foot_y);
     frame_time := inject_Z idx / 30;
     frame_idx := idx |}.

(** Kick height 50: a high frame.  Kick height 0: a low frame. *)
Definition high_frame (idx : Z) : Frame := frame (1 # 2) idx.
Definition low_frame (idx : Z) : Frame := frame (9 # 10) idx.

Definition no_angle : Vec3 -> Vec3 -> Q := fun _ _ => 0%Q.

(** Three low frames, fifteen consecutive high frames, three low
    frames: indices 0..20 with the spike on 3..17. *)
Definition before_spike : list Frame :=
  map (fun i => low_frame (Z.of_nat i)) (seq 0 3).
Definition spike15 : list Frame :=
  map (fun i => high_frame (Z.of_nat i)) (seq 3 15).
Definition after_spike : list Frame :=
  map (fun i => low_frame (Z.of_nat i)) (seq 18 3).
Definition spike_stream : list Frame :=
  before_spike ++ spike15 ++ after_spike.

(** The metrics of the scoring scenario. *)
Definition full_marks : gmap string PyVal :=
  <["knee_angle" := PyInt 170]>
  (<["kick_height" := PyInt 80]>
  (<["hip_flexion" := PyInt 115]>
  (<["support_knee" := PyInt 170]>
  (<["visibility" := PyInt 90]> ∅)))).

(** A rendering of floats and a clock for the alert examples. *)
Definition show_ratio (q : Q) : string :=
  "(" +:+ pretty (Qnum q) +:+ "/" +:+ pretty (Zpos (Qden q)) +:+ ")".
Definition clock (k : nat) : string := "2024-01-01T00:00:0" +:+ pretty k.


(** One session of load 400, logged forty days before the evaluation
    day. *)
Definition old_training : list Acwr.TrainingRow :=
  [ {| Acwr.date := - timedelta_days 40; Acwr.training_load := 400 |} ].

End Examples.

(** ** The specification's own wording, for comparison with the code *)

Module Spec.
Import Py.

(** "Risk zones (closed-open intervals): [0,0.8) undertrained, [0.8,1.3)
    optimal, [1.3,1.5) elevated, [1.5,2.0) high, [2.0,oo) critical." *)
Inductive Zone := undertrained | optimal | elevated | high | critical.

Definition zone_of (a : Q) : Zone :=
  if Qltb a (8 # 10) then undertrained
  else if Qltb a (13 # 10) then optimal
  else if Qltb a (15 # 10) then elevated
  else if Qltb a 2 then high
  else critical.

(** "band-mapped ACWR-risk (10/30/50/75/95 for
    optimal/undertrained/elevated/high/critical)". *)
Definition band_risk (z : Zone) : Q :=
  match z with
  | optimal => 10
  | undertrained => 30
  | elevated => 50
  | high => 75
  | critical => 95
  end.

(** "Combined risk = 0.6 x band-mapped ACWR-risk + 0.4 x (100 - wellness)". *)
Definition combined_risk (a w : Q) : Q :=
  ((6 # 10) * band_risk (zone_of a) + (4 # 10) * (100 - w))%Q.

(** The name and the label the configuration gives each zone. *)
Definition zone_name (z : Zone) : string :=
  match z with
  | undertrained => "undertrained"
  | optimal => "optimal"
  | elevated => "high_risk"
  | high => "danger"
  | critical => "critical"
  end.

Definition zone_label (z : Zone) : string :=
  match z with
  | undertrained => "Undertrained"
  | optimal => "Optimal Zone"
  | elevated => "Elevated Risk"
  | high => "High Risk"
  | critical => "Critical Risk"
  end.

End Spec.

(** ** Notions the statements below are phrased with *)

Module Notions.
Import Py Config Acwr App.

(** A wellness input on the 1..10 scale. *)
Definition in_scale (v : Z) : Prop := 1 <= v <= 10.

(** Ten times the wellness score, as the whole number it is. *)
Definition wellness_tenths (s f m st mo mv : Z) : Z :=
  25 * s + 20 * (11 - f) + 20 * (11 - m) + 15 * (11 - st) + 10 * mo + 10 * mv.

(** The load summed over the window of [days] days that ends at [date]. *)
Definition window_load (data : list TrainingRow) (date days : Z) : Q :=
  load_sum (rows_between data (date - timedelta_days days) date).

(** The [type]s of the alerts of a list, in order. *)
Definition types (alerts : list Alert) : list string := map type alerts.

(** The frame is measured and its kick height reaches the detection
    threshold. *)
Definition is_high (degrees_between : Vec3 -> Vec3 -> Q) (f : Frame) : bool :=
  match measure degrees_between (landmarks f) with
  | Some m => Qleb 25 (kick_height m)
  | None => false
  end.

(** The frame index a detected kick was recorded at. *)
Definition kick_frame_idx (kick : gmap string PyVal) : option Z :=
  match kick !! "frame_idx" with
  | Some (PyInt i) => Some i
  | _ => None
  end.

(** The stream's frame indices strictly increase. *)
Definition increasing (frames : list Frame) : Prop :=
  forall i j fi fj, (i < j)%nat ->
    frames !! i = Some fi -> frames !! j = Some fj ->
    frame_idx fi < frame_idx fj.

(** A decision procedure for streams given in full. *)
Fixpoint increasing_from (lo : Z) (frames : list Frame) : bool :=
  match frames with
  | [] => true
  | f :: fs => (lo <? frame_idx f) && increasing_from (frame_idx f) fs
  end.

Definition increasingb (frames : list Frame) : bool :=
  match frames with
  | [] => true
  | f :: fs => increasing_from (frame_idx f) fs
  end.

(** The number of kicks [n] consecutive high frames add when they find
    the cooldown at [c]. *)
Definition burst (c n : Z) : Z :=
  if n <=? c then 0 else (n - c + 9) / 10.

(** What the detector keeps true: the cooldown stays within 0..9,
    every recorded kick carries its frame index, a kick recorded at
    index [a] with the cooldown now at [c] lies at least [9 - c]
    frames before the latest frame [hi], and recorded kicks are at
    least 10 frames apart. *)
Definition detector_inv (self : TaekwondoAnalyzer) (hi : Z) : Prop :=
  0 <= cooldown self <= 9
  /\ (forall i k, detected_kicks self !! i = Some k ->
        exists a, kick_frame_idx k = Some a /\ a + 9 - cooldown self <= hi)
  /\ (forall i j ki kj a b, (i < j)%nat ->
        detected_kicks self !! i = Some ki ->
        detected_kicks self !! j = Some kj ->
        kick_frame_idx ki = Some a -> kick_frame_idx kj = Some b ->
        a + 10 <= b).

(** Every recorded kick is numbered by its position, from 1. *)
Definition numbered (self : TaekwondoAnalyzer) : Prop :=
  forall i k, detected_kicks self !! i = Some k ->
    k !! "kick_number" = Some (PyInt (Z.of_nat i + 1)).

(** A reading of [key] in [metrics] equal to [v]. *)
Definition reads (metrics : gmap string PyVal) (key : string) (v : Q) : Prop :=
  exists q, get_num metrics key = Some q /\ (q == v)%Q.

End Notions.

(** ** Further example inputs and notions *)

Module MoreExamples.
Import Py Acwr AcwrTools.

(** Three sessions, logged out of date order. *)
Definition shuffled_sessions : list TrainingRow :=
  [ {| date := timedelta_days 3; training_load := 300 |};
    {| date := timedelta_days 1; training_load := 420 |};
    {| date := timedelta_days 2; training_load := 0 |} ].

Definition sorted_sessions : list TrainingRow :=
  [ {| date := timedelta_days 1; training_load := 420 |};
    {| date := timedelta_days 2; training_load := 0 |};
    {| date := timedelta_days 3; training_load := 300 |} ].

(** Ten daily sessions of the same load. *)
Definition steady_sessions : list TrainingRow :=
  map (fun i => {| date := timedelta_days (Z.of_nat i); training_load := 400 |})
      (seq 0 10).

Definition iso_date (d : Z) : string := "day " +:+ pretty d.

End MoreExamples.

Module MoreNotions.
Import Py Config Acwr AcwrTools.

(** The loads are whole numbers small enough for every partial sum of
    the series to be an exact float: on such a series the code's sum
    does not depend on the order of the rows. *)
Definition whole_loads (data : list TrainingRow) : Prop :=
  Forall (fun r => exists n : Z,
              (training_load r == inject_Z n)%Q
              /\ Z.abs n * Z.of_nat (length data) <= 2 ^ 53)
         data.

(** [calculate_acwr] as a function of the two window sums. *)
Definition ratio_of (acute_load chronic_load : Q) : option Q :=
  let acute_avg := (acute_load / inject_Z ACUTE_PERIOD_DAYS)%Q in
  let chronic_avg := (chronic_load / inject_Z CHRONIC_PERIOD_DAYS)%Q in
  if Qeqb chronic_avg 0 then
    if Qeqb acute_avg 0 then Some 1%Q else Some 2%Q
  else Some (round (acute_avg / chronic_avg) 2).

(** The statuses of [get_wellness_status], worst first. *)
Definition status_rank (status : string) : nat :=
  if String.eqb status "Excellent" then 4
  else if String.eqb status "Good" then 3
  else if String.eqb status "Fair" then 2
  else if String.eqb status "Poor" then 1
  else 0.

(** The recommendation texts the statements name. *)
Definition msg_reduce_load : string := "ðŸ”´ REDUCE training load by 30-40% this week".
Definition msg_consider_reducing : string := "ðŸŸ¡ Consider reducing training intensity by 15-20%".
Definition msg_all_clear : string := "âœ… Current training load is appropriate".
Definition msg_keep_monitoring : string := "ðŸ“Š Continue monitoring daily wellness".


(** The texts each block of [generate_recommendations] appends. *)
Definition acwr_advice (acwr : Q) : list string :=
  if Qltb (15 # 10) acwr then [ msg_reduce_load; "ðŸ“‰ Avoid high-intensity sessions for 3-5 days" ]
  else if Qltb (13 # 10) acwr then [ msg_consider_reducing; "ðŸ“Š Monitor closely for signs of fatigue" ]
  else if Qltb acwr (8 # 10) then [ "ðŸ“ˆ Training load is below optimal - gradual increase recommended"; "âš ï¸ Avoid sudden load spikes when returning to full training" ]
  else [].

Definition wellness_advice (wellness_score : Q) : list string :=
  if Qltb wellness_score 50 then [ "ðŸ˜´ Prioritize sleep (aim for 8+ hours)"; "ðŸ§˜ Include active recovery sessions" ] else [].

Definition pattern_advice (recent_data : list RecentRow) : list string :=
  match recent_data with
  | [] => []
  | _ =>
      (if Qltb 7 (tail3_mean c_fatigue recent_data) then [ "âš¡ High fatigue detected - schedule a rest day" ] else [])
      ++ (if Qltb 7 (tail3_mean c_muscle_soreness recent_data)
          then [ "ðŸ’ª Elevated soreness - include foam rolling/massage" ] else [])
      ++ (if Qltb (tail3_mean c_sleep_quality recent_data) 5
          then [ "ðŸŒ™ Sleep quality declining - review sleep hygiene" ] else [])
  end.

End MoreNotions.


(** ** Notions and example inputs for the analysis classes of app.py *)

Module AppNotions.
Import Py App.

(** The frames of a stream that pass the gates of [analyze_frame]. *)
Definition measured_frames (degrees_between : Vec3 -> Vec3 -> Q)
    (frames : list Frame) : list Frame :=
  List.filter
    (fun f => match measure degrees_between (landmarks f) with
              | Some _ => true
              | None => false
              end)
    frames.

(** A dict with the readings [analyze_frame] stores: floats, the kick
    height within 0..100 and the hip rotation within 0..45. *)
Definition measured_dict (d : gmap string PyVal) : Prop :=
  exists h k r,
    d !! "kick_height" = Some (PyFloat h) /\ (0 <= h <= 100)%Q
    /\ d !! "knee_angle" = Some (PyFloat k)
    /\ d !! "hip_rotation" = Some (PyFloat r) /\ (0 <= r <= 45)%Q.

(** What the analyzer keeps true of what it stores: every stored dict
    is a measured one, the cooldown stays within 0..9, and ten frames
    of history stand behind every recorded kick but the one the
    cooldown still covers. *)
Definition analyzer_inv (self : TaekwondoAnalyzer) : Prop :=
  Forall measured_dict (metrics_history self)
  /\ Forall measured_dict (detected_kicks self)
  /\ 0 <= cooldown self <= 9
  /\ 10 * Z.of_nat (length (detected_kicks self))
     <= Z.of_nat (length (metrics_history self)) + cooldown self.

(** The points [calculate_score] adds for each of its five readings,
    before the cap. *)
Definition knee_points (knee : Q) : Z :=
  if Qleb 160 knee then 25
  else if Qleb 140 knee then 20
  else if Qleb 120 knee then 15
  else 10.

Definition height_points (height : Q) : Z :=
  if Qleb 70 height then 30
  else if Qleb 50 height then 22
  else if Qleb 30 height then 15
  else 8.

Definition hip_points (hip : Q) : Z :=
  if Qleb 110 hip then 20
  else if Qleb 90 hip then 15
  else 10.

Definition support_points (support : Q) : Z :=
  if Qleb 160 support && Qleb support 180 then 15
  else if Qleb 140 support then 10
  else 5.

Definition visibility_points (vis : Q) : Z :=
  if Qleb 80 vis then 10
  else if Qleb 60 vis then 7
  else 4.

(** The sum [score] holds when [min(100, score)] is taken. *)
Definition uncapped_score (knee height hip support vis : Q) : Z :=
  knee_points knee + height_points height + hip_points hip
  + support_points support + visibility_points vis.

(** Points fed one after the other to a fresh tracker. *)
Definition track (points : list Trajectory.Position)
  : Trajectory.TrajectoryTracker :=
  fold_left
    (fun t p => Trajectory.add_position t (Trajectory.x p) (Trajectory.y p)
                  (Trajectory.frame p))
    points Trajectory.new.

(** The largest of 0 and the heights, and the smallest height from
    [lo] on. *)
Definition highest (ys : list Z) : Z := fold_right Z.max 0 ys.
Definition lowest (lo : Z) (ys : list Z) : Z := fold_right Z.min lo ys.

(** Metrics dicts fed one after the other to a feedback engine. *)
Fixpoint feedback_run (fmt0 : Q -> string)
    (self : Feedback.RealTimeFeedbackEngine)
    (frames : list (gmap string PyVal))
  : option Feedback.RealTimeFeedbackEngine :=
  match frames with
  | [] => Some self
  | metrics :: rest =>
      '(self, _) ← Feedback.analyze_metrics fmt0 self metrics;
      feedback_run fmt0 self rest
  end.

Definition good_or_warning (f : Feedback.Item) : Prop :=
  Feedback.severity f = "good" \/ Feedback.severity f = "warning".

(** The metric names and the rule messages [analyze_metrics] uses. *)
Definition metric_names : list string :=
  [ "Knee Angle"; "Hip Flexion"; "Kick Height"; "Support Leg" ].

Definition used_messages : list string :=
  let rules := Feedback.FEEDBACK_RULES in
  [ Feedback.t_message (Feedback.a_low (Feedback.knee_angle rules));
    Feedback.r_message (Feedback.a_optimal (Feedback.knee_angle rules));
    Feedback.t_message (Feedback.a_low (Feedback.hip_flexion rules));
    Feedback.r_message (Feedback.a_optimal (Feedback.hip_flexion rules));
    Feedback.t_message (Feedback.h_low (Feedback.kick_height rules));
    Feedback.r_message (Feedback.h_optimal (Feedback.kick_height rules));
    Feedback.t_message (Feedback.s_low (Feedback.support_knee rules));
    Feedback.r_message (Feedback.s_optimal (Feedback.support_knee rules)) ].

(** What [analyze_metrics] can put in its list. *)
Definition sound_item (f : Feedback.Item) : Prop :=
  good_or_warning f /\ In (Feedback.message f) used_messages
  /\ In (Feedback.metric f) metric_names.

(** The fatigue levels three indicators worth 30, 35 and 25 can add up
    to. *)
Definition fatigue_levels : list Z := [0; 25; 30; 35; 55; 60; 65; 90].

(** The dict [analyze_fatigue] returns when it finds no fatigue to
    assess. *)
Definition no_fatigue (frame_idx : Z) : Injury.Fatigue :=
  {| Injury.f_frame := frame_idx; Injury.is_fatigued := false;
     Injury.fatigue_level := 0; Injury.indicators := [];
     Injury.recommendation := None |}.

(** The path names [analyze_foot_path] can return. *)
Definition path_names : list string :=
  [ "stationary"; "analyzing"; "vertical"; "linear"; "circular" ].

End AppNotions.

Module AppExamples.
Import Py App.

(** A head-level kick with a good chamber and a spin, a trunk-level
    kick with a weak chamber, and a kick below the scoring zone. *)
Definition head_kick : gmap string PyVal :=
  <["kick_height" := PyFloat 80]>
  (<["knee_angle" := PyFloat 120]>
  (<["hip_rotation" := PyFloat 50]> ∅)).

Definition weak_trunk_kick : gmap string PyVal :=
  <["kick_height" := PyFloat 55]>
  (<["knee_angle" := PyFloat 170]> ∅).

Definition low_kick : gmap string PyVal :=
  <["kick_height" := PyFloat 30]> ∅.

Definition three_kicks : list (gmap string PyVal) :=
  [ head_kick; weak_trunk_kick; low_kick ].

(** Two tracked points, one above the other. *)
Definition two_points : list Trajectory.Position :=
  [ {| Trajectory.x := 100; Trajectory.y := 300; Trajectory.frame := 0 |};
    {| Trajectory.x := 100; Trajectory.y := 200; Trajectory.frame := 1 |} ].

Definition whole_sqrt (n : Z) : Q := inject_Z (Z.sqrt n).

(** A frame with a bent knee and a head-level kick. *)
Definition bent_knee : gmap string PyVal :=
  <["knee_angle" := PyFloat 120]> (<["kick_height" := PyFloat 80]> ∅).

(** A baseline of score 80 at kick height 80, and a window of nine
    frames at half of both. *)
Definition fresh_metrics : gmap string PyVal :=
  <["score" := PyInt 80]> (<["kick_height" := PyFloat 80]> ∅).
Definition tired_metrics : gmap string PyVal :=
  <["score" := PyInt 40]> (<["kick_height" := PyFloat 40]> ∅).
Definition tired_system : Injury.InjuryPreventionSystem :=
  {| Injury.fatigue_indicators := [];
     Injury.baseline_metrics := Some fresh_metrics;
     Injury.current_metrics_window := replicate 9 tired_metrics |}.

(** A pose with the right foot raised, and the arc tangent taken as 0
    everywhere. *)
Definition flat_arctan : Q -> Q -> Q := fun _ _ => 0%Q.

End AppExamples.
(** * Properties *)

(** ** Facts about the numeric model *)

Module PyFacts.
Import Py.

Lemma Qleb_true a b : Qleb a b = true <-> (a <= b)%Q.
Proof. apply Qle_bool_iff. Qed.

Lemma Qleb_false a b : Qleb a b = false <-> (b < a)%Q.
Proof.
  unfold Qleb. rewrite <- not_true_iff_false, Qle_bool_iff.
  split; [apply Qnot_le_lt | apply Qlt_not_le].
Qed.

Lemma Qltb_true a b : Qltb a b = true <-> (a < b)%Q.
Proof. unfold Qltb. rewrite negb_true_iff. apply Qleb_false. Qed.

Lemma Qltb_false a b : Qltb a b = false <-> (b <= a)%Q.
Proof. unfold Qltb. rewrite negb_false_iff. apply Qleb_true. Qed.

Lemma Qeqb_true a b : Qeqb a b = true <-> (a == b)%Q.
Proof. apply Qeq_bool_iff. Qed.

Lemma Qeqb_false a b : Qeqb a b = false <-> ~ (a == b)%Q.
Proof. unfold Qeqb. rewrite <- not_true_iff_false, Qeq_bool_iff. tauto. Qed.

#[export] Instance Qleb_proper : Proper (Qeq ==> Qeq ==> eq) Qleb.
Proof.
  intros a a' Ha b b' Hb.
  destruct (Qleb a' b') eqn:E.
  - apply Qleb_true. rewrite Ha, Hb. now apply Qleb_true.
  - apply Qleb_false. rewrite Ha, Hb. now apply Qleb_false.
Qed.

#[export] Instance Qltb_proper : Proper (Qeq ==> Qeq ==> eq) Qltb.
Proof. intros a a' Ha b b' Hb. unfold Qltb. fold (Qleb b a) (Qleb b' a'). now rewrite Ha, Hb. Qed.

(** Turns every boolean comparison in the context and the goal into
    the order on [Q]. *)
Ltac qreflect :=
  repeat match goal with
  | H : Qleb _ _ = true |- _ => apply Qleb_true in H
  | H : Qleb _ _ = false |- _ => apply Qleb_false in H
  | H : Qltb _ _ = true |- _ => apply Qltb_true in H
  | H : Qltb _ _ = false |- _ => apply Qltb_false in H
  | H : Qeqb _ _ = true |- _ => apply Qeqb_true in H
  | H : Qeqb _ _ = false |- _ => apply Qeqb_false in H
  | |- Qleb _ _ = true => apply Qleb_true
  | |- Qleb _ _ = false => apply Qleb_false
  | |- Qltb _ _ = true => apply Qltb_true
  | |- Qltb _ _ = false => apply Qltb_false
  | |- Qeqb _ _ = true => apply Qeqb_true
  | |- Qeqb _ _ = false => apply Qeqb_false
  end.

#[export] Instance round_half_even_proper : Proper (Qeq ==> eq) round_half_even.
Proof.
  intros p q E. unfold round_half_even.
  rewrite (Qfloor_comp _ _ E).
  assert (E' : (p - inject_Z (Qfloor q) == q - inject_Z (Qfloor q))%Q)
    by now rewrite E.
  now rewrite (Qcompare_comp _ _ E' _ _ (Qeq_refl (1 # 2))).
Qed.

Lemma round_half_even_Z (k : Z) : round_half_even (inject_Z k) = k.
Proof.
  unfold round_half_even. rewrite Qfloor_Z.
  assert (E : (inject_Z k - inject_Z k == 0)%Q) by ring.
  now rewrite (Qcompare_comp _ _ E _ _ (Qeq_refl (1 # 2))).
Qed.

#[export] Instance round_proper : Proper (Qeq ==> eq ==> eq) round.
Proof.
  intros p q E n ? <-. unfold round. apply Qred_complete.
  assert (E' : (p * pow10 n == q * pow10 n)%Q) by now rewrite E.
  now rewrite E'.
Qed.

(** Rounding to one decimal leaves a whole number of tenths alone. *)
Lemma round_tenths (k : Z) (q : Q) :
  (q == inject_Z k / 10)%Q -> (round q 1 == inject_Z k / 10)%Q.
Proof.
  intros E. unfold round. rewrite Qred_correct.
  assert (E' : (q * pow10 1 == inject_Z k)%Q).
  { rewrite E. change (pow10 1) with 10%Q. field. }
  rewrite E', round_half_even_Z. change (pow10 1) with 10%Q. reflexivity.
Qed.


(** *** Rounding is monotone *)

Lemma round_half_even_bounds (q : Q) :
  Qfloor q <= round_half_even q <= Qfloor q + 1.
Proof.
  unfold round_half_even.
  destruct (Qcompare _ _); [destruct (Z.even _)|..]; lia.
Qed.

Lemma round_half_even_mono (p q : Q) :
  (p <= q)%Q -> round_half_even p <= round_half_even q.
Proof.
  intros Hpq.
  pose proof (Qfloor_resp_le _ _ Hpq) as Hf.
  destruct (Z.eq_dec (Qfloor p) (Qfloor q)) as [E | N].
  - unfold round_half_even. rewrite E.
    destruct (Qcompare_spec (p - inject_Z (Qfloor q)) (1 # 2)) as [Hp | Hp | Hp];
      destruct (Qcompare_spec (q - inject_Z (Qfloor q)) (1 # 2)) as [Hq | Hq | Hq];
      destruct (Z.even (Qfloor q)); try lia; lra.
  - pose proof (round_half_even_bounds p). pose proof (round_half_even_bounds q).
    lia.
Qed.

Lemma pow10_pos (n : nat) : (0 < pow10 n)%Q.
Proof.
  unfold pow10. change 0%Q with (inject_Z 0). rewrite <- Zlt_Qlt.
  apply Z.pow_pos_nonneg; lia.
Qed.

Lemma round_mono (p q : Q) (n : nat) :
  (p <= q)%Q -> (round p n <= round q n)%Q.
Proof.
  intros Hpq. unfold round. rewrite !Qred_correct.
  pose proof (pow10_pos n) as Hpos.
  apply Qmult_le_compat_r; [|apply Qlt_le_weak, Qinv_lt_0_compat, Hpos].
  rewrite <- Zle_Qle. apply round_half_even_mono.
  apply Qmult_le_compat_r; [exact Hpq | apply Qlt_le_weak, Hpos].
Qed.

(** Rounding keeps a value between two whole numbers it lies between. *)
Lemma round_whole (k : Z) (n : nat) : (round (inject_Z k) n == inject_Z k)%Q.
Proof.
  unfold round. rewrite Qred_correct.
  assert (E : (inject_Z k * pow10 n == inject_Z (k * 10 ^ Z.of_nat n))%Q)
    by (unfold pow10; now rewrite inject_Z_mult).
  rewrite E, round_half_even_Z, inject_Z_mult. fold (pow10 n).
  field. pose proof (pow10_pos n) as Hpos. lra.
Qed.

Lemma round_between (lo hi : Z) (q : Q) (n : nat) :
  (inject_Z lo <= q <= inject_Z hi)%Q ->
  (inject_Z lo <= round q n <= inject_Z hi)%Q.
Proof.
  intros [Hlo Hhi]. split.
  - rewrite <- (round_whole lo n). now apply round_mono.
  - rewrite <- (round_whole hi n). now apply round_mono.
Qed.

End PyFacts.

(** ** Training-load risk engine *)

Module AcwrProps.
Import Py Config Acwr PyFacts Notions.

(** *** Wellness score *)

Ltac push_inject :=
  unfold Z.sub;
  repeat (rewrite inject_Z_plus || rewrite inject_Z_mult || rewrite inject_Z_opp).

(** The score is total on integers (every key of the weight table is a
    key of [normalized]) and the final [round] changes nothing. *)
Lemma calculate_wellness_score_closed_form (s f m st mo mv : Z) :
  exists v, calculate_wellness_score s f m st mo mv = Some v
            /\ (v == inject_Z (wellness_tenths s f m st mo mv) / 10)%Q.
Proof.
  unfold calculate_wellness_score, normalized, WELLNESS_WEIGHTS.
  cbn [weighted_sum].
  repeat (rewrite lookup_insert_eq || rewrite lookup_insert_ne by done).
  cbn [mbind option_bind].
  eexists; split; [reflexivity|].
  apply round_tenths. unfold wellness_tenths. push_inject. field.
Qed.

Lemma tenths_le (j k : Z) :
  j <= k -> (inject_Z j / 10 <= inject_Z k / 10)%Q.
Proof.
  intros H. apply Qmult_le_compat_r; [|discriminate].
  now rewrite <- Zle_Qle.
Qed.

(** C8: with every input on the 1..10 scale, [calculate_wellness_score]
    returns a score that does not decrease when [sleep_quality] grows
    and does not increase when [fatigue] grows, the other five inputs
    being held fixed. *)
Theorem calculate_wellness_score_monotone
    (sleep fatigue soreness stress mood motivation sleep' fatigue' : Z) :
  in_scale sleep -> in_scale fatigue -> in_scale soreness ->
  in_scale stress -> in_scale mood -> in_scale motivation ->
  in_scale sleep' -> in_scale fatigue' ->
  sleep <= sleep' -> fatigue <= fatigue' ->
  exists v v_sleep v_fatigue,
    calculate_wellness_score sleep fatigue soreness stress mood motivation
      = Some v
    /\ calculate_wellness_score sleep' fatigue soreness stress mood motivation
      = Some v_sleep
    /\ calculate_wellness_score sleep fatigue' soreness stress mood motivation
      = Some v_fatigue
    /\ (v <= v_sleep)%Q
    /\ (v_fatigue <= v)%Q.
Proof.
  intros _ _ _ _ _ _ _ _ Hs Hf.
  destruct (calculate_wellness_score_closed_form
              sleep fatigue soreness stress mood motivation) as (v & -> & Ev).
  destruct (calculate_wellness_score_closed_form
              sleep' fatigue soreness stress mood motivation) as (v1 & -> & Ev1).
  destruct (calculate_wellness_score_closed_form
              sleep fatigue' soreness stress mood motivation) as (v2 & -> & Ev2).
  exists v, v1, v2. repeat split; trivial.
  - rewrite Ev, Ev1. apply tenths_le. unfold wellness_tenths. lia.
  - rewrite Ev, Ev2. apply tenths_le. unfold wellness_tenths. lia.
Qed.

Lemma calculate_wellness_score_monotone_witness :
  exists v v_sleep v_fatigue,
    calculate_wellness_score 5 5 5 5 5 5 = Some v
    /\ calculate_wellness_score 8 5 5 5 5 5 = Some v_sleep
    /\ calculate_wellness_score 5 8 5 5 5 5 = Some v_fatigue
    /\ (v <= v_sleep)%Q
    /\ (v_fatigue <= v)%Q.
Proof.
  apply (calculate_wellness_score_monotone 5 5 5 5 5 5 8 8);
    unfold in_scale; lia.
Defined.

(** C9: with every input on the 1..10 scale the score lies in
    [10, 100]; the lower bound 10 is reached (worst sleep, mood and
    motivation with the highest fatigue, soreness and stress), so the
    score never gets to 0. *)
Theorem calculate_wellness_score_range
    (sleep fatigue soreness stress mood motivation : Z) :
  in_scale sleep -> in_scale fatigue -> in_scale soreness ->
  in_scale stress -> in_scale mood -> in_scale motivation ->
  exists v,
    calculate_wellness_score sleep fatigue soreness stress mood motivation
      = Some v
    /\ (10 <= v <= 100)%Q
    /\ calculate_wellness_score 1 10 10 10 1 1 = Some 10%Q.
Proof.
  unfold in_scale. intros Hs Hf Hm Hst Hmo Hmv.
  destruct (calculate_wellness_score_closed_form
              sleep fatigue soreness stress mood motivation) as (v & -> & Ev).
  exists v. split; [reflexivity|]. split; [|reflexivity].
  rewrite Ev. split.
  - apply Qle_trans with (inject_Z 100 / 10)%Q; [discriminate|].
    apply tenths_le. unfold wellness_tenths. lia.
  - apply Qle_trans with (inject_Z 1000 / 10)%Q; [|discriminate].
    apply tenths_le. unfold wellness_tenths. lia.
Qed.

Lemma calculate_wellness_score_range_witness :
  exists v,
    calculate_wellness_score 7 3 3 3 7 7 = Some v
    /\ (10 <= v <= 100)%Q
    /\ calculate_wellness_score 1 10 10 10 1 1 = Some 10%Q.
Proof.
  apply (calculate_wellness_score_range 7 3 3 3 7 7); unfold in_scale; lia.
Defined.

(** *** ACWR *)

Lemma div_days (a : Q) (n : Z) :
  0 < n -> div a (inject_Z n) = Some (a / inject_Z n)%Q.
Proof.
  intros Hn. unfold div.
  destruct (Qeqb (inject_Z n) 0) eqn:E; [|reflexivity].
  apply Qeqb_true in E. unfold Qeq in E. simpl in E. lia.
Qed.

Lemma avg_zero_iff (a : Q) (n : Z) :
  0 < n -> (a / inject_Z n == 0 <-> a == 0)%Q.
Proof.
  intros Hn.
  assert (Hq : ~ (inject_Z n == 0)%Q).
  { unfold Qeq. simpl. lia. }
  split; intros E.
  - rewrite <- (Qmult_div_r a (inject_Z n)) by exact Hq.
    unfold Qdiv in *. rewrite E. ring.
  - rewrite E. unfold Qdiv. ring.
Qed.

(** [calculate_acwr] returns a value on every series and date: the
    division by the chronic average is never reached with a zero
    divisor. *)
Theorem calculate_acwr_never_fails now data d :
  exists r, calculate_acwr now data d = Some r.
Proof.
  unfold calculate_acwr.
  rewrite !div_days by reflexivity. cbn [mbind option_bind].
  match goal with
  | |- context [if Qeqb ?c 0 then (if Qeqb ?a 0 then _ else _) else _] =>
      destruct (Qeqb c 0) eqn:Ec; [destruct (Qeqb a 0); eauto|]
  end.
  unfold div. rewrite Ec. cbn [mbind option_bind]. eauto.
Qed.



(** The sum of a window, with the running total made explicit. *)
Lemma fold_load_acc rows : forall acc,
  (fold_left (fun a r => a + training_load r) rows acc
   == acc + load_sum rows)%Q.
Proof.
  unfold load_sum.
  induction rows as [|r rows IH]; intros acc; cbn [fold_left].
  - ring.
  - rewrite IH, (IH (0 + training_load r)%Q). ring.
Qed.

Lemma load_sum_cons r rows :
  (load_sum (r :: rows) == training_load r + load_sum rows)%Q.
Proof.
  unfold load_sum at 1. cbn [fold_left]. rewrite fold_load_acc. ring.
Qed.

(** With no negative load, a window holds at least what a window
    inside it holds, and at least nothing. *)
Lemma nested_windows data (start start' stop : Z) :
  Forall (fun r => (0 <= training_load r)%Q) data ->
  start <= start' ->
  (0 <= load_sum (rows_between data start' stop)
   /\ load_sum (rows_between data start' stop)
      <= load_sum (rows_between data start stop))%Q.
Proof.
  intros Hpos Hs. unfold rows_between.
  induction data as [|r data IH]; [split; apply Qle_refl|].
  apply Forall_cons in Hpos as [Hr Hdata].
  destruct (IH Hdata) as (H0 & Hle).
  rewrite !filter_cons.
  destruct (decide (start' < date r ∧ date r <= stop)) as [Hin' | Hout'].
  - rewrite decide_True by lia. rewrite !load_sum_cons. split; lra.
  - destruct (decide (start < date r ∧ date r <= stop));
      rewrite ?load_sum_cons; split; lra.
Qed.

(** With no negative load in the series, a 28-day window that sums to
    zero makes [calculate_acwr] return 1.0: the 2.0 fallback needs a
    negative entry. *)
Theorem calculate_acwr_zero_chronic_nonneg now data (d : option Z) :
  Forall (fun r => (0 <= training_load r)%Q) data ->
  (window_load data (default now d) CHRONIC_PERIOD_DAYS == 0)%Q ->
  calculate_acwr now data d = Some 1%Q.
Proof.
  intros Hpos Hc.
  destruct (nested_windows data
              (default now d - timedelta_days CHRONIC_PERIOD_DAYS)
              (default now d - timedelta_days ACUTE_PERIOD_DAYS)
              (default now d) Hpos) as (H0 & Hle).
  { unfold timedelta_days, CHRONIC_PERIOD_DAYS, ACUTE_PERIOD_DAYS. lia. }
  unfold calculate_acwr.
  rewrite !div_days by reflexivity. cbn [mbind option_bind].
  fold (window_load data (default now d) ACUTE_PERIOD_DAYS) in *.
  fold (window_load data (default now d) CHRONIC_PERIOD_DAYS) in *.
  assert (E1 : Qeqb (window_load data (default now d) CHRONIC_PERIOD_DAYS
                     / inject_Z CHRONIC_PERIOD_DAYS) 0 = true)
    by (apply Qeqb_true, avg_zero_iff; [reflexivity | exact Hc]).
  assert (E2 : Qeqb (window_load data (default now d) ACUTE_PERIOD_DAYS
                     / inject_Z ACUTE_PERIOD_DAYS) 0 = true).
  { apply Qeqb_true, avg_zero_iff; [reflexivity|]. lra. }
  now rewrite E1, E2.
Qed.

Lemma calculate_acwr_zero_chronic_nonneg_witness :
  calculate_acwr 0 Examples.old_training None = Some 1%Q.
Proof.
  apply (calculate_acwr_zero_chronic_nonneg 0 Examples.old_training None).
  - repeat constructor; cbn; unfold Qle; simpl; lia.
  - vm_compute. reflexivity.
Defined.

(** *** Risk zones *)

Lemma in_zone_iff zi a :
  in_zone zi a = true <-> (zmin zi <= a /\ a < zmax zi)%Q.
Proof.
  unfold in_zone. rewrite andb_true_iff, Qleb_true, Qltb_true. tauto.
Qed.

Lemma in_zone_false zi a :
  in_zone zi a = false <-> (a < zmin zi \/ zmax zi <= a)%Q.
Proof.
  unfold in_zone. rewrite andb_false_iff, Qleb_false, Qltb_false. tauto.
Qed.

(** Names one configured zone at a time. *)
Ltac each_zone H :=
  unfold RISK_ZONES in H; simpl in H;
  repeat (destruct H as [H | H]; [inversion H; subst; clear H|]);
  [.. | contradiction].

(** C6: for every ACWR value [a >= 0], the configured zones are
    pairwise disjoint at [a], and [get_risk_level] returns the one zone
    of the closed-open partition [0,0.8), [0.8,1.3), [1.3,1.5),
    [1.5,2.0), [2.0,oo) that contains [a]: a configured interval where
    one contains [a], the critical fallback where none does (from 999
    on). *)
Theorem get_risk_level_partition (a : Q) :
  (0 <= a)%Q ->
  (forall n1 z1 n2 z2,
      In (n1, z1) RISK_ZONES -> In (n2, z2) RISK_ZONES ->
      in_zone z1 a = true -> in_zone z2 a = true -> n1 = n2)
  /\ zone (get_risk_level a) = Spec.zone_name (Spec.zone_of a)
  /\ rl_label (get_risk_level a) = Spec.zone_label (Spec.zone_of a)
  /\ ((exists zi, In (zone (get_risk_level a), zi) RISK_ZONES
                  /\ in_zone zi a = true)
      \/ ((999 <= a)%Q
          /\ forall n zi, In (n, zi) RISK_ZONES -> in_zone zi a = false)).
Proof.
  intros Ha. split; [|split; [|split]].
  - intros n1 z1 n2 z2 H1 H2 Z1 Z2.
    apply in_zone_iff in Z1, Z2.
    each_zone H1; each_zone H2; simpl in Z1, Z2; try reflexivity; lra.
  - unfold get_risk_level, RISK_ZONES, Spec.zone_of. cbn [first_zone].
    repeat (match goal with
            | |- context [if in_zone ?z a then _ else _] =>
                let E := fresh "E" in
                destruct (in_zone z a) eqn:E;
                [apply in_zone_iff in E | apply in_zone_false in E];
                cbn [zmin zmax] in E
            end);
    repeat (match goal with
            | |- context [if Qltb a ?c then _ else _] =>
                let E := fresh "E" in destruct (Qltb a c) eqn:E
            end);
    qreflect; try reflexivity; lra.
  - unfold get_risk_level, RISK_ZONES, Spec.zone_of. cbn [first_zone].
    repeat (match goal with
            | |- context [if in_zone ?z a then _ else _] =>
                let E := fresh "E" in
                destruct (in_zone z a) eqn:E;
                [apply in_zone_iff in E | apply in_zone_false in E];
                cbn [zmin zmax] in E
            end);
    repeat (match goal with
            | |- context [if Qltb a ?c then _ else _] =>
                let E := fresh "E" in destruct (Qltb a c) eqn:E
            end);
    qreflect; try reflexivity; lra.
  - unfold get_risk_level, RISK_ZONES. cbn [first_zone].
    repeat (match goal with
            | |- context [if in_zone ?z a then _ else _] =>
                let E := fresh "E" in
                destruct (in_zone z a) eqn:E;
                [left; eexists; split; [|exact E]; cbn; tauto|]
            end).
    right. split.
    + repeat match goal with
             | E : in_zone _ a = false |- _ =>
                 apply in_zone_false in E; cbn [zmin zmax] in E
             end.
      lra.
    + intros n zi H. fold RISK_ZONES in H. each_zone H; assumption.
Qed.

Lemma get_risk_level_partition_witness :
  zone (get_risk_level (125 # 100)) = "optimal"
  /\ zone (get_risk_level 2) = "critical".
Proof.
  split.
  - apply (proj1 (proj2 (get_risk_level_partition (125 # 100)
             ltac:(unfold Qle; simpl; lia)))).
  - apply (proj1 (proj2 (get_risk_level_partition 2
             ltac:(unfold Qle; simpl; lia)))).
Defined.

(** *** Combined risk *)

(** The two numeric fields of the result, free of the status text. *)
Lemma acwr_risk_unfold (a w : Q) :
  acwr_risk (calculate_combined_risk a w)
  = (if Qltb a (8 # 10) then 30
     else if Qleb a (13 # 10) then 10
     else if Qleb a (15 # 10) then 50
     else if Qleb a 2 then 75
     else 95)%Q.
Proof.
  unfold calculate_combined_risk.
  destruct (overall_status _) as [[? ?] ?].
  reflexivity.
Qed.

Lemma combined_risk_unfold (a w : Q) :
  combined_risk (calculate_combined_risk a w)
  = round (acwr_risk (calculate_combined_risk a w) * (6 # 10)
           + (100 - w) * (4 # 10)) 1.
Proof.
  unfold calculate_combined_risk.
  destruct (overall_status _) as [[? ?] ?].
  reflexivity.
Qed.

(** What the code does on the three boundaries: the band below. *)
Lemma calculate_combined_risk_on_boundaries (w : Q) :
  acwr_risk (calculate_combined_risk (13 # 10) w) = 10%Q
  /\ acwr_risk (calculate_combined_risk (15 # 10) w) = 50%Q
  /\ acwr_risk (calculate_combined_risk 2 w) = 75%Q.
Proof. rewrite !acwr_risk_unfold. repeat split. Qed.

Lemma acwr_risk_off_boundaries (a w : Q) :
  (0 <= a)%Q ->
  ~ (a == 13 # 10)%Q -> ~ (a == 15 # 10)%Q -> ~ (a == 2)%Q ->
  acwr_risk (calculate_combined_risk a w) = Spec.band_risk (Spec.zone_of a).
Proof.
  intros Ha N1 N2 N3.
  rewrite acwr_risk_unfold. unfold Spec.zone_of.
  destruct (Qltb a (8 # 10)) eqn:E1; [reflexivity|].
  destruct (Qleb a (13 # 10)) eqn:E2, (Qltb a (13 # 10)) eqn:E2';
    qreflect; try reflexivity; try lra.
  destruct (Qleb a (15 # 10)) eqn:E3, (Qltb a (15 # 10)) eqn:E3';
    qreflect; try reflexivity; try lra.
  destruct (Qleb a 2) eqn:E4, (Qltb a 2) eqn:E4';
    qreflect; try reflexivity; lra.
Qed.

(** *** Alerts *)

Section AlertProps.
Variable fmt : Q -> string.
Variable now_iso : nat -> string.
Variables athlete_id athlete_name : string.

(** The wellness block appends one alert exactly when the score is
    under the configured threshold, which is 5 on the 0..100 scale
    the score is on. *)
Lemma wellness_alerts_spec (w : Q) (alerts : list Alert) :
  exists added,
    wellness_alerts fmt now_iso athlete_id athlete_name w alerts
    = alerts ++ added
    /\ ((w < 5)%Q -> types added = ["warning"])
    /\ ((5 <= w)%Q -> added = []).
Proof.
  unfold wellness_alerts. cbn [wellness_warning ALERT_THRESHOLDS].
  destruct (Qltb w 5) eqn:E; qreflect.
  - eexists; split; [reflexivity|]. split; [reflexivity|]. lra.
  - exists []. rewrite app_nil_r. split; [reflexivity|].
    split; [lra | reflexivity].
Qed.

Lemma acwr_alerts_spec (a : Q) :
  let acwr_part := acwr_alerts fmt now_iso athlete_id athlete_name a [] in
  ((2 <= a)%Q -> types acwr_part = ["critical"])
  /\ (((15 # 10) <= a)%Q -> (a < 2)%Q -> types acwr_part = ["warning"])
  /\ (((13 # 10) <= a)%Q -> (a < (15 # 10))%Q -> types acwr_part = ["caution"])
  /\ ((a < (13 # 10))%Q -> acwr_part = []).
Proof.
  unfold acwr_alerts. cbn [acwr_danger acwr_warning ALERT_THRESHOLDS].
  destruct (Qleb 2 a) eqn:E1, (Qleb (15 # 10) a) eqn:E2,
           (Qleb (13 # 10) a) eqn:E3;
    qreflect; cbn [app]; repeat split; intros;
    try reflexivity; lra.
Qed.
End AlertProps.

(** C10: one call of [check_alerts] returns the alerts of the ACWR
    block followed by those of the wellness block; the ACWR block adds
    at most one alert, of the highest severity whose threshold the ACWR
    reaches (from 2.0 on only the critical one), the wellness block at
    most one, so the call returns at most two alerts. *)
Theorem check_alerts_at_most_two (fmt : Q -> string) (now_iso : nat -> string)
    (athlete_id athlete_name : string) (acwr wellness_score : Q)
    (combined_risk : gmap string Q) :
  let acwr_part := acwr_alerts fmt now_iso athlete_id athlete_name acwr [] in
  exists wellness_part,
    check_alerts fmt now_iso athlete_id athlete_name acwr wellness_score
      combined_risk = acwr_part ++ wellness_part
    /\ (length acwr_part <= 1)%nat
    /\ (length wellness_part <= 1)%nat
    /\ (length (check_alerts fmt now_iso athlete_id athlete_name acwr
                  wellness_score combined_risk) <= 2)%nat
    /\ ((2 <= acwr)%Q -> types acwr_part = ["critical"])
    /\ (((15 # 10) <= acwr)%Q -> (acwr < 2)%Q -> types acwr_part = ["warning"])
    /\ (((13 # 10) <= acwr)%Q -> (acwr < (15 # 10))%Q ->
        types acwr_part = ["caution"])
    /\ ((acwr < (13 # 10))%Q -> acwr_part = []).
Proof.
  intros acwr_part.
  destruct (wellness_alerts_spec fmt now_iso athlete_id athlete_name
              wellness_score acwr_part) as (added & Hw & Hlow & Hok).
  pose proof (acwr_alerts_spec fmt now_iso athlete_id athlete_name acwr)
    as (Hc & Hd & Hv & Hn). fold acwr_part in Hc, Hd, Hv, Hn.
  assert (La : (length acwr_part <= 1)%nat).
  { destruct (Qlt_le_dec acwr (13 # 10)) as [L1|L1];
      [rewrite (Hn L1); simpl; lia|].
    destruct (Qlt_le_dec acwr (15 # 10)) as [L2|L2];
      [rewrite <- (length_map type); fold (types acwr_part);
       rewrite (Hv L1 L2); simpl; lia|].
    destruct (Qlt_le_dec acwr 2) as [L3|L3];
      rewrite <- (length_map type); fold (types acwr_part);
      [rewrite (Hd L2 L3) | rewrite (Hc L3)]; simpl; lia. }
  assert (Lw : (length added <= 1)%nat).
  { destruct (Qlt_le_dec wellness_score 5) as [L|L];
      [rewrite <- (length_map type); fold (types added);
       rewrite (Hlow L) | rewrite (Hok L)]; simpl; lia. }
  exists added. unfold check_alerts. fold acwr_part. rewrite Hw.
  repeat split; try assumption.
  rewrite length_app. lia.
Qed.

Lemma check_alerts_at_most_two_witness :
  types (check_alerts Examples.show_ratio Examples.clock "JOC-001" "Athlete"
           (25 # 10) 3 ∅) = ["critical"; "warning"]
  /\ (length (check_alerts Examples.show_ratio Examples.clock "JOC-001"
                "Athlete" (25 # 10) 3 ∅) <= 2)%nat.
Proof.
  destruct (check_alerts_at_most_two Examples.show_ratio Examples.clock
              "JOC-001" "Athlete" (25 # 10) 3 ∅)
    as (wellness_part & _ & _ & _ & Htotal & _).
  split; [vm_compute; reflexivity | exact Htotal].
Defined.

(** The low-wellness alert cannot fire on a score that
    [calculate_wellness_score] computed from inputs on the 1..10 scale:
    such a score is at least 10, and the alert needs one under 5. *)
Theorem low_wellness_alert_never_fires (fmt : Q -> string)
    (now_iso : nat -> string) (athlete_id athlete_name : string)
    (sleep fatigue soreness stress mood motivation : Z) (score : Q)
    (alerts : list Alert) :
  in_scale sleep -> in_scale fatigue -> in_scale soreness ->
  in_scale stress -> in_scale mood -> in_scale motivation ->
  calculate_wellness_score sleep fatigue soreness stress mood motivation
    = Some score ->
  wellness_alerts fmt now_iso athlete_id athlete_name score alerts = alerts.
Proof.
  unfold in_scale. intros Hs Hf Hm Hst Hmo Hmv Hscore.
  destruct (calculate_wellness_score_closed_form
              sleep fatigue soreness stress mood motivation) as (v & Hv & Ev).
  rewrite Hscore in Hv. injection Hv as <-.
  assert (Hlow : (10 <= score)%Q).
  { rewrite Ev. apply Qle_trans with (inject_Z 100 / 10)%Q; [discriminate|].
    apply tenths_le. unfold wellness_tenths. lia. }
  destruct (wellness_alerts_spec fmt now_iso athlete_id athlete_name
              score alerts) as (added & -> & _ & Hnone).
  rewrite Hnone by lra. apply app_nil_r.
Qed.

Lemma low_wellness_alert_never_fires_witness :
  wellness_alerts Examples.show_ratio Examples.clock "JOC-001" "Athlete"
    10 [] = [].
Proof.
  apply (low_wellness_alert_never_fires Examples.show_ratio Examples.clock
           "JOC-001" "Athlete" 1 10 10 10 1 1 10 []);
    unfold in_scale; (lia || reflexivity).
Defined.

(** C2: at ACWR 1.0 and wellness score 30, which is under 50,
    [check_alerts] returns no alert at all: the score, on the 0..100
    scale, is compared with the threshold 5.0 as configured and not
    with 50. *)
Theorem check_alerts_misses_low_wellness (fmt : Q -> string)
    (now_iso : nat -> string) (athlete_id athlete_name : string)
    (combined_risk : gmap string Q) :
  check_alerts fmt now_iso athlete_id athlete_name 1 30 combined_risk = [].
Proof. reflexivity. Qed.

(** C3: on the zone boundaries the code takes the band below.  At ACWR
    1.3, 1.5 and 2.0, for every wellness score, [calculate_combined_risk]
    uses the risk of the optimal, elevated and high band (10, 50, 75),
    where the closed-open zones of the claim, [get_risk_level] and the
    thresholds of [check_alerts] all place these values in the
    elevated, high and critical band (50, 75, 95); at ACWR 1.3 and
    wellness 50 it returns 26.0 where the claim's formula gives 50.
    At every other ACWR from 0 on the band risk is the claim's. *)
Theorem calculate_combined_risk_boundary_band (fmt : Q -> string)
    (now_iso : nat -> string) (athlete_id athlete_name : string) (w : Q) :
  (acwr_risk (calculate_combined_risk (13 # 10) w)
     = Spec.band_risk Spec.optimal
   /\ Spec.zone_of (13 # 10) = Spec.elevated
   /\ zone (get_risk_level (13 # 10)) = "high_risk"
   /\ types (acwr_alerts fmt now_iso athlete_id athlete_name (13 # 10) [])
      = ["caution"])
  /\ (acwr_risk (calculate_combined_risk (15 # 10) w)
        = Spec.band_risk Spec.elevated
      /\ Spec.zone_of (15 # 10) = Spec.high
      /\ zone (get_risk_level (15 # 10)) = "danger"
      /\ types (acwr_alerts fmt now_iso athlete_id athlete_name (15 # 10) [])
         = ["warning"])
  /\ (acwr_risk (calculate_combined_risk 2 w) = Spec.band_risk Spec.high
      /\ Spec.zone_of 2 = Spec.critical
      /\ zone (get_risk_level 2) = "critical"
      /\ types (acwr_alerts fmt now_iso athlete_id athlete_name 2 [])
         = ["critical"])
  /\ (combined_risk (calculate_combined_risk (13 # 10) 50) == 26)%Q
  /\ (Spec.combined_risk (13 # 10) 50 == 50)%Q
  /\ (forall a : Q,
        (0 <= a)%Q ->
        ~ (a == 13 # 10)%Q -> ~ (a == 15 # 10)%Q -> ~ (a == 2)%Q ->
        acwr_risk (calculate_combined_risk a w)
        = Spec.band_risk (Spec.zone_of a)).
Proof.
  destruct (calculate_combined_risk_on_boundaries w) as (H1 & H2 & H3).
  pose proof (acwr_alerts_spec fmt now_iso athlete_id athlete_name (13 # 10))
    as (_ & _ & A1 & _).
  pose proof (acwr_alerts_spec fmt now_iso athlete_id athlete_name (15 # 10))
    as (_ & A2 & _ & _).
  pose proof (acwr_alerts_spec fmt now_iso athlete_id athlete_name 2)
    as (A3 & _ & _ & _).
  cbv zeta in A1, A2, A3.
  split; [|split; [|split; [|split; [|split]]]].
  - split; [exact H1|]. split; [reflexivity|]. split; [reflexivity|].
    apply A1; [apply Qle_refl | reflexivity].
  - split; [exact H2|]. split; [reflexivity|]. split; [reflexivity|].
    apply A2; [apply Qle_refl | reflexivity].
  - split; [exact H3|]. split; [reflexivity|]. split; [reflexivity|].
    apply A3, Qle_refl.
  - vm_compute. reflexivity.
  - vm_compute. reflexivity.
  - intros a. apply acwr_risk_off_boundaries.
Qed.

End AcwrProps.

(** ** Technique analyzer *)

Module AppProps.
Import Py App PyFacts Notions.

(** *** Scoring *)

Lemma reads_nonempty metrics key v :
  reads metrics key v -> ~ (v == 0)%Q -> metrics <> ∅.
Proof.
  intros (q & Hq & Eq) Hv ->. unfold get_num in Hq.
  rewrite lookup_empty in Hq. simpl in Hq.
  injection Hq as <-. apply Hv. now rewrite <- Eq.
Qed.

(** C7: on metrics that read knee_angle 170, kick_height 80,
    hip_flexion 115, support_knee 170 and visibility 90,
    [calculate_score] returns the total 25 + 30 + 20 + 15 + 10 = 100,
    and [get_grade] gives that score the grade A+. *)
Theorem calculate_score_full_marks (metrics : gmap string PyVal) :
  reads metrics "knee_angle" 170 ->
  reads metrics "kick_height" 80 ->
  reads metrics "hip_flexion" 115 ->
  reads metrics "support_knee" 170 ->
  reads metrics "visibility" 90 ->
  exists score feedback,
    calculate_score metrics = Some (score, feedback)
    /\ score = 25 + 30 + 20 + 15 + 10
    /\ score = 100
    /\ fst (fst (get_grade score)) = "A+".
Proof.
  intros Hknee Hheight Hhip Hsupport Hvis.
  assert (Hne : metrics <> ∅)
    by (apply (reads_nonempty _ _ _ Hknee); discriminate).
  destruct Hknee as (knee & Hknee & Eknee).
  destruct Hheight as (height & Hheight & Eheight).
  destruct Hhip as (hip & Hhip & Ehip).
  destruct Hsupport as (support & Hsupport & Esupport).
  destruct Hvis as (vis & Hvis & Evis).
  assert (K : Qleb 160 knee = true) by now rewrite Eknee.
  assert (H : Qleb 70 height = true) by now rewrite Eheight.
  assert (P : Qleb 110 hip = true) by now rewrite Ehip.
  assert (S1 : Qleb 160 support = true) by now rewrite Esupport.
  assert (S2 : Qleb support 180 = true) by now rewrite Esupport.
  assert (V : Qleb 80 vis = true) by now rewrite Evis.
  unfold calculate_score. rewrite bool_decide_eq_false_2 by exact Hne.
  rewrite Hknee, Hheight, Hhip, Hsupport, Hvis. cbn [mbind option_bind].
  rewrite K, H, P, S1, S2, V. cbn.
  eexists _, _. repeat split.
Qed.

Lemma calculate_score_full_marks_witness :
  exists score feedback,
    calculate_score Examples.full_marks = Some (score, feedback)
    /\ score = 25 + 30 + 20 + 15 + 10
    /\ score = 100
    /\ fst (fst (get_grade score)) = "A+".
Proof.
  apply (calculate_score_full_marks Examples.full_marks);
    eexists; (split; [vm_compute; reflexivity | reflexivity]).
Defined.


(** *** Kick detection *)

Section Detector.
Variable degrees_between : Vec3 -> Vec3 -> Q.

Local Abbreviation measure := (measure degrees_between).
Local Abbreviation feed := (feed degrees_between).
Local Abbreviation run_from := (run_from degrees_between).
Local Abbreviation run := (run degrees_between).
Local Abbreviation is_high := (is_high degrees_between).

(** A rejected frame leaves the analyzer as it was. *)
Lemma feed_rejected self f :
  measure (landmarks f) = None -> feed self f = self.
Proof.
  intros H. unfold feed, analyze_frame. now rewrite H.
Qed.

(** A measured frame that finds the detector armed under a high kick
    records the kick and leaves the cooldown at 9. *)
Lemma feed_fires self f m :
  measure (landmarks f) = Some m ->
  Qleb 25 (kick_height m) = true -> cooldown self = 0 ->
  cooldown (feed self f) = 9
  /\ exists kick,
      detected_kicks (feed self f) = detected_kicks self ++ [kick]
      /\ kick_frame_idx kick = Some (frame_idx f)
      /\ kick !! "kick_number"
         = Some (PyInt (Z.of_nat (length (detected_kicks self)) + 1)).
Proof.
  intros Hm Hh Hc. unfold feed, analyze_frame. rewrite Hm.
  unfold detect_kick. rewrite Hh, Hc. cbn. split; [reflexivity|].
  eexists. split; [reflexivity|]. split.
  - unfold kick_frame_idx, metrics_of.
    rewrite lookup_insert_ne by done. now rewrite lookup_insert_eq.
  - now rewrite lookup_insert_eq.
Qed.

(** Any other measured frame records nothing and counts the
    cooldown down by one, stopping at 0. *)
Lemma feed_waits self f m :
  measure (landmarks f) = Some m ->
  Qleb 25 (kick_height m) = false \/ cooldown self <> 0 ->
  cooldown (feed self f)
    = (if 0 <? cooldown self then cooldown self - 1 else cooldown self)
  /\ detected_kicks (feed self f) = detected_kicks self.
Proof.
  intros Hm Hw. unfold feed, analyze_frame. rewrite Hm.
  unfold detect_kick.
  assert (E : Qleb 25 (kick_height m) && (cooldown self =? 0) = false).
  { destruct Hw as [-> | Hc]; [reflexivity|].
    apply andb_false_iff. right. now apply Z.eqb_neq. }
  rewrite E. unfold tick. destruct (0 <? cooldown self); now cbn.
Qed.

Lemma is_high_true f :
  is_high f = true ->
  exists m, measure (landmarks f) = Some m /\ Qleb 25 (kick_height m) = true.
Proof.
  unfold Notions.is_high. destruct (measure (landmarks f)) as [m|]; [|discriminate].
  eauto.
Qed.

Lemma is_high_false f :
  is_high f = false ->
  measure (landmarks f) = None
  \/ exists m, measure (landmarks f) = Some m /\ Qleb 25 (kick_height m) = false.
Proof.
  unfold Notions.is_high. destruct (measure (landmarks f)) as [m|]; eauto.
Qed.

Lemma detector_inv_new hi : detector_inv new hi.
Proof.
  unfold detector_inv, new. cbn. split; [lia|].
  split; intros; match goal with
                 | H : [] !! _ = Some _ |- _ => now rewrite lookup_nil in H
                 end.
Qed.

Lemma detector_inv_feed self hi f :
  detector_inv self hi -> hi < frame_idx f ->
  detector_inv (feed self f) (frame_idx f).
Proof.
  intros (Hc & Hold & Hgap) Hhi.
  destruct (measure (landmarks f)) as [m|] eqn:Hm.
  2:{ rewrite (feed_rejected _ _ Hm). split; [exact Hc|]. split; [|exact Hgap].
      intros i k Hk. destruct (Hold i k Hk) as (a & Ha & Hle).
      exists a. split; [exact Ha | lia]. }
  destruct (Qleb 25 (kick_height m)) eqn:Hh.
  1: destruct (Z.eq_dec (cooldown self) 0) as [Hz | Hnz].
  - destruct (feed_fires self f m Hm Hh Hz) as (Hc' & kick & Hk' & Hidx & _).
    rewrite Hz in Hold.
    split; [lia|]. rewrite Hc', Hk'. split.
    + intros i k Hk. apply lookup_snoc_Some in Hk as [[_ Hk] | [_ <-]].
      * destruct (Hold i k Hk) as (a & Ha & Hle). exists a. split; [exact Ha | lia].
      * exists (frame_idx f). split; [exact Hidx | lia].
    + intros i j ki kj a b Hij Hi Hj Ha Hb.
      apply lookup_snoc_Some in Hj as [[Hlt Hj] | [Hj' <-]].
      * rewrite lookup_app_l in Hi by lia. eauto.
      * rewrite lookup_app_l in Hi by lia.
        destruct (Hold i ki Hi) as (a' & Ha' & Hle).
        rewrite Ha in Ha'. injection Ha' as <-.
        rewrite Hidx in Hb. injection Hb as <-. lia.
  - destruct (feed_waits self f m Hm (or_intror Hnz)) as (Hc' & Hk').
    assert (Hpos : (0 <? cooldown self) = true) by (apply Z.ltb_lt; lia).
    rewrite Hpos in Hc'.
    split; [lia|]. rewrite Hc', Hk'. split; [|exact Hgap].
    intros i k Hk. destruct (Hold i k Hk) as (a & Ha & Hle).
    exists a. split; [exact Ha | lia].
  - destruct (feed_waits self f m Hm (or_introl Hh)) as (Hc' & Hk').
    assert (Hc'' : cooldown self - 1 <= cooldown (feed self f) <= cooldown self
                   /\ 0 <= cooldown (feed self f)).
    { rewrite Hc'. destruct (0 <? cooldown self) eqn:E; [apply Z.ltb_lt in E|]; lia. }
    split; [lia|]. rewrite Hk'. split; [|exact Hgap].
    intros i k Hk. destruct (Hold i k Hk) as (a & Ha & Hle).
    exists a. split; [exact Ha | lia].
Qed.

Lemma increasing_tail f fs :
  increasing (f :: fs) ->
  increasing fs /\ forall g, g ∈ fs -> frame_idx f < frame_idx g.
Proof.
  intros H. split.
  - intros i j fi fj Hij Hi Hj.
    apply (H (S i) (S j) fi fj); [lia | exact Hi | exact Hj].
  - intros g Hg. apply list_elem_of_lookup in Hg as [k Hk].
    apply (H 0%nat (S k) f g); [lia | reflexivity | exact Hk].
Qed.

Lemma detector_inv_run frames : forall self hi,
  detector_inv self hi ->
  (forall g, g ∈ frames -> hi < frame_idx g) ->
  increasing frames ->
  exists hi', detector_inv (run_from self frames) hi'.
Proof.
  induction frames as [|f fs IH]; intros self hi Hinv Hhi Hinc.
  - exists hi. exact Hinv.
  - destruct (increasing_tail f fs Hinc) as (Hinc' & Hnext).
    apply (IH (feed self f) (frame_idx f)); [|exact Hnext|exact Hinc'].
    apply (detector_inv_feed self hi); [exact Hinv|].
    apply Hhi. left.
Qed.

Lemma increasing_from_sound frames : forall lo,
  increasing_from lo frames = true ->
  (forall g, g ∈ frames -> lo < frame_idx g) /\ increasing frames.
Proof.
  induction frames as [|f fs IH]; intros lo H.
  - split; [intros g Hg; inversion Hg|].
    intros i j fi fj _ Hi. now rewrite lookup_nil in Hi.
  - cbn in H. apply andb_true_iff in H as [Hlo Hfs].
    apply Z.ltb_lt in Hlo. destruct (IH _ Hfs) as (Hnext & Hinc).
    split.
    + intros g Hg. apply elem_of_cons in Hg as [-> | Hg]; [exact Hlo|].
      specialize (Hnext g Hg). lia.
    + intros i j fi fj Hij Hi Hj.
      destruct j as [|j]; [lia|]. cbn in Hj.
      destruct i as [|i]; cbn in Hi.
      * injection Hi as <-. apply Hnext.
        apply list_elem_of_lookup. eauto.
      * apply (Hinc i j); [lia | exact Hi | exact Hj].
Qed.

Lemma increasingb_sound frames :
  increasingb frames = true -> increasing frames.
Proof.
  destruct frames as [|f fs]; cbn.
  - intros _ i j fi fj _ Hi. now rewrite lookup_nil in Hi.
  - intros H.
    apply (increasing_from_sound (f :: fs) (frame_idx f - 1)).
    cbn. rewrite H. rewrite andb_true_r. apply Z.ltb_lt. lia.
Qed.

(** Frames that are not high record nothing, and leave an armed
    detector armed. *)
Lemma low_frames_no_kick frames : forall self,
  Forall (fun f => is_high f = false) frames ->
  detected_kicks (run_from self frames) = detected_kicks self
  /\ (cooldown self = 0 -> cooldown (run_from self frames) = 0).
Proof.
  induction frames as [|f fs IH]; intros self Hlow; [now split|].
  apply Forall_cons in Hlow as [Hf Hfs].
  destruct (IH (feed self f) Hfs) as (Hk & Hc).
  change (run_from self (f :: fs)) with (run_from (feed self f) fs).
  destruct (is_high_false f Hf) as [Hm | (m & Hm & Hh)].
  - rewrite (feed_rejected _ _ Hm) in *. now split.
  - destruct (feed_waits self f m Hm (or_introl Hh)) as (Hc' & Hk').
    rewrite Hk, Hk'. split; [reflexivity|].
    intros Hz. apply Hc. rewrite Hc', Hz. reflexivity.
Qed.

(** Consecutive high frames record [burst c n] kicks. *)
Lemma high_frames_count frames : forall self,
  0 <= cooldown self <= 9 ->
  Forall (fun f => is_high f = true) frames ->
  Z.of_nat (length (detected_kicks (run_from self frames)))
  = Z.of_nat (length (detected_kicks self))
    + burst (cooldown self) (Z.of_nat (length frames)).
Proof.
  induction frames as [|f fs IH]; intros self Hc Hhigh.
  - cbn. change (Z.of_nat 0) with 0. unfold burst.
    destruct (0 <=? cooldown self) eqn:E; [lia|].
    apply Z.leb_gt in E. lia.
  - apply Forall_cons in Hhigh as [Hf Hfs].
    change (run_from self (f :: fs)) with (run_from (feed self f) fs).
    destruct (is_high_true f Hf) as (m & Hm & Hh).
    destruct (Z.eq_dec (cooldown self) 0) as [Hz | Hnz].
    + destruct (feed_fires self f m Hm Hh Hz) as (Hc' & kick & Hk' & _).
      rewrite IH by (rewrite ?Hc'; (lia || assumption)).
      rewrite Hc', Hk', Hz, length_app. cbn [length].
      rewrite Nat2Z.inj_succ. unfold burst.
      destruct (Z.of_nat (length fs) <=? 9) eqn:E1;
        destruct (Z.succ (Z.of_nat (length fs)) <=? 0) eqn:E2;
        rewrite ?Z.leb_le, ?Z.leb_gt in *;
        try lia; Z.div_mod_to_equations; lia.
    + destruct (feed_waits self f m Hm (or_intror Hnz)) as (Hc' & Hk').
      assert (Hpos : (0 <? cooldown self) = true) by (apply Z.ltb_lt; lia).
      rewrite Hpos in Hc'.
      rewrite IH by (rewrite ?Hc'; (lia || assumption)).
      rewrite Hc', Hk'. cbn [length]. rewrite Nat2Z.inj_succ. unfold burst.
      destruct (Z.of_nat (length fs) <=? cooldown self - 1) eqn:E1;
        destruct (Z.succ (Z.of_nat (length fs)) <=? cooldown self) eqn:E2;
        rewrite ?Z.leb_le, ?Z.leb_gt in *;
        try lia.
      f_equal. f_equal. lia.
Qed.

Lemma numbered_feed self f : numbered self -> numbered (feed self f).
Proof.
  intros Hn.
  destruct (measure (landmarks f)) as [m|] eqn:Hm;
    [|now rewrite (feed_rejected _ _ Hm)].
  destruct (Qleb 25 (kick_height m)) eqn:Hh.
  1: destruct (Z.eq_dec (cooldown self) 0) as [Hz | Hnz].
  - destruct (feed_fires self f m Hm Hh Hz) as (_ & kick & Hk' & _ & Hnum).
    intros i k Hk. rewrite Hk' in Hk.
    apply lookup_snoc_Some in Hk as [[_ Hk] | [-> <-]]; [now apply Hn|].
    exact Hnum.
  - destruct (feed_waits self f m Hm (or_intror Hnz)) as (_ & Hk').
    intros i k Hk. rewrite Hk' in Hk. now apply Hn.
  - destruct (feed_waits self f m Hm (or_introl Hh)) as (_ & Hk').
    intros i k Hk. rewrite Hk' in Hk. now apply Hn.
Qed.

Lemma numbered_run frames : forall self,
  numbered self -> numbered (run_from self frames).
Proof.
  induction frames as [|f fs IH]; intros self Hn; [exact Hn|].
  apply (IH (feed self f)). now apply numbered_feed.
Qed.

Lemma run_from_app self fs gs :
  run_from self (fs ++ gs) = run_from (run_from self fs) gs.
Proof. apply fold_left_app. Qed.

(** A stretch of [n] consecutive high frames between frames that are
    not high makes a fresh analyzer record [(n + 9) / 10] kicks. *)
Lemma spike_count pre spike post :
  Forall (fun f => is_high f = false) pre ->
  Forall (fun f => is_high f = true) spike ->
  Forall (fun f => is_high f = false) post ->
  length (detected_kicks (run (pre ++ spike ++ post)))
  = ((length spike + 9) / 10)%nat.
Proof.
  intros Hpre Hspike Hpost. unfold App.run.
  rewrite !run_from_app.
  destruct (low_frames_no_kick pre new Hpre) as (Hk0 & Hc0).
  specialize (Hc0 eq_refl).
  destruct (low_frames_no_kick post
              (run_from (run_from new pre) spike) Hpost) as (Hk2 & _).
  rewrite Hk2. apply Nat2Z.inj.
  rewrite high_frames_count by (rewrite ?Hc0; (lia || assumption)).
  rewrite Hk0, Hc0. cbn [new detected_kicks length].
  unfold burst. rewrite Nat2Z.inj_div, Nat2Z.inj_add.
  destruct (Z.of_nat (length spike) <=? 0) eqn:E;
    rewrite ?Z.leb_le, ?Z.leb_gt in *.
  - assert (E0 : Z.of_nat (length spike) = 0) by lia. rewrite E0. reflexivity.
  - change (Z.of_nat 0) with 0. change (Z.of_nat 9) with 9.
    change (Z.of_nat 10) with 10. rewrite Z.add_0_l. f_equal. lia.
Qed.
End Detector.

(** C5, amended: on a stream whose frame indices strictly increase, fed
    in order to a fresh analyzer, any two recorded kicks are at least 10
    frames apart: the later one carries a frame index at least 10 above
    the earlier one's. *)
Theorem kicks_ten_frames_apart (degrees_between : Vec3 -> Vec3 -> Q)
    (frames : list Frame) :
  increasing frames ->
  forall i j ki kj, (i < j)%nat ->
    detected_kicks (run degrees_between frames) !! i = Some ki ->
    detected_kicks (run degrees_between frames) !! j = Some kj ->
    exists a b,
      kick_frame_idx ki = Some a /\ kick_frame_idx kj = Some b
      /\ a + 10 <= b.
Proof.
  intros Hinc i j ki kj Hij Hi Hj.
  assert (Hinv : exists hi, detector_inv (run degrees_between frames) hi).
  { destruct frames as [|f fs]; [exists 0; apply detector_inv_new|].
    apply (detector_inv_run degrees_between (f :: fs) new (frame_idx f - 1));
      [apply detector_inv_new | | exact Hinc].
    intros g Hg. apply elem_of_cons in Hg as [-> | Hg]; [lia|].
    destruct (increasing_tail f fs Hinc) as (_ & Hnext).
    specialize (Hnext g Hg). lia. }
  destruct Hinv as (hi & _ & Hold & Hgap).
  destruct (Hold i ki Hi) as (a & Ha & _).
  destruct (Hold j kj Hj) as (b & Hb & _).
  exists a, b. split; [exact Ha|]. split; [exact Hb|]. eauto.
Qed.


Lemma before_spike_low :
  Forall (fun f => is_high Examples.no_angle f = false) Examples.before_spike.
Proof. repeat (constructor; [vm_compute; reflexivity|]). constructor. Qed.

Lemma spike15_high :
  Forall (fun f => is_high Examples.no_angle f = true) Examples.spike15.
Proof. repeat (constructor; [vm_compute; reflexivity|]). constructor. Qed.

Lemma after_spike_low :
  Forall (fun f => is_high Examples.no_angle f = false) Examples.after_spike.
Proof. repeat (constructor; [vm_compute; reflexivity|]). constructor. Qed.

(** C1 as the specification words it fails: in a stream whose kick
    height is at least 25 on exactly fifteen consecutive frames (indices
    3..17) and below 25 on the frames before and after, a fresh
    analyzer records two kicks, not one. *)
Lemma fifteen_frame_spike_not_one_kick :
  Forall (fun f => is_high Examples.no_angle f = false) Examples.before_spike
  /\ Forall (fun f => is_high Examples.no_angle f = true) Examples.spike15
  /\ length Examples.spike15 = 15%nat
  /\ Forall (fun f => is_high Examples.no_angle f = false) Examples.after_spike
  /\ length (detected_kicks (run Examples.no_angle Examples.spike_stream))
     <> 1%nat.
Proof.
  split; [exact before_spike_low|]. split; [exact spike15_high|].
  split; [reflexivity|]. split; [exact after_spike_low|].
  vm_compute. discriminate.
Qed.

(** C1, amended: in a stream whose kick height is at least 25 on [n]
    consecutive frames and below 25 (or not measured) elsewhere, a fresh
    analyzer records one kick for every started run of 10 frames of the
    spike, [(n + 9) / 10] in all: exactly two for a spike of 15 frames,
    and exactly one precisely when the spike lasts 1 to 10 frames. *)
Theorem sustained_spike_kicks (degrees_between : Vec3 -> Vec3 -> Q)
    (pre spike post : list Frame) :
  Forall (fun f => is_high degrees_between f = false) pre ->
  Forall (fun f => is_high degrees_between f = true) spike ->
  Forall (fun f => is_high degrees_between f = false) post ->
  let kicks :=
    length (detected_kicks (run degrees_between (pre ++ spike ++ post))) in
  kicks = ((length spike + 9) / 10)%nat
  /\ (length spike = 15%nat -> kicks = 2%nat)
  /\ (kicks = 1%nat <-> (1 <= length spike <= 10)%nat).
Proof.
  intros Hpre Hspike Hpost kicks.
  assert (E : kicks = ((length spike + 9) / 10)%nat)
    by (apply spike_count; assumption).
  split; [exact E|]. split.
  - intros H15. rewrite E, H15. reflexivity.
  - rewrite E. split; intros H.
    + pose proof (Nat.div_mod (length spike + 9) 10 ltac:(lia)) as Hd.
      pose proof (Nat.mod_upper_bound (length spike + 9) 10 ltac:(lia)) as Hm.
      rewrite H in Hd. lia.
    + symmetry. apply (Nat.div_unique _ _ _ (length spike - 1)); lia.
Qed.

Lemma sustained_spike_kicks_witness :
  length (detected_kicks (run Examples.no_angle Examples.spike_stream))
  = 2%nat.
Proof.
  apply (proj1 (proj2 (sustained_spike_kicks Examples.no_angle
                         Examples.before_spike Examples.spike15
                         Examples.after_spike
                         before_spike_low spike15_high after_spike_low))).
  reflexivity.
Defined.

(** The bound of 10 frames is reached: the two kicks of the example
    stream are recorded at frames 3 and 13. *)
Lemma ten_frames_apart_is_tight :
  map kick_frame_idx
    (detected_kicks (run Examples.no_angle Examples.spike_stream))
  = [Some 3; Some 13].
Proof. vm_compute. reflexivity. Qed.

(** The kicks a fresh analyzer records on any stream are numbered 1, 2,
    3, ... in the order they were recorded. *)
Theorem kick_numbers_sequential (degrees_between : Vec3 -> Vec3 -> Q)
    (frames : list Frame) (i : nat) (kick : gmap string PyVal) :
  detected_kicks (run degrees_between frames) !! i = Some kick ->
  kick !! "kick_number" = Some (PyInt (Z.of_nat i + 1)).
Proof.
  apply (numbered_run degrees_between frames new).
  intros j k Hk. cbn in Hk. now rewrite lookup_nil in Hk.
Qed.

Lemma kick_numbers_sequential_witness :
  exists kick,
    detected_kicks (run Examples.no_angle Examples.spike_stream) !! 1%nat
      = Some kick
    /\ kick !! "kick_number" = Some (PyInt 2).
Proof.
  destruct (detected_kicks (run Examples.no_angle Examples.spike_stream)
              !! 1%nat) as [kick|] eqn:Hk; [|vm_compute in Hk; discriminate].
  exists kick. split; [reflexivity|].
  exact (kick_numbers_sequential Examples.no_angle Examples.spike_stream
           1%nat kick Hk).
Defined.

Lemma spike_stream_increasing : increasing Examples.spike_stream.
Proof. apply increasingb_sound. vm_compute. reflexivity. Qed.

Lemma kicks_ten_frames_apart_witness :
  exists ki kj a b,
    detected_kicks (run Examples.no_angle Examples.spike_stream) !! 0%nat
      = Some ki
    /\ detected_kicks (run Examples.no_angle Examples.spike_stream) !! 1%nat
      = Some kj
    /\ kick_frame_idx ki = Some a /\ kick_frame_idx kj = Some b
    /\ a + 10 <= b.
Proof.
  destruct (detected_kicks (run Examples.no_angle Examples.spike_stream)
              !! 0%nat) as [ki|] eqn:Hi; [|vm_compute in Hi; discriminate].
  destruct (detected_kicks (run Examples.no_angle Examples.spike_stream)
              !! 1%nat) as [kj|] eqn:Hj; [|vm_compute in Hj; discriminate].
  destruct (kicks_ten_frames_apart Examples.no_angle Examples.spike_stream
              spike_stream_increasing 0%nat 1%nat ki kj ltac:(lia) Hi Hj)
    as (a & b & Ha & Hb & Hab).
  exists ki, kj, a, b. repeat split; assumption.
Defined.

(** C5 as the specification words it fails: with the cooldown counted
    down on the frames after the event only, ten silent frames would
    follow every kick and two kicks would lie more than 10 frames
    apart.  In the stream below, whose frame indices increase by one,
    the two kicks are recorded at frames 3 and 13: the second falls on
    the tenth frame after the first, within 10 frames of it. *)
Lemma second_kick_on_tenth_frame :
  increasing Examples.spike_stream
  /\ exists a b,
       map kick_frame_idx
         (detected_kicks (run Examples.no_angle Examples.spike_stream))
       = [Some a; Some b]
       /\ b = a + 10 /\ ~ (a + 10 < b).
Proof.
  split; [exact spike_stream_increasing|].
  exists 3, 13. split; [exact ten_frames_apart_is_tight|]. lia.
Qed.

End AppProps.

(** ** Status, recommendations, rolling ratio and spikes *)

Module AcwrToolsProps.
Import Py Config Acwr AcwrTools PyFacts Notions MoreNotions.

(** *** The ratio does not depend on the order of the rows *)

Lemma load_sum_perm (l l' : list TrainingRow) :
  l ≡ₚ l' -> (load_sum l == load_sum l')%Q.
Proof.
  induction 1 as [|r l l' _ IH|r r' l|l l' l'' _ IH1 _ IH2].
  - reflexivity.
  - rewrite !AcwrProps.load_sum_cons, IH. reflexivity.
  - rewrite !AcwrProps.load_sum_cons. ring.
  - now rewrite IH1.
Qed.

Lemma window_load_perm (l l' : list TrainingRow) (start stop : Z) :
  l ≡ₚ l' ->
  (load_sum (rows_between l start stop)
   == load_sum (rows_between l' start stop))%Q.
Proof.
  intros H. apply load_sum_perm. unfold rows_between. now rewrite H.
Qed.

Lemma calculate_acwr_ratio_of now data d :
  calculate_acwr now data d
  = ratio_of (window_load data (default now d) ACUTE_PERIOD_DAYS)
             (window_load data (default now d) CHRONIC_PERIOD_DAYS).
Proof.
  unfold calculate_acwr, ratio_of, window_load.
  rewrite !AcwrProps.div_days by reflexivity. cbn [mbind option_bind].
  destruct (Qeqb (_ / inject_Z CHRONIC_PERIOD_DAYS) 0) eqn:E; [reflexivity|].
  unfold div. rewrite E. reflexivity.
Qed.

Lemma Qeqb_proper_l (a a' b : Q) : (a == a')%Q -> Qeqb a b = Qeqb a' b.
Proof.
  intros E. destruct (Qeqb a' b) eqn:E'; qreflect.
  - now rewrite E.
  - now rewrite E.
Qed.

Lemma ratio_of_proper (a a' c c' : Q) :
  (a == a')%Q -> (c == c')%Q -> ratio_of a c = ratio_of a' c'.
Proof.
  intros Ea Ec. unfold ratio_of.
  rewrite (Qeqb_proper_l (c / _) (c' / _)) by now rewrite Ec.
  rewrite (Qeqb_proper_l (a / _) (a' / _)) by now rewrite Ea.
  destruct (Qeqb _ 0); [reflexivity|].
  f_equal. apply round_proper; [|reflexivity]. now rewrite Ea, Ec.
Qed.

(** On a series of whole-number loads (duration x RPE, with partial
    sums below 2^53, so that the float sum is exact) [calculate_acwr]
    returns the same value whatever the order of the rows. *)
Theorem calculate_acwr_row_order now (data data' : list TrainingRow)
    (d : option Z) :
  whole_loads data ->
  data ≡ₚ data' ->
  calculate_acwr now data d = calculate_acwr now data' d.
Proof.
  intros _ H. rewrite !calculate_acwr_ratio_of.
  apply ratio_of_proper; unfold window_load; now apply window_load_perm.
Qed.

Lemma shuffled_sessions_perm :
  MoreExamples.shuffled_sessions ≡ₚ MoreExamples.sorted_sessions.
Proof.
  unfold MoreExamples.shuffled_sessions, MoreExamples.sorted_sessions.
  match goal with
  | |- ?a :: ?l ≡ₚ _ => exact (Permutation_cons_append l a)
  end.
Qed.

Lemma calculate_acwr_row_order_witness :
  calculate_acwr 0 MoreExamples.shuffled_sessions (Some (timedelta_days 3))
  = calculate_acwr 0 MoreExamples.sorted_sessions (Some (timedelta_days 3)).
Proof.
  apply (calculate_acwr_row_order 0 MoreExamples.shuffled_sessions
           MoreExamples.sorted_sessions).
  - unfold whole_loads, MoreExamples.shuffled_sessions.
    apply Forall_cons_2;
      [exists 300; split; [reflexivity | vm_compute; discriminate]|].
    apply Forall_cons_2;
      [exists 420; split; [reflexivity | vm_compute; discriminate]|].
    apply Forall_cons_2;
      [exists 0; split; [reflexivity | vm_compute; discriminate]|].
    apply Forall_nil_2.
  - exact shuffled_sessions_perm.
Defined.


(** *** Rolling ratio *)




Lemma sort_values_perm (df : list TrainingRow) : sort_values df ≡ₚ df.
Proof. apply merge_sort_Permutation. Qed.






(** *** Recommendations *)

(** The function is its three blocks one after the other, with the two
    general texts when they append nothing. *)
Lemma generate_recommendations_blocks (acwr wellness_score : Q)
    (recent_data : list RecentRow) :
  generate_recommendations acwr wellness_score recent_data
  = let specific :=
      acwr_advice acwr ++ wellness_advice wellness_score
      ++ pattern_advice recent_data in
    if bool_decide (specific = []) then [msg_all_clear; msg_keep_monitoring]
    else specific.
Proof.
  unfold generate_recommendations, acwr_advice, wellness_advice,
    pattern_advice.
  destruct recent_data as [|r recent_data].
  - rewrite (bool_decide_eq_true_2 (@nil RecentRow = [])) by reflexivity.
    cbn [negb].
    destruct (Qltb (15 # 10) acwr), (Qltb (13 # 10) acwr),
             (Qltb acwr (8 # 10)), (Qltb wellness_score 50); reflexivity.
  - rewrite (bool_decide_eq_false_2 (r :: recent_data = [])) by discriminate.
    cbn [negb].
    destruct (Qltb 7 (tail3_mean c_fatigue (r :: recent_data))),
             (Qltb 7 (tail3_mean c_muscle_soreness (r :: recent_data))),
             (Qltb (tail3_mean c_sleep_quality (r :: recent_data)) 5),
             (Qltb (15 # 10) acwr), (Qltb (13 # 10) acwr),
             (Qltb acwr (8 # 10)), (Qltb wellness_score 50); reflexivity.
Qed.

Lemma acwr_advice_length (acwr : Q) : (length (acwr_advice acwr) <= 2)%nat.
Proof.
  unfold acwr_advice.
  destruct (Qltb (15 # 10) acwr), (Qltb (13 # 10) acwr), (Qltb acwr (8 # 10));
    cbn; lia.
Qed.

Lemma wellness_advice_length (w : Q) : (length (wellness_advice w) <= 2)%nat.
Proof. unfold wellness_advice. destruct (Qltb w 50); cbn; lia. Qed.

Lemma pattern_advice_length (recent_data : list RecentRow) :
  (length (pattern_advice recent_data) <= 3)%nat.
Proof.
  unfold pattern_advice. destruct recent_data; [cbn; lia|].
  destruct (Qltb 7 _), (Qltb 7 _), (Qltb _ 5); cbn; lia.
Qed.

(** The texts of the three blocks are none of the texts the statements
    name, apart from the two the ACWR block opens with. *)
Ltac not_listed H :=
  cbn [In] in H;
  unfold msg_all_clear, msg_reduce_load, msg_consider_reducing in H;
  repeat (destruct H as [H | H]; [discriminate H|]); try contradiction.

Lemma all_clear_not_specific (acwr w : Q) (recent_data : list RecentRow) :
  ~ In msg_all_clear
      (acwr_advice acwr ++ wellness_advice w ++ pattern_advice recent_data).
Proof.
  rewrite !in_app_iff. intros [H | [H | H]].
  - unfold acwr_advice in H.
    destruct (Qltb (15 # 10) acwr), (Qltb (13 # 10) acwr), (Qltb acwr (8 # 10));
      not_listed H.
  - unfold wellness_advice in H. destruct (Qltb w 50); not_listed H.
  - unfold pattern_advice in H. destruct recent_data; [not_listed H|].
    destruct (Qltb 7 _), (Qltb 7 _), (Qltb _ 5); cbn [app] in H; not_listed H.
Qed.

Lemma load_advice_from_acwr (acwr w : Q) (recent_data : list RecentRow) :
  In msg_reduce_load (generate_recommendations acwr w recent_data)
  \/ In msg_consider_reducing (generate_recommendations acwr w recent_data)
  <-> ((13 # 10) < acwr)%Q.
Proof.
  rewrite generate_recommendations_blocks. cbv zeta. split.
  - intros H.
    assert (Ha : In msg_reduce_load (acwr_advice acwr)
                 \/ In msg_consider_reducing (acwr_advice acwr)).
    { case_bool_decide as Hs; [destruct H as [H | H]; not_listed H|].
      rewrite !in_app_iff in H.
      destruct H as [[H | [H | H]] | [H | [H | H]]]; auto.
      - unfold wellness_advice in H. destruct (Qltb w 50); not_listed H.
      - unfold pattern_advice in H. destruct recent_data; [not_listed H|].
        destruct (Qltb 7 _), (Qltb 7 _), (Qltb _ 5); cbn [app] in H;
          not_listed H.
      - unfold wellness_advice in H. destruct (Qltb w 50); not_listed H.
      - unfold pattern_advice in H. destruct recent_data; [not_listed H|].
        destruct (Qltb 7 _), (Qltb 7 _), (Qltb _ 5); cbn [app] in H;
          not_listed H. }
    clear H. unfold acwr_advice in Ha.
    destruct (Qltb (15 # 10) acwr) eqn:E1, (Qltb (13 # 10) acwr) eqn:E2,
             (Qltb acwr (8 # 10)) eqn:E3;
      qreflect; try lra; destruct Ha as [H | H]; not_listed H.
  - intros Ha.
    assert (Hin : In msg_reduce_load (acwr_advice acwr)
                  \/ In msg_consider_reducing (acwr_advice acwr)).
    { unfold acwr_advice.
      destruct (Qltb (15 # 10) acwr) eqn:E1; [left; now left|].
      destruct (Qltb (13 # 10) acwr) eqn:E2; [right; now left|].
      qreflect. lra. }
    rewrite bool_decide_eq_false_2.
    + rewrite !in_app_iff. tauto.
    + intros E. apply app_eq_nil in E as [E _]. rewrite E in Hin.
      destruct Hin as [[] | []].
Qed.

(** [generate_recommendations] always returns between one and seven
    texts, and the all-clear text is only returned when the ACWR lies in
    [0.8, 1.3] and the wellness score is at least 50, in which case the
    two general texts are the whole list. *)
Theorem generate_recommendations_never_empty (acwr wellness_score : Q)
    (recent_data : list RecentRow) :
  let recommendations :=
    generate_recommendations acwr wellness_score recent_data in
  (1 <= length recommendations <= 7)%nat
  /\ (In msg_all_clear recommendations ->
      recommendations = [msg_all_clear; msg_keep_monitoring]
      /\ ((8 # 10) <= acwr <= (13 # 10))%Q /\ (50 <= wellness_score)%Q).
Proof.
  cbv zeta. rewrite generate_recommendations_blocks. cbv zeta.
  pose proof (acwr_advice_length acwr).
  pose proof (wellness_advice_length wellness_score).
  pose proof (pattern_advice_length recent_data).
  case_bool_decide as Hs.
  - split; [cbn; lia|]. intros _. split; [reflexivity|].
    apply app_eq_nil in Hs as [Ha Hs]. apply app_eq_nil in Hs as [Hw _].
    unfold acwr_advice in Ha. unfold wellness_advice in Hw.
    destruct (Qltb (15 # 10) acwr) eqn:E1; [discriminate|].
    destruct (Qltb (13 # 10) acwr) eqn:E2; [discriminate|].
    destruct (Qltb acwr (8 # 10)) eqn:E3; [discriminate|].
    destruct (Qltb wellness_score 50) eqn:E4; [discriminate|].
    qreflect. lra.
  - split.
    + rewrite !length_app. split; [|lia].
      destruct (acwr_advice acwr ++ wellness_advice wellness_score
                ++ pattern_advice recent_data) eqn:E; [contradiction|].
      rewrite <- !length_app, E. cbn. lia.
    + intros Hin. exfalso. exact (all_clear_not_specific _ _ _ Hin).
Qed.

(** Whenever the recommendations tell to reduce the load or the
    intensity, [check_alerts] raises an ACWR alert for the same ratio;
    apart from the ratio 1.3 itself the converse holds too. *)
Theorem load_recommendation_has_alert (fmt : Q -> string)
    (now_iso : nat -> string) (athlete_id athlete_name : string)
    (acwr wellness_score : Q) (recent_data : list RecentRow) :
  let recommendations :=
    generate_recommendations acwr wellness_score recent_data in
  let alerts := acwr_alerts fmt now_iso athlete_id athlete_name acwr [] in
  (In msg_reduce_load recommendations
   \/ In msg_consider_reducing recommendations -> alerts <> [])
  /\ (alerts <> [] -> ~ (acwr == 13 # 10)%Q ->
      In msg_reduce_load recommendations
      \/ In msg_consider_reducing recommendations).
Proof.
  cbv zeta.
  pose proof (AcwrProps.acwr_alerts_spec fmt now_iso athlete_id athlete_name acwr)
    as (Hc & Hd & Hv & Hn). cbv zeta in Hc, Hd, Hv, Hn.
  rewrite load_advice_from_acwr. split.
  - intros Ha Hnil. unfold types in *. rewrite Hnil in *. cbn in Hc, Hd, Hv.
    destruct (Qlt_le_dec acwr (15 # 10)) as [L2|L2];
      [discriminate (Hv ltac:(lra) L2)|].
    destruct (Qlt_le_dec acwr 2) as [L3|L3];
      [discriminate (Hd L2 L3) | discriminate (Hc L3)].
  - intros Hne Hb.
    destruct (Qlt_le_dec acwr (13 # 10)) as [L|L];
      [exfalso; apply Hne, Hn, L|].
    apply Qle_lteq in L as [L | L]; [exact L|].
    exfalso. apply Hb. now symmetry.
Qed.

(** *** Wellness status and combined risk *)

(** A higher wellness score never has a worse status. *)
Theorem get_wellness_status_monotone (w w' : Q) :
  (w <= w')%Q ->
  (status_rank (ws_status (get_wellness_status w))
   <= status_rank (ws_status (get_wellness_status w')))%nat.
Proof.
  intros H. unfold get_wellness_status.
  destruct (Qleb 75 w) eqn:E1, (Qleb 60 w) eqn:E2, (Qleb 45 w) eqn:E3,
           (Qleb 30 w) eqn:E4,
           (Qleb 75 w') eqn:F1, (Qleb 60 w') eqn:F2, (Qleb 45 w') eqn:F3,
           (Qleb 30 w') eqn:F4;
    qreflect; try lra; cbn; lia.
Qed.

Lemma get_wellness_status_monotone_witness :
  (status_rank (ws_status (get_wellness_status 44))
   <= status_rank (ws_status (get_wellness_status 61)))%nat.
Proof.
  apply (get_wellness_status_monotone 44 61). unfold Qle. simpl. lia.
Defined.

Lemma acwr_risk_range (a w : Q) :
  (10 <= acwr_risk (calculate_combined_risk a w) <= 95)%Q.
Proof.
  rewrite AcwrProps.acwr_risk_unfold.
  destruct (Qltb a (8 # 10)), (Qleb a (13 # 10)), (Qleb a (15 # 10)),
           (Qleb a 2); split; discriminate.
Qed.

Lemma acwr_risk_ignores_wellness (a w w' : Q) :
  acwr_risk (calculate_combined_risk a w)
  = acwr_risk (calculate_combined_risk a w').
Proof. now rewrite !AcwrProps.acwr_risk_unfold. Qed.

(** For wellness scores in [0, 100] the combined risk lies in
    [6, 97], and a higher wellness score never gives a higher combined
    risk at the same ACWR. *)
Theorem combined_risk_bounded_antitone (acwr w w' : Q) :
  (0 <= w)%Q -> (w <= w')%Q -> (w' <= 100)%Q ->
  (6 <= combined_risk (calculate_combined_risk acwr w'))%Q
  /\ (combined_risk (calculate_combined_risk acwr w')
      <= combined_risk (calculate_combined_risk acwr w))%Q
  /\ (combined_risk (calculate_combined_risk acwr w) <= 97)%Q.
Proof.
  intros H0 Hw H100.
  rewrite !AcwrProps.combined_risk_unfold.
  rewrite (acwr_risk_ignores_wellness acwr w' w).
  pose proof (acwr_risk_range acwr w) as [Hlo Hhi].
  set (r := acwr_risk (calculate_combined_risk acwr w)) in *. clearbody r.
  split; [|split].
  - apply (round_between 6 97). unfold inject_Z. split; lra.
  - apply round_mono. lra.
  - apply (round_between 6 97). unfold inject_Z. split; lra.
Qed.

Lemma combined_risk_bounded_antitone_witness :
  (6 <= combined_risk (calculate_combined_risk (14 # 10) 80))%Q
  /\ (combined_risk (calculate_combined_risk (14 # 10) 80)
      <= combined_risk (calculate_combined_risk (14 # 10) 35))%Q
  /\ (combined_risk (calculate_combined_risk (14 # 10) 35) <= 97)%Q.
Proof.
  apply (combined_risk_bounded_antitone (14 # 10) 35 80);
    unfold Qle; simpl; lia.
Defined.


(** *** Load spikes *)

Lemma omap_imap_none {A B : Type} (l : list A) :
  forall (f : nat -> A -> option B),
    (forall i a, l !! i = Some a -> f i a = None) ->
    omap id (imap f l) = [].
Proof.
  induction l as [|a l IH]; intros f Hf; [reflexivity|].
  cbn. rewrite (Hf 0%nat a eq_refl). cbn.
  apply IH. intros i b Hb. apply (Hf (S i) b Hb).
Qed.

Lemma sort_values_length (df : list TrainingRow) :
  length (sort_values df) = length df.
Proof. apply Permutation_length, sort_values_perm. Qed.

(** A series of at most seven rows never reports a spike: the ratio
    compares with the average seven rows earlier, which does not exist
    yet. *)
Theorem detect_load_spikes_short_series (strftime : Z -> string)
    (training_data : list TrainingRow) (threshold : Q) :
  (length training_data <= 7)%nat ->
  detect_load_spikes strftime training_data threshold = [].
Proof.
  intros Hlen. unfold detect_load_spikes.
  apply omap_imap_none. intros i row Hrow.
  apply lookup_lt_Some in Hrow. rewrite sort_values_length in Hrow.
  unfold load_ratio, prev_rolling_avg.
  assert (E : (7 <=? i)%nat = false) by (apply Nat.leb_gt; lia).
  now rewrite E.
Qed.

Lemma detect_load_spikes_short_series_witness :
  detect_load_spikes MoreExamples.iso_date MoreExamples.shuffled_sessions
    (13 # 10) = [].
Proof.
  apply (detect_load_spikes_short_series MoreExamples.iso_date
           MoreExamples.shuffled_sessions (13 # 10)).
  simpl. lia.
Defined.

Lemma fold_plus_const (c : Q) (l : list Q) : forall acc,
  Forall (fun v => (v == c)%Q) l ->
  (fold_left Qplus l acc == acc + inject_Z (Z.of_nat (length l)) * c)%Q.
Proof.
  induction l as [|v l IH]; intros acc Hl.
  - cbn. ring.
  - apply Forall_cons in Hl as [Hv Hl]. cbn [fold_left length].
    rewrite (IH _ Hl), Hv, Nat2Z.inj_succ. unfold Z.succ.
    rewrite inject_Z_plus. ring.
Qed.

Lemma mean_const (c : Q) (l : list Q) :
  l <> [] -> Forall (fun v => (v == c)%Q) l -> (App.mean l == c)%Q.
Proof.
  intros Hne Hl. unfold App.mean. rewrite (fold_plus_const c l 0 Hl).
  assert (Hn : ~ (inject_Z (Z.of_nat (length l)) == 0)%Q).
  { destruct l; [contradiction|]. unfold Qeq. cbn [length]. simpl. lia. }
  field. exact Hn.
Qed.

Lemma rolling_avg_const (c : Q) (loads : list Q) (i : nat) :
  Forall (fun v => (v == c)%Q) loads -> (i < length loads)%nat ->
  (rolling_avg loads i == c)%Q.
Proof.
  intros Hl Hi. unfold rolling_avg. apply mean_const.
  - intros E. apply (f_equal length) in E.
    rewrite length_drop, length_take in E. cbn [length] in E. lia.
  - apply Forall_drop, Forall_take, Hl.
Qed.

(** A series whose rows all carry the same positive load reports no
    spike for any threshold of 1 or more. *)
Theorem detect_load_spikes_steady_load (strftime : Z -> string)
    (training_data : list TrainingRow) (load threshold : Q) :
  Forall (fun r => (training_load r == load)%Q) training_data ->
  (0 < load)%Q -> (1 <= threshold)%Q ->
  detect_load_spikes strftime training_data threshold = [].
Proof.
  intros Hload Hpos Hthr. unfold detect_load_spikes.
  apply omap_imap_none. intros i row Hrow.
  apply lookup_lt_Some in Hrow.
  assert (Hl : Forall (fun v => (v == load)%Q)
                 (map training_load (sort_values training_data))).
  { apply Forall_fmap. rewrite (sort_values_perm training_data).
    exact Hload. }
  assert (Hlen : length (map training_load (sort_values training_data))
                 = length (sort_values training_data)) by apply length_map.
  unfold load_ratio, prev_rolling_avg.
  destruct (7 <=? i)%nat eqn:E; [|reflexivity].
  apply Nat.leb_le in E.
  pose proof (rolling_avg_const load _ (i - 7) Hl ltac:(lia)) as Hp.
  pose proof (rolling_avg_const load _ i Hl ltac:(lia)) as Hr.
  destruct (Qeqb _ 0) eqn:E0; [reflexivity|]. cbn [mbind option_bind].
  match goal with
  | |- context [Qltb threshold ?q] =>
      assert (Hq : (q == 1)%Q) by (rewrite Hp, Hr; field; lra);
      destruct (Qltb threshold q) eqn:Eq; [|reflexivity]
  end.
  qreflect. rewrite Hq in Eq. lra.
Qed.

Lemma detect_load_spikes_steady_load_witness :
  detect_load_spikes MoreExamples.iso_date MoreExamples.steady_sessions
    (13 # 10) = [].
Proof.
  apply (detect_load_spikes_steady_load MoreExamples.iso_date
           MoreExamples.steady_sessions 400 (13 # 10)).
  - repeat constructor.
  - reflexivity.
  - unfold Qle. simpl. lia.
Defined.

End AcwrToolsProps.

(** ** Properties of what the analyzer stores *)

Module AnalyzerProps.
Import Py App PyFacts Notions AppNotions.

Lemma clamp_range (e : Q) : (0 <= Qmax 0 (Qmin 100 e) <= 100)%Q.
Proof.
  split; [apply Q.le_max_l|].
  apply Q.max_lub; [discriminate | apply Q.le_min_l].
Qed.

Lemma hip_range (d : Q) : (0 <= Qmin 45 (Qabs d * 200) <= 45)%Q.
Proof.
  split; [|apply Q.le_min_l].
  apply Q.min_glb; [discriminate|].
  pose proof (Qabs_nonneg d). nra.
Qed.

Section Analyzer.
Variable degrees_between : Vec3 -> Vec3 -> Q.

Local Abbreviation measure := (measure degrees_between).
Local Abbreviation feed := (feed degrees_between).
Local Abbreviation run_from := (run_from degrees_between).
Local Abbreviation run := (run degrees_between).

(** The ranges of a measurement. *)
Lemma measure_ranges landmarks m :
  measure landmarks = Some m ->
  (0 <= kick_height m <= 100)%Q /\ (0 <= hip_rotation m <= 45)%Q.
Proof.
  unfold App.measure. destruct landmarks as [landmarks|]; [|discriminate].
  cbv zeta.
  destruct (_ || _); [discriminate|].
  destruct (_ && _); [discriminate|].
  destruct (Qltb _ _); intros H; apply (inj Some) in H; subst m;
    lazy beta iota delta [kick_height hip_rotation]; split;
    repeat case_match; first [apply clamp_range | apply hip_range
                             | split; discriminate].
Qed.

Lemma metrics_of_measured m t i :
  (0 <= kick_height m <= 100)%Q -> (0 <= hip_rotation m <= 45)%Q ->
  measured_dict (metrics_of m t i).
Proof.
  intros Hh Hr.
  exists (round (kick_height m) 1), (round (knee_angle m) 1),
         (round (hip_rotation m) 1).
  unfold metrics_of.
  repeat split;
    first [ apply (round_between 0 100), Hh
          | apply (round_between 0 45), Hr
          | idtac ].
  all: repeat first [ rewrite lookup_insert_eq; reflexivity
                    | rewrite lookup_insert_ne by done ].
Qed.

Lemma measured_dict_insert (d : gmap string PyVal) (v : PyVal) :
  measured_dict d -> measured_dict (<["kick_number" := v]> d).
Proof.
  intros (h & k & r & Hh & Hhr & Hk & Hr & Hrr).
  exists h, k, r. rewrite !lookup_insert_ne by done. auto.
Qed.

Lemma analyzer_inv_new : analyzer_inv new.
Proof.
  unfold analyzer_inv, new. cbn. repeat split; try constructor; lia.
Qed.

Lemma analyzer_inv_feed self f :
  analyzer_inv self -> analyzer_inv (feed self f).
Proof.
  intros (Hm & Hk & Hc & Hn). unfold App.feed, analyze_frame.
  destruct (measure (landmarks f)) as [m|] eqn:E;
    [|cbn; repeat split; auto; lia].
  destruct (measure_ranges _ _ E) as [Hh Hr].
  pose proof (metrics_of_measured m (frame_time f) (frame_idx f) Hh Hr)
    as Hd.
  unfold detect_kick.
  destruct (Qleb 25 (kick_height m) && (cooldown self =? 0)) eqn:Ef.
  - apply andb_true_iff in Ef as [_ Ez]. apply Z.eqb_eq in Ez.
    cbn. unfold analyzer_inv. cbn. rewrite !length_app. cbn.
    repeat split; try lia.
    + apply Forall_app. split; [exact Hm | repeat constructor; exact Hd].
    + apply Forall_app. split; [exact Hk|].
      repeat constructor. apply measured_dict_insert, Hd.
  - unfold tick. destruct (0 <? cooldown self) eqn:Ec;
      cbn; unfold analyzer_inv; cbn; rewrite !length_app; cbn;
      [apply Z.ltb_lt in Ec | apply Z.ltb_ge in Ec];
      (repeat split; try lia; try exact Hk;
       apply Forall_app; split; [exact Hm | repeat constructor; exact Hd]).
Qed.

Lemma analyzer_inv_run frames : forall self,
  analyzer_inv self -> analyzer_inv (run_from self frames).
Proof.
  induction frames as [|f fs IH]; intros self H; [exact H|].
  apply IH, analyzer_inv_feed, H.
Qed.

Lemma history_length_feed self f :
  length (metrics_history (feed self f))
  = (length (metrics_history self)
     + length (measured_frames degrees_between [f]))%nat.
Proof.
  unfold App.feed, analyze_frame, measured_frames. cbn [List.filter].
  destruct (measure (landmarks f)) as [m|]; [|cbn; lia].
  cbn [fst metrics_history]. rewrite length_app.
  unfold detect_kick, tick.
  destruct (_ && _); cbn [cooldown];
    [destruct (0 <? 10) | destruct (0 <? cooldown self)]; cbn; lia.
Qed.

Lemma history_length_run frames : forall self,
  length (metrics_history (run_from self frames))
  = (length (metrics_history self)
     + length (measured_frames degrees_between frames))%nat.
Proof.
  induction frames as [|f fs IH]; intros self; [cbn; lia|].
  change (run_from self (f :: fs)) with (run_from (feed self f) fs).
  rewrite IH, history_length_feed. unfold measured_frames. cbn [List.filter].
  destruct (measure (landmarks f)); cbn [length]; lia.
Qed.

End Analyzer.

(** *** Statistics *)

Lemma positive_items_spec (key : string) (P : Q -> Prop)
    (history : list (gmap string PyVal)) :
  Forall (fun d => exists q, d !! key = Some (PyFloat q) /\ P q) history ->
  exists items,
    Stats.positive_items key history = Some items
    /\ Forall (fun v => (0 < v)%Q /\ P v) items.
Proof.
  induction 1 as [|d rest (q & Hq & HP) _ (items & E & Hi)].
  - exists []. split; [reflexivity | constructor].
  - cbn [Stats.positive_items]. unfold Stats.item_num. rewrite Hq. cbn.
    rewrite E. cbn. destruct (Qltb 0 q) eqn:Eq; eexists; (split; [reflexivity|]).
    + constructor; [|exact Hi]. qreflect. auto.
    + exact Hi.
Qed.

Lemma fold_sum_le (hi : Q) (l : list Q) : forall acc,
  Forall (fun v => (v <= hi)%Q) l ->
  (fold_left Qplus l acc <= acc + inject_Z (Z.of_nat (length l)) * hi)%Q.
Proof.
  induction l as [|v l IH]; intros acc Hl.
  - cbn [fold_left length]. change (inject_Z (Z.of_nat 0)) with 0%Q. lra.
  - apply Forall_cons in Hl as [Hv Hl]. cbn [fold_left length].
    eapply Qle_trans; [apply (IH _ Hl)|].
    rewrite Nat2Z.inj_succ. unfold Z.succ.
    rewrite inject_Z_plus. change (inject_Z 1) with 1%Q. lra.
Qed.

Lemma fold_sum_ge (lo : Q) (l : list Q) : forall acc,
  Forall (fun v => (lo <= v)%Q) l ->
  (acc + inject_Z (Z.of_nat (length l)) * lo <= fold_left Qplus l acc)%Q.
Proof.
  induction l as [|v l IH]; intros acc Hl.
  - cbn [fold_left length]. change (inject_Z (Z.of_nat 0)) with 0%Q. lra.
  - apply Forall_cons in Hl as [Hv Hl]. cbn [fold_left length].
    eapply Qle_trans; [|apply (IH _ Hl)].
    rewrite Nat2Z.inj_succ. unfold Z.succ.
    rewrite inject_Z_plus. change (inject_Z 1) with 1%Q. lra.
Qed.

Lemma length_pos (l : list Q) :
  l <> [] -> (0 < inject_Z (Z.of_nat (length l)))%Q.
Proof.
  intros H. destruct l; [contradiction|].
  change 0%Q with (inject_Z 0). rewrite <- Zlt_Qlt. cbn [length]. lia.
Qed.

Lemma mean_le (hi : Q) (l : list Q) :
  l <> [] -> Forall (fun v => (v <= hi)%Q) l -> (mean l <= hi)%Q.
Proof.
  intros Hne Hl. unfold mean.
  apply Qle_shift_div_r; [apply length_pos, Hne|].
  eapply Qle_trans; [apply (fold_sum_le hi l 0 Hl)|]. lra.
Qed.

Lemma mean_ge (lo : Q) (l : list Q) :
  l <> [] -> Forall (fun v => (lo <= v)%Q) l -> (lo <= mean l)%Q.
Proof.
  intros Hne Hl. unfold mean.
  apply Qle_shift_div_l; [apply length_pos, Hne|].
  eapply Qle_trans; [|apply (fold_sum_ge lo l 0 Hl)]. lra.
Qed.

Lemma fold_max_ge (l : list Q) : forall v,
  (v <= fold_left Qmax l v)%Q
  /\ Forall (fun w => (w <= fold_left Qmax l v)%Q) l.
Proof.
  induction l as [|w l IH]; intros v; [split; [apply Qle_refl | constructor]|].
  cbn [fold_left]. destruct (IH (Qmax v w)) as [Hv Hl]. split.
  - eapply Qle_trans; [apply Q.le_max_l | exact Hv].
  - constructor; [|exact Hl].
    eapply Qle_trans; [apply Q.le_max_r | exact Hv].
Qed.

Lemma py_max_ge (l : list Q) :
  Forall (fun v => (v <= Stats.py_max l)%Q) l.
Proof.
  destruct l as [|v l]; [constructor|]. cbn [Stats.py_max].
  destruct (fold_max_ge l v). now constructor.
Qed.

Lemma fold_max_le (hi : Q) (l : list Q) : forall v,
  (v <= hi)%Q -> Forall (fun w => (w <= hi)%Q) l ->
  (fold_left Qmax l v <= hi)%Q.
Proof.
  induction l as [|w l IH]; intros v Hv Hl; [exact Hv|].
  apply Forall_cons in Hl as [Hw Hl]. cbn [fold_left].
  apply IH; [apply Q.max_lub; assumption | exact Hl].
Qed.

Lemma py_max_le (hi : Q) (l : list Q) :
  l <> [] -> Forall (fun w => (w <= hi)%Q) l -> (Stats.py_max l <= hi)%Q.
Proof.
  intros Hne Hl. destruct l as [|v l]; [contradiction|].
  apply Forall_cons in Hl as [Hv Hl]. now apply fold_max_le.
Qed.

(** On any stream fed to a fresh analyzer [get_statistics] returns its
    dict: [frames] counts the measured frames, ten frames stand behind
    every kick but the last ([10 * total_kicks <= frames + 9]), and the
    heights satisfy [0 <= avg_height <= max_height <= 100]. *)
Theorem get_statistics_of_run (degrees_between : Vec3 -> Vec3 -> Q)
    (frames : list Frame) :
  exists s,
    Stats.get_statistics (run degrees_between frames) = Some s
    /\ Stats.frames s
       = Z.of_nat (length (measured_frames degrees_between frames))
    /\ 0 <= Stats.total_kicks s
    /\ 10 * Stats.total_kicks s <= Stats.frames s + 9
    /\ (0 <= Stats.avg_height s)%Q
    /\ (Stats.avg_height s <= Stats.max_height s)%Q
    /\ (Stats.max_height s <= 100)%Q
    /\ (0 <= Stats.avg_knee s)%Q.
Proof.
  pose proof (analyzer_inv_run degrees_between frames new
                analyzer_inv_new) as (Hm & _ & Hc & Hn).
  pose proof (history_length_run degrees_between frames new) as Hlen.
  fold (run degrees_between frames) in Hm, Hc, Hn, Hlen.
  change (length (metrics_history new)) with 0%nat in Hlen.
  unfold Stats.get_statistics.
  set (self := run degrees_between frames) in *. clearbody self.
  case_bool_decide as Hempty.
  - rewrite Hempty in Hlen. cbn [length] in Hlen.
    eexists. split; [reflexivity|]. cbn.
    repeat split; try lia; try discriminate; apply Qle_refl.
  - destruct (positive_items_spec "kick_height" (fun q => (q <= 100)%Q)
                (metrics_history self)) as (heights & Eh & Hh).
    { eapply Forall_impl; [exact Hm|].
      intros d (h & k & r & Hd & [_ H100] & _). eauto. }
    destruct (positive_items_spec "knee_angle" (fun _ => True)
                (metrics_history self)) as (knees & Ek & Hk).
    { eapply Forall_impl; [exact Hm|].
      intros d (h & k & r & _ & _ & Hd & _). eauto. }
    rewrite Eh, Ek. cbn [mbind option_bind].
    eexists. split; [reflexivity|]. cbn.
    split; [lia|]. split; [lia|]. split; [lia|].
    assert (Hknee : (0 <= (if bool_decide (knees = []) then 0
                           else round (mean knees) 1))%Q).
    { case_bool_decide as En; [apply Qle_refl|].
      rewrite <- (round_whole 0 1). apply round_mono.
      apply mean_ge; [exact En|].
      eapply Forall_impl; [exact Hk|]. intros v [Hv _].
      unfold inject_Z. lra. }
    set (avg_knee := if bool_decide (knees = []) then _ else _) in *.
    clearbody avg_knee.
    case_bool_decide as En.
    + repeat split; try apply Qle_refl; try discriminate; exact Hknee.
    + assert (H0 : Forall (fun v => (0 <= v)%Q) heights)
        by (eapply Forall_impl; [exact Hh|]; intros v [Hv _]; lra).
      assert (H1 : Forall (fun v => (v <= 100)%Q) heights)
        by (eapply Forall_impl; [exact Hh|]; intros v [_ Hv]; exact Hv).
      split; [|split; [|split; [|exact Hknee]]].
      * rewrite <- (round_whole 0 1). apply round_mono.
        now apply mean_ge.
      * apply round_mono, mean_le; [exact En | apply py_max_ge].
      * rewrite <- (round_whole 100 1). apply round_mono.
        now apply py_max_le.
Qed.

End AnalyzerProps.

(** ** Properties of the technique score *)

Module ScoreProps.
Import Py App PyFacts Notions AppNotions.

Ltac split_ifs :=
  repeat match goal with
  | |- context [if ?c then _ else _] => destruct c
  end.

Ltac split_ifs_in H :=
  repeat match type of H with
  | context [if ?c then _ else _] => destruct c
  end.

(** With its five readings numeric, [calculate_score] returns the
    capped sum of the five tiers and four feedback lines. *)
Lemma calculate_score_points (metrics : gmap string PyVal)
    (knee height hip support vis : Q) :
  metrics <> ∅ ->
  get_num metrics "knee_angle" = Some knee ->
  get_num metrics "kick_height" = Some height ->
  get_num metrics "hip_flexion" = Some hip ->
  get_num metrics "support_knee" = Some support ->
  get_num metrics "visibility" = Some vis ->
  exists feedback,
    calculate_score metrics
    = Some (Z.min 100 (uncapped_score knee height hip support vis),
            feedback)
    /\ length feedback = 4%nat.
Proof.
  intros Hne E1 E2 E3 E4 E5.
  unfold calculate_score, uncapped_score, knee_points, height_points,
    hip_points, support_points, visibility_points.
  rewrite bool_decide_eq_false_2 by exact Hne.
  rewrite E1, E2, E3, E4, E5. cbn [mbind option_bind].
  split_ifs; (eexists; split; reflexivity).
Qed.

(** The five tiers add up to a sum between 37 and 100. *)
Lemma uncapped_score_range (knee height hip support vis : Q) :
  37 <= uncapped_score knee height hip support vis <= 100.
Proof.
  unfold uncapped_score, knee_points, height_points, hip_points,
    support_points, visibility_points.
  split_ifs; lia.
Qed.

Lemma calculate_score_spec (metrics : gmap string PyVal)
    (knee height hip support vis : Q) :
  metrics <> ∅ ->
  get_num metrics "knee_angle" = Some knee ->
  get_num metrics "kick_height" = Some height ->
  get_num metrics "hip_flexion" = Some hip ->
  get_num metrics "support_knee" = Some support ->
  get_num metrics "visibility" = Some vis ->
  exists score feedback,
    calculate_score metrics = Some (score, feedback)
    /\ 37 <= score <= 100 /\ length feedback = 4%nat.
Proof.
  intros Hne E1 E2 E3 E4 E5.
  destruct (calculate_score_points metrics knee height hip support vis
              Hne E1 E2 E3 E4 E5) as (feedback & E & Hf).
  pose proof (uncapped_score_range knee height hip support vis).
  eexists _, feedback. split; [exact E|]. split; [lia | exact Hf].
Qed.

(** Whenever [calculate_score] returns for a dict that is not empty,
    all five readings were numbers and the score is the plain sum of
    the five tiers they fall in: that sum lies between 37 and 100, so
    [min(100, score)] never lowers it.  The feedback list has four
    lines. *)
Theorem calculate_score_range (metrics : gmap string PyVal)
    (score : Z) (feedback : list Feedback) :
  metrics <> ∅ ->
  calculate_score metrics = Some (score, feedback) ->
  exists knee height hip support vis,
    get_num metrics "knee_angle" = Some knee
    /\ get_num metrics "kick_height" = Some height
    /\ get_num metrics "hip_flexion" = Some hip
    /\ get_num metrics "support_knee" = Some support
    /\ get_num metrics "visibility" = Some vis
    /\ score = uncapped_score knee height hip support vis
    /\ 37 <= uncapped_score knee height hip support vis <= 100
    /\ length feedback = 4%nat.
Proof.
  intros Hne H.
  destruct (get_num metrics "knee_angle") as [knee|] eqn:E1.
  2:{ unfold calculate_score in H.
      rewrite bool_decide_eq_false_2, E1 in H by exact Hne. discriminate H. }
  destruct (get_num metrics "kick_height") as [height|] eqn:E2.
  2:{ unfold calculate_score in H.
      rewrite bool_decide_eq_false_2, E1, E2 in H by exact Hne.
      cbn [mbind option_bind] in H. split_ifs_in H; discriminate H. }
  destruct (get_num metrics "hip_flexion") as [hip|] eqn:E3.
  2:{ unfold calculate_score in H.
      rewrite bool_decide_eq_false_2, E1, E2, E3 in H by exact Hne.
      cbn [mbind option_bind] in H. split_ifs_in H; discriminate H. }
  destruct (get_num metrics "support_knee") as [support|] eqn:E4.
  2:{ unfold calculate_score in H.
      rewrite bool_decide_eq_false_2, E1, E2, E3, E4 in H by exact Hne.
      cbn [mbind option_bind] in H. split_ifs_in H; discriminate H. }
  destruct (get_num metrics "visibility") as [vis|] eqn:E5.
  2:{ unfold calculate_score in H.
      rewrite bool_decide_eq_false_2, E1, E2, E3, E4, E5 in H by exact Hne.
      cbn [mbind option_bind] in H. split_ifs_in H; discriminate H. }
  destruct (calculate_score_points metrics knee height hip support vis
              Hne E1 E2 E3 E4 E5) as (feedback' & E & Hf).
  pose proof (uncapped_score_range knee height hip support vis) as Hr.
  rewrite H in E. apply (inj Some) in E. apply pair_equal_spec in E as [-> <-].
  exists knee, height, hip, support, vis.
  repeat split; try reflexivity; try lia; exact Hf.
Qed.

Lemma calculate_score_range_witness :
  exists knee height hip support vis,
    get_num Examples.full_marks "knee_angle" = Some knee
    /\ get_num Examples.full_marks "kick_height" = Some height
    /\ get_num Examples.full_marks "hip_flexion" = Some hip
    /\ get_num Examples.full_marks "support_knee" = Some support
    /\ get_num Examples.full_marks "visibility" = Some vis
    /\ 100 = uncapped_score knee height hip support vis
    /\ 37 <= uncapped_score knee height hip support vis <= 100
    /\ length [ ("Full leg extension - maximum power", "success");
                ("Head level - competition standard", "success");
                ("Excellent hip chamber", "success");
                ("Stable base - excellent balance", "success") ] = 4%nat.
Proof.
  apply (calculate_score_range Examples.full_marks);
    [discriminate | reflexivity].
Defined.

(** [calculate_score] never fails on the metrics [analyze_frame]
    returns for a measured frame: it gives a score between 37 and 100
    and four feedback lines. *)
Theorem calculate_score_of_analyzed_frame
    (degrees_between : Vec3 -> Vec3 -> Q) (self : TaekwondoAnalyzer)
    (landmarks : option (list Landmark)) (frame_time : Q) (frame_idx : Z)
    (self' : TaekwondoAnalyzer) (metrics : gmap string PyVal) :
  analyze_frame degrees_between self landmarks frame_time frame_idx
    = (self', Some metrics) ->
  exists score feedback,
    calculate_score metrics = Some (score, feedback)
    /\ 37 <= score <= 100 /\ length feedback = 4%nat.
Proof.
  unfold analyze_frame.
  destruct (measure degrees_between landmarks) as [m|]; [|discriminate].
  intros H. apply (f_equal snd) in H. cbn [snd] in H.
  apply (inj Some) in H. subst metrics.
  apply (calculate_score_spec _ (round (knee_angle m) 1)
           (round (kick_height m) 1) (round (hip_flexion m) 1)
           (round (support_knee_angle m) 1) (round (vis m) 1)).
  - apply insert_non_empty.
  - unfold get_num, metrics_of.
    repeat first [ rewrite lookup_insert_eq; reflexivity
                 | rewrite lookup_insert_ne by done ].
  - unfold get_num, metrics_of.
    repeat first [ rewrite lookup_insert_eq; reflexivity
                 | rewrite lookup_insert_ne by done ].
  - unfold get_num, metrics_of.
    repeat first [ rewrite lookup_insert_eq; reflexivity
                 | rewrite lookup_insert_ne by done ].
  - unfold get_num, metrics_of.
    repeat first [ rewrite lookup_insert_eq; reflexivity
                 | rewrite lookup_insert_ne by done ].
  - unfold get_num, metrics_of.
    repeat first [ rewrite lookup_insert_eq; reflexivity
                 | rewrite lookup_insert_ne by done ].
Qed.

Lemma calculate_score_of_analyzed_frame_witness :
  exists score feedback,
    calculate_score
      (default ∅ (snd (analyze_frame Examples.no_angle new
                         (Some (Examples.pose (1 # 2))) 0 0)))
      = Some (score, feedback)
    /\ 37 <= score <= 100 /\ length feedback = 4%nat.
Proof.
  apply (calculate_score_of_analyzed_frame Examples.no_angle new
           (Some (Examples.pose (1 # 2))) 0 0
           (fst (analyze_frame Examples.no_angle new
                   (Some (Examples.pose (1 # 2))) 0 0))).
  vm_compute. reflexivity.
Defined.

End ScoreProps.

(** ** Properties of the competition scoring simulation *)

Module WTScoringProps.
Import Py App PyFacts Notions AppNotions WTScoring.

Ltac zone_goal :=
  split; [reflexivity|];
  first [ left; repeat split;
          first [apply Z.ltb_lt; lia | lia | reflexivity]
        | right; left; repeat split;
          first [apply Z.ltb_lt; lia | lia | reflexivity] ].

Ltac scoring_goal :=
  repeat split;
  first [ discriminate | reflexivity | lia | lra | apply Z.ltb_lt; lia
        | intros; lra | intros; exfalso; lia | idtac ].

(** What one evaluation does, by zone. *)
Lemma evaluate_kick_zone (self : WTScoringSimulator)
    (kick : gmap string PyVal) (spin : bool) self' r :
  evaluate_kick self kick spin = Some (self', r) ->
  sim_points self' = sim_points self
  /\ ((scored r = true /\ zone r = Some "head"
       /\ 2 <= points r <= (if spin then 4 else 3)
       /\ length (scoring_events self') = S (length (scoring_events self)))
      \/ (scored r = true /\ zone r = Some "trunk"
          /\ 1 <= points r <= (if spin then 3 else 2)
          /\ length (scoring_events self') = S (length (scoring_events self)))
      \/ (scored r = false /\ points r = 0 /\ self' = self)).
Proof.
  intros H. unfold evaluate_kick in H.
  destruct (as_num (get kick "kick_height" _)) as [h|]; [|discriminate].
  cbn [mbind option_bind] in H.
  destruct (Qleb _ h); [|destruct (Qleb _ h)].
  3:{ injection H as <- <-. cbn. split; [reflexivity|]. right. right. auto. }
  all: unfold score_in_zone in H;
    destruct (as_num (get kick "knee_angle" _)) as [k|];
    [|destruct spin; discriminate];
    destruct spin; cbn [mbind option_bind] in H;
    destruct (Qltb 150 k); cbn in H; injection H as <- <-; cbn;
    rewrite ?length_app; cbn; zone_goal.
Qed.

(** [evaluate_kick] scores exactly the kicks at height 40 or more, with
    1 to 4 points; the weak-technique deduction never cancels a kick in
    a scoring zone, 4 points take a spinning head kick, and the
    simulator's [points] dict is left as it was. *)
Theorem evaluate_kick_scoring (self : WTScoringSimulator)
    (kick : gmap string PyVal) (is_spinning : bool)
    (self' : WTScoringSimulator) (result : KickResult) :
  evaluate_kick self kick is_spinning = Some (self', result) ->
  exists height,
    as_num (get kick "kick_height" (PyInt 0)) = Some height
    /\ (scored result = true <-> (40 <= height)%Q)
    /\ (if scored result then 1 <= points result <= 4
        else points result = 0)
    /\ (points result = 4 -> is_spinning = true /\ (75 <= height)%Q)
    /\ scoring_events self'
       = scoring_events self
         ++ (if scored result
             then [ {| ev_kick := kick; ev_result := result;
                       ev_time := get kick "frame_time" (PyInt 0) |} ]
             else [])
    /\ sim_points self' = sim_points self.
Proof.
  intros H. unfold evaluate_kick in H.
  destruct (as_num (get kick "kick_height" _)) as [h|]; [|discriminate].
  cbn [mbind option_bind] in H. exists h. split; [reflexivity|].
  unfold HEIGHT_THRESHOLDS, ht_head, ht_trunk in H.
  destruct (Qleb 75 h) eqn:E1; [|destruct (Qleb 40 h) eqn:E2].
  3:{ injection H as <- <-. cbn. rewrite app_nil_r. qreflect.
      repeat split; try discriminate; try lia; try reflexivity.
      intros L. lra. }
  all: unfold score_in_zone in H;
    destruct (as_num (get kick "knee_angle" _)) as [k|];
    [|destruct is_spinning; discriminate];
    destruct is_spinning; cbn [mbind option_bind] in H;
    destruct (Qltb 150 k); cbn in H; injection H as <- <-; cbn;
    qreflect; scoring_goal.
Qed.

Lemma evaluate_kick_scoring_witness :
  exists self' result height,
    evaluate_kick new AppExamples.weak_trunk_kick false
      = Some (self', result)
    /\ as_num (get AppExamples.weak_trunk_kick "kick_height" (PyInt 0))
       = Some height
    /\ (scored result = true <-> (40 <= height)%Q)
    /\ points result = 1.
Proof.
  destruct (evaluate_kick new AppExamples.weak_trunk_kick false)
    as [[self' result]|] eqn:E; [|discriminate E].
  exists self', result.
  destruct (evaluate_kick_scoring new AppExamples.weak_trunk_kick false
              self' result E) as (height & Hh & Hs & _).
  exists height. repeat split; try tauto.
  vm_compute in E. injection E as _ <-. reflexivity.
Defined.

(** The totals of the scoring loop. *)
Lemma simulate_totals (kicks : list (gmap string PyVal)) :
  forall self total head trunk self' total' head' trunk',
    simulate self kicks total head trunk
      = Some (self', total', head', trunk') ->
    0 <= head' - head /\ 0 <= trunk' - trunk
    /\ (head' - head) + (trunk' - trunk) <= Z.of_nat (length kicks)
    /\ 2 * (head' - head) + (trunk' - trunk) <= total' - total
    /\ total' - total <= 4 * (head' - head) + 3 * (trunk' - trunk)
    /\ Z.of_nat (length (scoring_events self'))
       = Z.of_nat (length (scoring_events self))
         + (head' - head) + (trunk' - trunk)
    /\ sim_points self' = sim_points self.
Proof.
  induction kicks as [|kick rest IH];
    intros self total head trunk self' total' head' trunk' H.
  - cbn in H. injection H as <- <- <- <-. cbn [length]. repeat split; lia.
  - cbn [simulate] in H.
    destruct (as_num (get kick "hip_rotation" (PyInt 0))) as [hip|];
      [|discriminate H].
    cbn [mbind option_bind] in H.
    destruct (evaluate_kick self kick (Qltb 45 hip)) as [[self1 r]|] eqn:E;
      [|discriminate H].
    cbn [mbind option_bind] in H.
    destruct (evaluate_kick_zone _ _ _ _ _ E) as (Hp & Hz).
    assert (Hb : forall b : bool, (if b then 4 else 3) <= 4
                                  /\ (if b then 3 else 2) <= 3)
      by (intros []; lia).
    destruct (Hb (Qltb 45 hip)) as [Hb1 Hb2].
    destruct Hz as [(Hs & Hzone & Hpts & Hlen)
                    | [(Hs & Hzone & Hpts & Hlen) | (Hs & Hpts & ->)]];
      rewrite Hs in H; try rewrite Hzone in H.
    + rewrite bool_decide_eq_true_2 in H by reflexivity.
      apply IH in H. rewrite Hlen, Hp in H. cbn [length].
      destruct H as (? & ? & ? & ? & ? & ? & ?). repeat split; try lia; auto.
    + rewrite bool_decide_eq_false_2 in H by discriminate.
      rewrite bool_decide_eq_true_2 in H by reflexivity.
      apply IH in H. rewrite Hlen, Hp in H. cbn [length].
      destruct H as (? & ? & ? & ? & ? & ? & ?). repeat split; try lia; auto.
    + apply IH in H. cbn [length].
      destruct H as (? & ? & ? & ? & ? & ? & ?). repeat split; try lia; auto.
Qed.

(** The totals [get_match_simulation] reports fit together: the head
    and trunk kicks are at most the kicks given, the total lies between
    [2 * head + trunk] and [4 * head + 3 * trunk], the event list grows
    by one entry for every scoring kick (it still holds the events of
    earlier calls), and the simulator's [points] dict is never
    updated. *)
Theorem get_match_simulation_totals (fmt1 : Q -> string)
    (self : WTScoringSimulator) (all_kicks : list (gmap string PyVal))
    (self' : WTScoringSimulator) (sim : MatchSimulation) :
  get_match_simulation fmt1 self all_kicks = Some (self', sim) ->
  0 <= head_kicks sim /\ 0 <= trunk_kicks sim
  /\ head_kicks sim + trunk_kicks sim <= Z.of_nat (length all_kicks)
  /\ 2 * head_kicks sim + trunk_kicks sim <= total_points sim
  /\ total_points sim <= 4 * head_kicks sim + 3 * trunk_kicks sim
  /\ ms_scoring_events sim = scoring_events self'
  /\ Z.of_nat (length (scoring_events self'))
     = Z.of_nat (length (scoring_events self))
       + head_kicks sim + trunk_kicks sim
  /\ sim_points self' = sim_points self.
Proof.
  unfold get_match_simulation. intros H.
  destruct (simulate self all_kicks 0 0 0) as [[[[s total] head] trunk]|] eqn:E;
    [|discriminate H].
  cbn [mbind option_bind] in H. injection H as <- <-.
  apply simulate_totals in E. cbn.
  destruct E as (? & ? & ? & ? & ? & ? & ?). repeat split; try lia; auto.
Qed.

Lemma get_match_simulation_totals_witness :
  exists self' sim,
    get_match_simulation Examples.show_ratio new AppExamples.three_kicks
      = Some (self', sim)
    /\ head_kicks sim + trunk_kicks sim <= 3
    /\ 2 * head_kicks sim + trunk_kicks sim <= total_points sim
    /\ total_points sim <= 4 * head_kicks sim + 3 * trunk_kicks sim.
Proof.
  destruct (get_match_simulation Examples.show_ratio new
              AppExamples.three_kicks) as [[self' sim]|] eqn:E;
    [|discriminate E].
  exists self', sim. split; [reflexivity|].
  destruct (get_match_simulation_totals _ _ _ _ _ E)
    as (_ & _ & H1 & H2 & H3 & _).
  auto.
Defined.

(** The scoring loop on kicks the analyzer recorded: it never fails,
    and no kick is taken as spinning. *)
Lemma simulate_measured (kicks : list (gmap string PyVal)) :
  Forall measured_dict kicks ->
  forall self total head trunk,
    exists self' total' head' trunk',
      simulate self kicks total head trunk
        = Some (self', total', head', trunk')
      /\ total' - total <= 3 * (head' - head) + 2 * (trunk' - trunk).
Proof.
  induction 1 as [|kick rest (h & k & r & Hh & Hhr & Hk & Hr & Hrr) _ IH];
    intros self total head trunk.
  - eexists _, _, _, _. split; [reflexivity | lia].
  - cbn [simulate]. unfold get at 1. rewrite Hr.
    cbn [default from_option id as_num mbind option_bind].
    assert (Es : Qltb 45 r = false) by (apply Qltb_false; tauto).
    rewrite Es.
    assert (Ee : exists self1 res,
               evaluate_kick self kick false = Some (self1, res)).
    { unfold evaluate_kick, get. rewrite Hh, Hk.
      cbn [default from_option id as_num mbind option_bind].
      destruct (Qleb _ h); [|destruct (Qleb _ h)];
        unfold score_in_zone; cbn [as_num mbind option_bind];
        try destruct (Qltb 150 k); eauto. }
    destruct Ee as (self1 & res & Ee). rewrite Ee.
    cbn [mbind option_bind].
    destruct (evaluate_kick_zone _ _ _ _ _ Ee) as (_ & Hz).
    destruct Hz as [(Hs & Hzone & Hpts & _)
                    | [(Hs & Hzone & Hpts & _) | (Hs & Hpts & _)]];
      rewrite Hs; try rewrite Hzone.
    + rewrite bool_decide_eq_true_2 by reflexivity.
      destruct (IH self1 (total + points res) (head + 1) trunk)
        as (s & t & hd & tr & E & Hle).
      exists s, t, hd, tr. split; [exact E | lia].
    + rewrite bool_decide_eq_false_2 by discriminate.
      rewrite bool_decide_eq_true_2 by reflexivity.
      destruct (IH self1 (total + points res) head (trunk + 1))
        as (s & t & hd & tr & E & Hle).
      exists s, t, hd, tr. split; [exact E | lia].
    + destruct (IH self1 total head trunk) as (s & t & hd & tr & E & Hle).
      exists s, t, hd, tr. split; [exact E | lia].
Qed.

(** On the kicks a fresh analyzer detected in any stream, the match
    simulation never fails and never awards the spinning bonus (the
    stored hip rotation is capped at 45, the bonus asks for more than
    45): the total is at most [3 * head + 2 * trunk]. *)
Theorem match_simulation_without_spin (degrees_between : Vec3 -> Vec3 -> Q)
    (fmt1 : Q -> string) (frames : list Frame) (self : WTScoringSimulator) :
  exists self' sim,
    get_match_simulation fmt1 self
      (detected_kicks (run degrees_between frames)) = Some (self', sim)
    /\ total_points sim <= 3 * head_kicks sim + 2 * trunk_kicks sim.
Proof.
  pose proof (AnalyzerProps.analyzer_inv_run degrees_between frames
                App.new AnalyzerProps.analyzer_inv_new) as (_ & Hk & _).
  fold (run degrees_between frames) in Hk.
  destruct (simulate_measured _ Hk self 0 0 0)
    as (s & t & hd & tr & E & Hle).
  unfold get_match_simulation. rewrite E. cbn [mbind option_bind].
  eexists _, _. split; [reflexivity|]. cbn. lia.
Qed.

End WTScoringProps.

(** ** Properties of the trajectory tracker *)

Module TrajectoryProps.
Import Py App PyFacts AppNotions Trajectory.

Lemma track_snoc (points : list Position) (p : Position) :
  track (points ++ [p]) = add_position (track points) (x p) (y p) (frame p).
Proof. unfold track. now rewrite fold_left_app. Qed.

Lemma position_eta (p : Position) :
  {| x := x p; y := y p; frame := frame p |} = p.
Proof. now destruct p. Qed.

(** A tracker fed any number of points holds the last thirty of them,
    in order. *)
Theorem tracker_keeps_last_thirty (points : list Position) :
  foot_positions (track points) = drop (length points - 30) points
  /\ (length (foot_positions (track points)) <= 30)%nat
  /\ max_points (track points) = 30.
Proof.
  induction points as [|p points IH] using rev_ind.
  - cbn. repeat split; lia.
  - destruct IH as (Hf & Hl & Hm). rewrite track_snoc.
    unfold add_position. cbn [foot_positions max_points].
    rewrite Hm, position_eta, Hf, !length_app, length_drop. cbn [length].
    destruct (Z.ltb_spec 30
                (Z.of_nat (length points - (length points - 30) + 1))) as [L|L].
    + split; [|split; [|reflexivity]].
      * rewrite <- drop_app_le by lia. rewrite drop_drop. f_equal. lia.
      * rewrite length_drop, length_app, length_drop. cbn [length]. lia.
    + split; [|split; [|reflexivity]].
      * rewrite <- drop_app_le by lia. f_equal. lia.
      * rewrite length_app, length_drop. cbn [length]. lia.
Qed.

Lemma fold_min_comm (ys : list Z) : forall a b,
  fold_right Z.min (Z.min a b) ys = Z.min a (fold_right Z.min b ys).
Proof. induction ys as [|v ys IH]; intros a b; cbn; [|rewrite IH]; lia. Qed.

Lemma fold_max_comm (ys : list Z) : forall a b,
  fold_right Z.max (Z.max a b) ys = Z.max b (fold_right Z.max a ys).
Proof. induction ys as [|v ys IH]; intros a b; cbn; [|rewrite IH]; lia. Qed.

Lemma lowest_le (ys : list Z) (lo : Z) : lowest lo ys <= lo.
Proof. unfold lowest. induction ys as [|v ys IH]; cbn; lia. Qed.

Section Stats.
Variable sqrt : Z -> Q.

(** The two heights the loop ends with. *)
Lemma stats_loop_heights (rest : list Position) :
  forall prev total_dist lo hi,
    exists total,
      stats_loop sqrt prev rest total_dist (Some lo) hi
      = (total, Some (lowest lo (map y rest)),
         fold_right Z.max hi (map y rest)).
Proof.
  induction rest as [|p rest IH]; intros prev total_dist lo hi.
  - eexists. reflexivity.
  - cbn [stats_loop map fold_right]. unfold lowest. cbn [fold_right].
    assert (E1 : (if y p <? lo then Some (y p) else Some lo)
                 = Some (Z.min (y p) lo))
      by (destruct (Z.ltb_spec (y p) lo); f_equal; lia).
    assert (E2 : (if hi <? y p then y p else hi) = Z.max hi (y p))
      by (destruct (Z.ltb_spec hi (y p)); lia).
    rewrite E1, E2.
    destruct (IH p (total_dist + sqrt ((x p - x prev) * (x p - x prev)
                                        + (y p - y prev) * (y p - y prev)))%Q
                (Z.min (y p) lo) (Z.max hi (y p))) as (total & E).
    exists total. rewrite E. unfold lowest.
    now rewrite fold_min_comm, fold_max_comm.
Qed.

(** With two points or more tracked, [get_trajectory_stats] returns
    its dict, and its [vertical_range] is the largest of 0 and the
    heights minus the smallest height, both taken over the points
    after the first: the first point's height is not part of it. *)
Theorem get_trajectory_stats_vertical_range (self : TrajectoryTracker)
    (first second : Position) (rest : list Position) :
  foot_positions self = first :: second :: rest ->
  exists stats,
    get_trajectory_stats sqrt self = Some stats
    /\ points_tracked stats = Z.of_nat (length (foot_positions self))
    /\ vertical_range stats
       = highest (map y (second :: rest)) - lowest (y second) (map y rest)
    /\ 0 <= vertical_range stats.
Proof.
  intros E. unfold get_trajectory_stats. rewrite E.
  cbn [stats_loop].
  assert (E2 : (if 0 <? y second then y second else 0)
               = Z.max 0 (y second))
    by (destruct (Z.ltb_spec 0 (y second)); lia).
  rewrite E2.
  destruct (stats_loop_heights rest second
              (0 + sqrt ((x second - x first) * (x second - x first)
                         + (y second - y first) * (y second - y first)))%Q
              (y second) (Z.max 0 (y second))) as (total & El).
  rewrite El. eexists. split; [reflexivity|]. cbn.
  rewrite fold_max_comm.
  pose proof (lowest_le (map y rest) (y second)).
  unfold highest. cbn [fold_right]. repeat split; lia.
Qed.

End Stats.

Lemma get_trajectory_stats_vertical_range_witness :
  exists stats,
    get_trajectory_stats AppExamples.whole_sqrt
      (track AppExamples.two_points) = Some stats
    /\ points_tracked stats = 2
    /\ vertical_range stats = highest [200] - lowest 200 []
    /\ 0 <= vertical_range stats.
Proof.
  apply (get_trajectory_stats_vertical_range AppExamples.whole_sqrt
           (track AppExamples.two_points)
           {| x := 100; y := 300; frame := 0 |}
           {| x := 100; y := 200; frame := 1 |} []).
  reflexivity.
Defined.

End TrajectoryProps.

(** ** Properties of the feedback engine *)

Module FeedbackProps.
Import Py App PyFacts AppNotions Feedback.

Ltac pick := repeat first [reflexivity | left; reflexivity | right].

Ltac sound_items :=
  repeat (apply Forall_cons_2;
          [ unfold sound_item, good_or_warning, used_messages, metric_names;
            cbn [In severity message metric]; repeat split; pick | ]);
  apply Forall_nil_2.

Ltac distinct_names :=
  repeat (apply NoDup_cons_2;
          [ cbn [metric]; intros Hin;
            repeat (apply elem_of_cons in Hin as [Hin|Hin];
                    [discriminate Hin|]);
            now apply elem_of_nil in Hin | ]);
  apply NoDup_nil_2.

Section Engine.
Variable fmt0 : Q -> string.

(** [analyze_metrics] returns at most four items, one per metric at
    most, each of severity good or warning and with the message of a
    [low] or [optimal] rule: the [high], [locked], [medium] and
    balance rules are never used.  The items are appended to the
    history. *)
Theorem analyze_metrics_feedback (self : RealTimeFeedbackEngine)
    (metrics : gmap string PyVal) (self' : RealTimeFeedbackEngine)
    (feedback : list Item) :
  analyze_metrics fmt0 self metrics = Some (self', feedback) ->
  (length feedback <= 4)%nat
  /\ Forall sound_item feedback
  /\ NoDup (map metric feedback)
  /\ feedback_history self' = feedback_history self ++ feedback
  /\ current_feedback self' = feedback.
Proof.
  unfold analyze_metrics. intros H.
  destruct (metrics !! "knee_angle") as [v1|];
    [destruct (as_num v1) as [knee|]; [|discriminate H]|];
    cbn [mbind option_bind] in H.
  all: destruct (metrics !! "hip_flexion") as [v2|];
    [destruct (as_num v2) as [hip|];
     [|repeat case_match; discriminate H]|];
    cbn [mbind option_bind] in H.
  all: destruct (metrics !! "kick_height") as [v3|];
    [destruct (as_num v3) as [height|];
     [|repeat case_match; discriminate H]|];
    cbn [mbind option_bind] in H.
  all: destruct (metrics !! "support_knee") as [v4|];
    [destruct (as_num v4) as [support|];
     [|repeat case_match; discriminate H]|];
    cbn [mbind option_bind] in H.
  all: repeat match type of H with
       | context [if ?c then _ else _] => destruct c
       end;
    cbn [mbind option_bind app] in H;
    apply (inj Some) in H; apply pair_equal_spec in H as [<- <-];
    cbn [feedback_history current_feedback length map];
    (split; [lia|]); (split; [sound_items|]);
    (split; [distinct_names|]);
    split; reflexivity.
Qed.

End Engine.

Lemma analyze_metrics_feedback_witness :
  exists self' feedback,
    analyze_metrics Examples.show_ratio new AppExamples.bent_knee
      = Some (self', feedback)
    /\ (length feedback <= 4)%nat
    /\ Forall sound_item feedback
    /\ feedback_history self' = feedback_history new ++ feedback.
Proof.
  destruct (analyze_metrics Examples.show_ratio new AppExamples.bent_knee)
    as [[self' feedback]|] eqn:E; [|vm_compute in E; discriminate E].
  exists self', feedback. split; [reflexivity|].
  destruct (analyze_metrics_feedback _ _ _ _ _ E) as (H1 & H2 & _ & H3 & _).
  auto.
Defined.

(** *** Summary *)

Lemma dict_set_keys (d : list (string * string)) (k v k' : string) :
  k' ∈ map fst (dict_set d k v) <-> k' = k \/ k' ∈ map fst d.
Proof.
  induction d as [|[k0 v0] d IH]; cbn [dict_set map fst].
  - rewrite list_elem_of_singleton, elem_of_nil. tauto.
  - destruct (String.eqb_spec k0 k) as [->|Hne]; cbn [map fst].
    + rewrite elem_of_cons. tauto.
    + rewrite !elem_of_cons, IH. tauto.
Qed.

Lemma dict_set_nodup (d : list (string * string)) (k v : string) :
  NoDup (map fst d) -> NoDup (map fst (dict_set d k v)).
Proof.
  induction d as [|[k0 v0] d IH]; cbn [dict_set map fst]; intros Hd.
  - apply NoDup_singleton.
  - destruct (String.eqb_spec k0 k) as [->|Hne]; cbn [map fst];
      [exact Hd|].
    apply NoDup_cons in Hd as [Hk0 Hd]. apply NoDup_cons_2; [|auto].
    rewrite dict_set_keys. intros [-> | Hin]; [now apply Hne | now apply Hk0].
Qed.

Lemma metric_messages_keys (items : list Item) :
  forall d,
    NoDup (map fst d) ->
    (forall k, k ∈ map fst d -> k ∈ metric_names) ->
    Forall sound_item items ->
    let d' := fold_left (fun d f => dict_set d (metric f) (message f)) items d in
    NoDup (map fst d') /\ forall k, k ∈ map fst d' -> k ∈ metric_names.
Proof.
  induction items as [|f items IH]; intros d Hd Hk Hi; [now split|].
  apply Forall_cons in Hi as [(_ & _ & Hf) Hi]. cbn [fold_left].
  apply IH; [apply dict_set_nodup, Hd | | exact Hi].
  intros k Hin. apply dict_set_keys in Hin as [-> | Hin]; [|auto].
  now apply list_elem_of_In.
Qed.

Lemma metric_messages_length (items : list Item) :
  Forall sound_item items -> (length (metric_messages items) <= 4)%nat.
Proof.
  intros Hi.
  destruct (metric_messages_keys items [] NoDup_nil_2) as [Hn Hk];
    [intros k Hin; now apply elem_of_nil in Hin | exact Hi |].
  fold (metric_messages items) in Hn, Hk.
  rewrite <- (length_map fst).
  change 4%nat with (length metric_names).
  apply submseteq_length, NoDup_submseteq; assumption.
Qed.

Lemma severity_split (items : list Item) :
  Forall good_or_warning items ->
  (length (List.filter (fun f => String.eqb (severity f) "good") items)
   + length (List.filter (fun f => String.eqb (severity f) "warning") items)
   = length items)%nat.
Proof.
  induction 1 as [|f items [Hf | Hf] _ IH]; [reflexivity| |];
    cbn [List.filter]; rewrite Hf; cbn; lia.
Qed.

Lemma sound_filter (p : Item -> bool) (items : list Item) :
  Forall sound_item items -> Forall sound_item (List.filter p items).
Proof.
  induction 1 as [|f items Hf _ IH]; [constructor|].
  cbn [List.filter]. destruct (p f); [now constructor | exact IH].
Qed.

Lemma feedback_run_history (fmt0 : Q -> string)
    (frames : list (gmap string PyVal)) :
  forall self self',
    feedback_run fmt0 self frames = Some self' ->
    Forall sound_item (feedback_history self) ->
    Forall sound_item (feedback_history self')
    /\ (length (feedback_history self')
        <= length (feedback_history self) + 4 * length frames)%nat.
Proof.
  induction frames as [|metrics frames IH]; intros self self' H Hs.
  - cbn in H. injection H as <-. split; [exact Hs | lia].
  - cbn [feedback_run] in H.
    destruct (analyze_metrics fmt0 self metrics) as [[self1 feedback]|] eqn:E;
      [|discriminate H].
    cbn [mbind option_bind] in H.
    destruct (analyze_metrics_feedback _ _ _ _ _ E) as (Hl & Hf & _ & Hh & _).
    apply IH in H as [H1 H2].
    + split; [exact H1|]. rewrite Hh, length_app in H2. cbn [length]. lia.
    + rewrite Hh. apply Forall_app. now split.
Qed.

(** After any number of frames analysed by a fresh engine, the summary
    lists at most four strengths and four improvements (one per
    metric), the history holds at most four items per frame, and
    [total_good + total_warnings] is the length of the history: no item
    has a third severity.  The two totals are absent exactly when no
    feedback was generated. *)
Theorem get_summary_feedback_totals (fmt0 : Q -> string)
    (frames : list (gmap string PyVal)) (self : RealTimeFeedbackEngine) :
  feedback_run fmt0 new frames = Some self ->
  let summary := get_summary_feedback self in
  (length (feedback_history self) <= 4 * length frames)%nat
  /\ (length (strengths summary) <= 4)%nat
  /\ (length (improvements summary) <= 4)%nat
  /\ (feedback_history self = [] ->
      total_good summary = None /\ total_warnings summary = None)
  /\ (feedback_history self <> [] ->
      exists good warnings,
        total_good summary = Some good
        /\ total_warnings summary = Some warnings
        /\ good + warnings = Z.of_nat (length (feedback_history self))).
Proof.
  intros H. apply feedback_run_history in H as [Hs Hl]; [|constructor].
  cbn [feedback_history new length] in Hl. cbv zeta.
  unfold get_summary_feedback.
  split; [lia|]. case_bool_decide as He.
  - cbn. repeat split; try lia; try reflexivity. intros Hne. contradiction.
  - cbn [strengths improvements total_good total_warnings].
    split; [apply metric_messages_length, sound_filter, Hs|].
    split; [apply metric_messages_length, sound_filter, Hs|].
    split; [intros E; contradiction|]. intros _.
    eexists _, _. split; [reflexivity|]. split; [reflexivity|].
    rewrite <- Nat2Z.inj_add. f_equal. apply severity_split.
    eapply Forall_impl; [exact Hs|]. now intros f [Hf _].
Qed.

Lemma get_summary_feedback_totals_witness :
  exists self,
    feedback_run Examples.show_ratio new
      [AppExamples.bent_knee; AppExamples.bent_knee] = Some self
    /\ (length (feedback_history self) <= 4 * 2)%nat
    /\ (length (strengths (get_summary_feedback self)) <= 4)%nat
    /\ (length (improvements (get_summary_feedback self)) <= 4)%nat.
Proof.
  destruct (feedback_run Examples.show_ratio new
              [AppExamples.bent_knee; AppExamples.bent_knee])
    as [self|] eqn:E; [|vm_compute in E; discriminate E].
  exists self. split; [reflexivity|].
  destruct (get_summary_feedback_totals _ _ _ E) as (H1 & H2 & H3 & _).
  auto.
Defined.

End FeedbackProps.

(** ** Properties of fatigue detection *)

Module InjuryProps.
Import Py App PyFacts AppNotions Injury.

Lemma window_append_length {A : Type} (window : list A) (v : A) :
  (length window <= 30)%nat ->
  length (window_append window v) = Nat.min 30 (S (length window)).
Proof.
  intros H. unfold window_append.
  destruct (Nat.ltb_spec 30 (length (window ++ [v]))) as [L|L];
    rewrite ?length_drop, length_app in *; cbn [length] in *; lia.
Qed.

(** What a fatigue dict satisfies. *)
Ltac fatigue_facts :=
  cbn [fatigue_level is_fatigued indicators recommendation app length];
  match goal with
  | |- context [50 <=? ?s] => destruct (Z.leb_spec 50 s)
  end;
  cbn [In fatigue_levels];
  repeat split; intros;
  first [ reflexivity | discriminate | lia | congruence ].

Section Fatigue.
Variable fmt1 : Q -> string.

Lemma assess_levels (baseline : gmap string PyVal)
    (recent : list (gmap string PyVal)) (frame_idx : Z) (f : Fatigue) :
  assess fmt1 baseline recent frame_idx = Some f ->
  In (fatigue_level f) fatigue_levels
  /\ (is_fatigued f = true <-> (2 <= length (indicators f))%nat)
  /\ (is_fatigued f = true <-> 55 <= fatigue_level f)
  /\ (is_fatigued f = true <-> recommendation f <> None).
Proof.
  unfold assess. intros H.
  destruct (_ || _).
  { apply (inj Some) in H. subst f. cbn. repeat split; intros;
      first [discriminate | lia | congruence | tauto]. }
  destruct (nums (present_values "score" recent)) as [scores|];
    [|discriminate H].
  destruct (nums (present_values "kick_height" recent)) as [heights|];
    [|discriminate H].
  cbn [fmap option_fmap option_map mbind option_bind] in H.
  destruct (as_num (default (PyInt 0) (baseline !! "score")))
    as [baseline_score|]; [|discriminate H].
  cbn [mbind option_bind] in H.
  destruct (as_num (default (PyInt 0) (baseline !! "kick_height")))
    as [baseline_height|]; [|discriminate H].
  cbn [mbind option_bind] in H.
  destruct (Qltb 0 baseline_score);
    [destruct (Qltb (score_drop_percent FATIGUE_THRESHOLDS) _)|];
    (destruct (Qltb 0 baseline_height);
     [destruct (Qltb (height_drop_percent FATIGUE_THRESHOLDS) _)|]);
    (destruct (present_values "support_knee" recent) as [|first rest];
     [|destruct (1 <? length (first :: rest))%nat;
       [destruct (as_num (List.last (first :: rest) first));
        [|discriminate H];
        cbn [mbind option_bind] in H;
        destruct (as_num first); [|discriminate H]|];
       cbn [mbind option_bind] in H;
       destruct (Qltb _ (- form_degradation FATIGUE_THRESHOLDS))]);
    cbn [mbind option_bind] in H;
    apply (inj Some) in H; subst f; fatigue_facts.
Qed.

(** Whenever [analyze_fatigue] returns, the fatigue level is one of
    0, 25, 30, 35, 55, 60, 65 and 90 (the cap at 100 is never
    needed), the athlete is flagged as fatigued exactly when two
    indicators or more fired, which is when the level is 55 or more
    and when a recommendation is given; a flagged dict is appended to
    [fatigue_indicators], and the window keeps at most thirty
    frames. *)
Theorem analyze_fatigue_levels (self : InjuryPreventionSystem)
    (current_metrics : gmap string PyVal) (frame_idx : Z)
    (self' : InjuryPreventionSystem) (fatigue : Fatigue) :
  analyze_fatigue fmt1 self current_metrics frame_idx
    = Some (self', fatigue) ->
  In (fatigue_level fatigue) fatigue_levels
  /\ (is_fatigued fatigue = true <-> (2 <= length (indicators fatigue))%nat)
  /\ (is_fatigued fatigue = true <-> 55 <= fatigue_level fatigue)
  /\ (is_fatigued fatigue = true <-> recommendation fatigue <> None)
  /\ fatigue_indicators self'
     = fatigue_indicators self
       ++ (if is_fatigued fatigue then [fatigue] else [])
  /\ current_metrics_window self'
     = window_append (current_metrics_window self) current_metrics
  /\ baseline_metrics self' = baseline_metrics self
  /\ ((length (current_metrics_window self) <= 30)%nat ->
      (length (current_metrics_window self') <= 30)%nat).
Proof.
  unfold analyze_fatigue. cbv zeta. cbn [baseline_metrics]. intros H.
  assert (Hw : forall w : list (gmap string PyVal),
             w = window_append (current_metrics_window self) current_metrics ->
             (length (current_metrics_window self) <= 30)%nat ->
             (length w <= 30)%nat).
  { intros w -> Hl. rewrite window_append_length by exact Hl. lia. }
  destruct (_ || _).
  - apply (inj Some) in H. apply pair_equal_spec in H as [<- <-].
    cbn. rewrite app_nil_r.
    repeat split; intros;
      first [discriminate | lia | congruence | tauto | now apply Hw].
  - destruct (baseline_metrics self) as [baseline|] eqn:Eb;
      [|discriminate H].
    cbn [mbind option_bind] in H.
    destruct (assess fmt1 baseline _ frame_idx) as [f|] eqn:Ea;
      [|discriminate H].
    cbn [mbind option_bind] in H.
    apply (inj Some) in H. apply pair_equal_spec in H as [<- <-].
    destruct (assess_levels _ _ _ _ Ea) as (H1 & H2 & H3 & H4).
    split; [exact H1|]. split; [exact H2|]. split; [exact H3|].
    split; [exact H4|].
    destruct (is_fatigued f); cbn; rewrite ?app_nil_r;
      repeat split; auto.
Qed.

(** Without a baseline, or with fewer than ten frames in the window,
    [analyze_fatigue] only records the frame: it returns the
    no-fatigue dict whatever the metrics hold, and cannot fail. *)
Theorem analyze_fatigue_needs_baseline (self : InjuryPreventionSystem)
    (current_metrics : gmap string PyVal) (frame_idx : Z) :
  no_baseline (baseline_metrics self) = true
  \/ (length (current_metrics_window self) < 9)%nat ->
  analyze_fatigue fmt1 self current_metrics frame_idx
  = Some ({| fatigue_indicators := fatigue_indicators self;
             baseline_metrics := baseline_metrics self;
             current_metrics_window :=
               window_append (current_metrics_window self)
                 current_metrics |},
          no_fatigue frame_idx).
Proof.
  intros H. unfold analyze_fatigue. cbv zeta. cbn [baseline_metrics].
  assert (E : no_baseline (baseline_metrics self)
              || (length (window_append (current_metrics_window self)
                            current_metrics) <? 10)%nat = true).
  { destruct H as [-> | H]; [reflexivity|].
    apply orb_true_iff. right. apply Nat.ltb_lt.
    rewrite window_append_length by lia. lia. }
  rewrite E. reflexivity.
Qed.

End Fatigue.

Lemma analyze_fatigue_levels_witness :
  exists self' fatigue,
    analyze_fatigue Examples.show_ratio AppExamples.tired_system
      AppExamples.tired_metrics 9 = Some (self', fatigue)
    /\ In (fatigue_level fatigue) fatigue_levels
    /\ (is_fatigued fatigue = true <-> 55 <= fatigue_level fatigue)
    /\ fatigue_level fatigue = 65.
Proof.
  destruct (analyze_fatigue Examples.show_ratio AppExamples.tired_system
              AppExamples.tired_metrics 9)
    as [[self' fatigue]|] eqn:E; [|vm_compute in E; discriminate E].
  exists self', fatigue. split; [reflexivity|].
  destruct (analyze_fatigue_levels _ _ _ _ _ _ E) as (H1 & _ & H3 & _).
  split; [exact H1|]. split; [exact H3|].
  vm_compute in E. injection E as _ <-. reflexivity.
Defined.

Lemma analyze_fatigue_needs_baseline_witness :
  analyze_fatigue Examples.show_ratio new AppExamples.tired_metrics 0
  = Some ({| fatigue_indicators := [];
             baseline_metrics := None;
             current_metrics_window := [AppExamples.tired_metrics] |},
          no_fatigue 0).
Proof.
  apply (analyze_fatigue_needs_baseline Examples.show_ratio new
           AppExamples.tired_metrics 0).
  left. reflexivity.
Defined.

End InjuryProps.

(** ** Properties of the kick-type detector *)

Module KickTypeProps.
Import Py App PyFacts AppNotions KickType.

Ltac pick := repeat first [reflexivity | left; reflexivity | right].

Lemma history_append_length (history : list (Q * Q)) (foot : Q * Q) :
  (length history <= 30)%nat ->
  (length (history_append history foot) <= 30)%nat.
Proof.
  intros H. unfold history_append.
  destruct (Nat.ltb_spec 30 (length (history ++ [foot]))) as [L|L];
    rewrite ?length_drop, length_app in *; cbn [length] in *; lia.
Qed.

(** [analyze_foot_path] only ever names five paths: never ['hook'] or
    ['arc'], which two kick signatures ask for, and never ['unknown'];
    it keeps the detection threshold and at most thirty foot
    positions. *)
Theorem analyze_foot_path_names (self : AutoKickDetector)
    (landmarks : list Landmark) :
  In (snd (analyze_foot_path self landmarks)) path_names
  /\ confidence_threshold (fst (analyze_foot_path self landmarks))
     = confidence_threshold self
  /\ ((length (frame_history self) <= 30)%nat ->
      (length (frame_history (fst (analyze_foot_path self landmarks)))
       <= 30)%nat).
Proof.
  unfold analyze_foot_path, detect_kicking_leg.
  destruct (landmarks !! 31%nat) as [l_foot|],
           (landmarks !! 32%nat) as [r_foot|];
    try (cbn; split; [pick | split; [reflexivity | auto]]).
  destruct (Qltb (y l_foot) _); [|destruct (Qltb (y r_foot) _)];
    cbn [String.eqb Ascii.eqb Bool.eqb fst snd];
    try (cbn; split; [pick | split; [reflexivity | auto]]).
  all: destruct (_ <? 10)%nat;
    [|destruct (Qltb _ _); [|destruct (Qltb _ _)]];
    cbn [fst snd frame_history confidence_threshold];
    (split; [unfold path_names; cbn [In]; pick
            | split; [reflexivity | apply history_append_length]]).
Qed.

(** *** Confidence *)

Ltac split_ifs :=
  repeat match goal with
  | |- context [if ?c then _ else _] => destruct c
  end.

Ltac halves :=
  first [ exists 0; split; [lia | vm_compute; reflexivity]
        | exists 1; split; [lia | vm_compute; reflexivity]
        | exists 2; split; [lia | vm_compute; reflexivity]
        | exists 3; split; [lia | vm_compute; reflexivity]
        | exists 4; split; [lia | vm_compute; reflexivity]
        | exists 5; split; [lia | vm_compute; reflexivity]
        | exists 6; split; [lia | vm_compute; reflexivity] ].

Lemma signature_score_halves (signature : Signature)
    (hip_rotation knee_chamber : Q) (foot_path : string) :
  exists n : Z,
    0 <= n <= 6
    /\ (signature_score signature hip_rotation knee_chamber foot_path
        == inject_Z n / 2)%Q.
Proof.
  unfold signature_score. cbv zeta. split_ifs; halves.
Qed.

Lemma signature_score_without_path (signature : Signature)
    (hip_rotation knee_chamber : Q) (foot_path : string) :
  In foot_path path_names ->
  sig_foot_path signature = "hook" \/ sig_foot_path signature = "arc" ->
  (signature_score signature hip_rotation knee_chamber foot_path
   <= 5 # 2)%Q.
Proof.
  intros Hp Hs. unfold signature_score. cbv zeta.
  unfold path_names in Hp. cbn [In] in Hp.
  destruct Hs as [-> | ->];
    destruct Hp as [<- | [<- | [<- | [<- | [<- | []]]]]];
    cbn [String.eqb Ascii.eqb Bool.eqb andb orb];
    split_ifs; vm_compute; discriminate.
Qed.

Lemma best_of_in (scores : list (string * Q)) : forall best,
  In (best_of scores best) (best :: scores).
Proof.
  induction scores as [|[name score] scores IH]; intros best;
    [now left|].
  cbn [best_of]. destruct (Qltb (snd best) score).
  - right. apply IH.
  - destruct (IH best) as [E | Hin]; [left; exact E | right; right; exact Hin].
Qed.

(** The best match is one of the eight signatures with its score over
    three. *)
Lemma best_score (hip_rotation knee_chamber : Q) (foot_path : string) :
  exists name signature,
    In (name, signature) KICK_SIGNATURES
    /\ match map (fun '(kick_name, signature) =>
                    (kick_name,
                     (signature_score signature hip_rotation knee_chamber
                        foot_path / 3)%Q))
                 KICK_SIGNATURES with
       | [] => ("", 0%Q)
       | first :: rest => best_of rest first
       end
       = (name,
          (signature_score signature hip_rotation knee_chamber foot_path
           / 3)%Q).
Proof.
  unfold KICK_SIGNATURES. cbn [map].
  match goal with
  | |- context [best_of ?rest ?first] =>
      pose proof (best_of_in rest first) as Hin;
      set (best := best_of rest first) in *; clearbody best
  end.
  cbn [In] in Hin.
  repeat (destruct Hin as [<- | Hin];
          [eexists _, _; split; [|reflexivity]; cbn [In]; pick|]).
  contradiction.
Qed.

Section Detector.
Variable arctan2_degrees : Q -> Q -> Q.
Variable degrees_between : Vec3 -> Vec3 -> Q.

Local Abbreviation detect_kick_type :=
  (detect_kick_type arctan2_degrees degrees_between).

(** The confidence [detect_kick_type] reports is a number of sixths
    between 0 and 1, so a threshold of 0.65 accepts from 2/3 on; no
    kick type comes with a confidence of 0; ['unknown'] is reported
    under the threshold only; a named kick type reaches the
    threshold and has its display name; and the hook and crescent
    kicks, whose foot paths [analyze_foot_path] never names, never
    reach full confidence. *)
Theorem detect_kick_type_confidence (self : AutoKickDetector)
    (landmarks : option (list Landmark)) :
  let detection := snd (detect_kick_type self landmarks) in
  (exists n : Z,
     0 <= n <= 6 /\ (confidence detection == inject_Z n / 6)%Q)
  /\ ((65 # 100 <= confidence detection)%Q ->
      (2 # 3 <= confidence detection)%Q)
  /\ (kick_type detection = None -> confidence detection = 0%Q)
  /\ (kick_type detection = Some "unknown" ->
      (confidence detection < confidence_threshold self)%Q)
  /\ (forall t, kick_type detection = Some t -> t <> "unknown" ->
      (confidence_threshold self <= confidence detection)%Q
      /\ exists name,
           kick_name detection = Some name /\ In (t, name) KICK_NAMES)
  /\ (kick_type detection = Some "huryo_chagi"
      \/ kick_type detection = Some "bandal_chagi" ->
      (confidence detection <= 5 # 6)%Q).
Proof.
  cbv zeta.
  assert (Hsix : forall c : Q,
             (exists n : Z, 0 <= n <= 6 /\ (c == inject_Z n / 6)%Q) ->
             (65 # 100 <= c)%Q -> (2 # 3 <= c)%Q).
  { intros c (n & Hn & E) Hc.
    assert (E' : (c == inject_Z n * (1 # 6))%Q) by (rewrite E; field).
    clear E.
    assert (4 <= n).
    { destruct (Z_lt_le_dec n 4) as [L|L]; [|exact L]. exfalso.
      assert (Hq : (inject_Z n <= 3)%Q)
        by (change 3%Q with (inject_Z 3); rewrite <- Zle_Qle; lia).
      lra. }
    assert (Hq : (4 <= inject_Z n)%Q)
      by (change 4%Q with (inject_Z 4); rewrite <- Zle_Qle; lia).
    lra. }
  assert (Hzero : exists n : Z, 0 <= n <= 6 /\ (0 == inject_Z n / 6)%Q)
    by (exists 0; split; [lia | reflexivity]).
  unfold KickType.detect_kick_type.
  destruct landmarks as [landmarks|].
  2:{ cbn. repeat split; auto; try discriminate;
        try (intros [H | H]; discriminate H). }
  destruct (String.eqb (detect_kicking_leg landmarks) "none").
  { cbn. repeat split; auto; try discriminate;
      try (intros [H | H]; discriminate H). }
  pose proof (analyze_foot_path_names self landmarks) as (Hp & Ht & _).
  destruct (analyze_foot_path self landmarks) as [self1 foot_path].
  cbn [fst snd] in Hp, Ht.
  destruct (best_score (calculate_hip_rotation arctan2_degrees landmarks)
              (calculate_knee_chamber degrees_between landmarks
                 (detect_kicking_leg landmarks)) foot_path)
    as (name & signature & Hin & Eb).
  rewrite Eb, Ht.
  set (hip := calculate_hip_rotation arctan2_degrees landmarks) in *.
  set (knee := calculate_knee_chamber degrees_between landmarks
                 (detect_kicking_leg landmarks)) in *.
  clearbody hip knee.
  assert (Hn : exists n : Z,
             0 <= n <= 6
             /\ (signature_score signature hip knee foot_path / 3
                 == inject_Z n / 6)%Q).
  { destruct (signature_score_halves signature hip knee foot_path)
      as (n & Hn & E).
    exists n. split; [exact Hn|]. rewrite E. field. }
  assert (Hname : name <> "unknown"
                  /\ exists display,
                       odict_get KICK_NAMES name = Some display
                       /\ In (name, display) KICK_NAMES).
  { unfold KICK_SIGNATURES in Hin. cbn [In] in Hin.
    repeat (destruct Hin as [Hin | Hin];
            [injection Hin as <- _; split; [discriminate|];
             eexists; split; [reflexivity|]; unfold KICK_NAMES;
             cbn [In]; pick|]).
    contradiction. }
  assert (Hhook : name = "huryo_chagi" \/ name = "bandal_chagi" ->
                  (signature_score signature hip knee foot_path / 3
                   <= 5 # 6)%Q).
  { intros Hk.
    assert (Hs : sig_foot_path signature = "hook"
                 \/ sig_foot_path signature = "arc").
    { unfold KICK_SIGNATURES in Hin. cbn [In] in Hin.
      repeat (destruct Hin as [Hin | Hin];
              [injection Hin as <- <-;
               first [ left; reflexivity | right; reflexivity
                     | destruct Hk as [Hk | Hk]; discriminate Hk ]|]).
      contradiction. }
    pose proof (signature_score_without_path signature hip knee
                  foot_path Hp Hs).
    apply Qle_shift_div_r; [reflexivity|]. lra. }
  destruct Hname as (Hunknown & display & Hd & Hdin).
  destruct (Qleb (confidence_threshold self) _) eqn:Ec;
    cbn [snd kick_type kick_name confidence]; qreflect.
  - split; [exact Hn|]. split; [apply Hsix, Hn|].
    split; [discriminate|].
    split; [intros H; injection H as H; contradiction|].
    split.
    + intros t H Hne. injection H as <-. split; [exact Ec|].
      exists display. auto.
    + intros [H | H]; injection H as H; auto.
  - split; [exact Hn|]. split; [apply Hsix, Hn|].
    split; [discriminate|].
    split; [intros _; exact Ec|].
    split.
    + intros t H Hne. injection H as <-. contradiction.
    + intros [H | H]; discriminate H.
Qed.

End Detector.

End KickTypeProps.
